(** * genbids: the BIDS entity model, its builder and the merge writer

    A shallow embedding of [genbids/bids_model.py] and
    [genbids/bids_writer.py].

    Conventions of the embedding.
    - A [pathlib.Path] is the list of its [parts]; an absolute path starts
      with the part ["/"].
    - The file system is a finite map from paths to nodes.  A regular file
      holds a typed content: a JSON object (what [json.dump] wrote and
      [json.load] reads back), a table (what [DataFrame.to_csv] wrote and
      [pandas.read_csv] reads back) or any other bytes.  [to_csv] gives the
      text of a table file.
    - Python exceptions are values of [exception]; a method that can raise
      returns an [outcome], and the writer threads the file system through
      every call, keeping what was written before a failure.
    - Python lists and dicts that are shared by reference (the builder's
      accumulators) live in a [heap] and are named by their location. *)

From Stdlib Require Import String Ascii List Bool Arith Lia.
From stdpp Require Import base option list gmap strings fin_maps.

Local Open Scope string_scope.
Local Open Scope list_scope.

(** ** Strings and paths *)

Module PathLib.

(** [pathlib]'s [parts]: ["/a/b"] is [["/"; "a"; "b"]], ["a/b"] is
    [["a"; "b"]] and ["."] is [[]]. *)
Abbreviation Path := (list string) (only parsing).

Definition slash : ascii := "/"%char.
Definition dot : ascii := "."%char.

(** Cut a string at every ["/"]. *)
Fixpoint split_slash (s : string) : list string :=
  match s with
  | EmptyString => [EmptyString]
  | String c s' =>
      if Ascii.eqb c slash then EmptyString :: split_slash s'
      else match split_slash s' with
           | [] => [String c EmptyString]
           | w :: ws => String c w :: ws
           end
  end.

Definition is_component (w : string) : bool :=
  negb (String.eqb w "" || String.eqb w ".").

Definition starts_with_slash (s : string) : bool :=
  match s with
  | String c _ => Ascii.eqb c slash
  | EmptyString => false
  end.

(** [Path(s)]: empty and ["."] components are dropped. *)
Definition parse (s : string) : Path :=
  (if starts_with_slash s then ["/"] else []) ++ List.filter is_component (split_slash s).

Definition is_absolute (p : Path) : bool :=
  match p with
  | r :: _ => String.eqb r "/"
  | [] => false
  end.

(** [p / s]: an absolute right operand replaces the left one. *)
Definition joinpath (p q : Path) : Path :=
  if is_absolute q then q else p ++ q.

Definition div (p : Path) (s : string) : Path := joinpath p (parse s).

(** [p.parent]; the anchors ["/"] and ["."] are their own parent. *)
Definition parent (p : Path) : Path :=
  match p with
  | [r] => if String.eqb r "/" then p else []
  | _ => removelast p
  end.

(** [p.name]: the last part, empty for the anchors. *)
Definition name (p : Path) : string :=
  match List.last p "" with
  | w => if String.eqb w "/" then "" else w
  end.

(** Position of the last ["."] of a name, as [name.rfind(".")] gives it. *)
Fixpoint rfind_dot (s : string) : option nat :=
  match s with
  | EmptyString => None
  | String c s' =>
      match rfind_dot s' with
      | Some i => Some (S i)
      | None => if Ascii.eqb c dot then Some 0 else None
      end
  end.

Fixpoint take_string (n : nat) (s : string) : string :=
  match n, s with
  | S n', String c s' => String c (take_string n' s')
  | _, _ => EmptyString
  end.

(** [p.stem]: the name without its suffix; a name has a suffix when its
    last dot is neither its first nor its last character. *)
Definition stem_of (nm : string) : string :=
  match rfind_dot nm with
  | Some i => if ((0 <? i) && (i <? String.length nm - 1))%nat then take_string i nm else nm
  | None => nm
  end.

(** [p.with_suffix(sfx)]; [None] is the [ValueError] of an empty name. *)
Definition with_suffix (p : Path) (sfx : string) : option Path :=
  if String.eqb (name p) "" then None
  else Some (removelast p ++ [stem_of (name p) +:+ sfx]).

End PathLib.

Import PathLib.

(** ** Values shared by both modules *)

(** A [pandas.DataFrame] of text cells: the column labels and the rows. *)
Record DataFrame := { columns : list string; rows : list (list string) }.

Abbreviation dict := (gmap string string) (only parsing).

(** The exceptions the two modules raise or let through.  The comment gives
    the Python exception; the name is the error kind it stands for. *)
Inductive exception :=
| UnsupportedResourceType   (* ValueError("Resource must be a file path or tabular data.") *)
| NoModel                   (* ValueError("No BIDS model to write.") *)
| NoModelOrBuilder          (* ValueError("No BIDS model or BIDS Builder to write.") *)
| MergeStrategyRequired     (* ValueError("BIDS root is not empty, merge strategy required.") *)
| RootNotEmpty              (* ValueError("BIDS root is not empty, cannot merge.") *)
| EntityConflict (p : Path) (* ValueError(f"File {p} already exists.") *)
| UnknownMergeStrategy (strategy_name : string)
                            (* ValueError(f"Unknown merge strategy {s}.") *)
| NotSupported (what : string)
                            (* NotImplementedError("... merge strategy not implemented.") *)
| UnknownEntityType         (* ValueError(f"Unknown entity type for {entity}") *)
| EmptyName (p : Path)      (* ValueError: with_suffix on a path with an empty name *)
| FileExistsError (p : Path)
| FileNotFoundError (p : Path)
| NotADirectoryError (p : Path)
| IsADirectoryError (p : Path)
| SameFileError (p : Path)
| JSONDecodeError (p : Path)
| ParserError (p : Path).

Inductive outcome (A : Type) :=
| Return (a : A)
| Raise (e : exception).
Arguments Return {A} a.
Arguments Raise {A} e.

(** A location of the heap. *)
Abbreviation loc := nat (only parsing).

(** ** bids_model.py *)

Module bids_model.

Record BidsEntity := {
  subject_id : string;
  datatype : string;
  task_name : string;
  suffix : string;
  session_id : option string;
  metadata : option dict;
  file_path : option Path;
  tabular_data : option DataFrame;
  run_id : option string
}.

(** The constructor the [dataclass] decorator generates: the class has no
    [__post_init__], so the arguments are stored as they come. *)
Definition BidsEntity_new (subject_id datatype task_name suffix : string)
    (session_id : option string) (metadata : option dict)
    (file_path : option Path) (tabular_data : option DataFrame)
    (run_id : option string) : outcome BidsEntity :=
  Return {| subject_id := subject_id; datatype := datatype;
            task_name := task_name; suffix := suffix;
            session_id := session_id; metadata := metadata;
            file_path := file_path; tabular_data := tabular_data;
            run_id := run_id |}.

Definition is_file_resource (self : BidsEntity) : bool :=
  match file_path self with Some _ => true | None => false end.

Definition is_tabular_data (self : BidsEntity) : bool :=
  match tabular_data self with Some _ => true | None => false end.

(** [f"{x}"] for an optional string: [None] prints as ["None"]. *)
Definition fmt (x : option string) : string :=
  match x with Some s => s | None => "None" end.

Record BidsConfig := {
  subject_formatter : BidsEntity -> string;
  task_name_formatter : BidsEntity -> string;
  session_formatter : BidsEntity -> string;
  entity_formatter : BidsEntity -> string;
  merge_participants_tsv : bool;
  merge_dataset_description : bool;
  include_sessions : bool;
  default_session_name : option string
}.

Definition relative_entity_dir (self : BidsConfig) (entity : BidsEntity) : Path :=
  let rel_path := parse (subject_formatter self entity) in
  let rel_path :=
    if include_sessions self then div rel_path (session_formatter self entity)
    else rel_path in
  div rel_path (datatype entity).

Definition relative_entity_path (self : BidsConfig) (entity : BidsEntity) : Path :=
  div (relative_entity_dir self entity) (entity_formatter self entity).

Definition relative_entity_metadata_path (self : BidsConfig) (entity : BidsEntity)
    : outcome Path :=
  match with_suffix (relative_entity_path self entity) ".json" with
  | Some p => Return p
  | None => Raise (EmptyName (relative_entity_path self entity))
  end.

Definition default_subject_formatter (entity : BidsEntity) : string :=
  "sub-" +:+ subject_id entity.

Definition default_task_name_formatter (entity : BidsEntity) : string :=
  "task-" +:+ task_name entity.

Definition default_session_formatter (entity : BidsEntity) : string :=
  "ses-" +:+ fmt (session_id entity).

(** The session part of the name is commented out in the source. *)
Definition default_entity_formatter (entity : BidsEntity) : string :=
  let name_parts := ["sub-" +:+ subject_id entity] in
  let name_parts := name_parts ++ ["task-" +:+ task_name entity] in
  let name_parts :=
    match run_id entity with
    | Some r => name_parts ++ ["run-" +:+ r]
    | None => name_parts
    end in
  let name_parts := name_parts ++ [suffix entity] in
  String.concat "_" name_parts.

Definition BidsConfig_default : BidsConfig :=
  {| subject_formatter := default_subject_formatter;
     task_name_formatter := default_task_name_formatter;
     session_formatter := default_session_formatter;
     entity_formatter := default_entity_formatter;
     merge_participants_tsv := true;
     merge_dataset_description := true;
     include_sessions := false;
     default_session_name := None |}.

(** The lists and dicts that are shared by reference. *)
Record heap := {
  entity_lists : list (list BidsEntity);
  description_dicts : list dict
}.

Definition get_entities (h : heap) (l : loc) : list BidsEntity :=
  default [] (entity_lists h !! l).

Definition get_description (h : heap) (l : loc) : dict :=
  default ∅ (description_dicts h !! l).

(** [l.append(x)] on the list at [l]. *)
Definition list_append (l : loc) (x : BidsEntity) (h : heap) : heap :=
  {| entity_lists := alter (fun es => es ++ [x]) l (entity_lists h);
     description_dicts := description_dicts h |}.

(** [d.update(new)] on the dict at [l]: the keys of [new] win. *)
Definition dict_update (l : loc) (new : dict) (h : heap) : heap :=
  {| entity_lists := entity_lists h;
     description_dicts := alter (fun d => new ∪ d) l (description_dicts h) |}.

(** A list display [[x; ...]] and a dict display evaluated by a caller:
    a new object each time. *)
Definition new_list (es : list BidsEntity) (h : heap) : loc * heap :=
  (length (entity_lists h),
   {| entity_lists := entity_lists h ++ [es];
      description_dicts := description_dicts h |}).

Definition new_dict (d : dict) (h : heap) : loc * heap :=
  (length (description_dicts h),
   {| entity_lists := entity_lists h;
      description_dicts := description_dicts h ++ [d] |}).

(** The defaults [[]] and [{}] of [BidsBuilder.__init__] are evaluated
    once, when the class body runs: two objects that every call without
    arguments receives. *)
Definition default_entities : loc := 0.
Definition default_dataset_description : loc := 0.

(** The heap once the module is imported. *)
Definition heap_at_import : heap :=
  {| entity_lists := [[]]; description_dicts := [∅] |}.

(** [subject_ids_cache] is the slot [cached_property] fills on first use. *)
Record BidsModel := {
  entities : loc;
  dataset_description : loc;
  subject_ids_cache : option (list string)
}.

(** [list(set(...))]: each subject once.  Python leaves the order of a set
    open; the embedding keeps the first occurrences in order. *)
Definition subject_ids (self : BidsModel) (h : heap) : list string * BidsModel :=
  match subject_ids_cache self with
  | Some ids => (ids, self)
  | None =>
      let ids := remove_dups (map subject_id (get_entities h (entities self))) in
      (ids, {| entities := entities self;
               dataset_description := dataset_description self;
               subject_ids_cache := Some ids |})
  end.

Record BidsBuilder := {
  _entities : loc;
  _dataset_description : loc
}.

(** [None] stands for an argument left out. *)
Definition __init__ (entities dataset_description : option loc) : BidsBuilder :=
  {| _entities := default default_entities entities;
     _dataset_description := default default_dataset_description dataset_description |}.

Definition build (self : BidsBuilder) : BidsModel :=
  {| entities := _entities self;
     dataset_description := _dataset_description self;
     subject_ids_cache := None |}.

Definition add_dataset_description (self : BidsBuilder) (name bids_version : string)
    (fields : dict) (h : heap) : BidsBuilder * heap :=
  let h := dict_update (_dataset_description self)
             (<["Name" := name]> (<["BIDSVersion" := bids_version]> ∅)) h in
  let h := dict_update (_dataset_description self) fields h in
  (self, h).

(** What [add] can be handed as [resource]. *)
Inductive resource :=
| PathResource (p : Path)
| FrameResource (t : DataFrame)
| OtherResource.

Definition add (self : BidsBuilder) (subject_id datatype task_name suffix : string)
    (res : resource) (run_id session_id : option string) (metadata : option dict)
    (h : heap) : outcome BidsBuilder * heap :=
  match res with
  | PathResource p =>
      match BidsEntity_new subject_id datatype task_name suffix session_id
              metadata (Some p) None run_id with
      | Return entity => (Return self, list_append (_entities self) entity h)
      | Raise e => (Raise e, h)
      end
  | FrameResource t =>
      match BidsEntity_new subject_id datatype task_name suffix session_id
              metadata None (Some t) run_id with
      | Return entity => (Return self, list_append (_entities self) entity h)
      | Raise e => (Raise e, h)
      end
  | OtherResource => (Raise UnsupportedResourceType, h)
  end.

End bids_model.

Import bids_model.

(** ** The file system and the library calls of the writer *)

Module FileSystem.

Inductive content :=
| Json (d : dict)         (* a JSON object, as json.dump writes it *)
| Table (t : DataFrame)   (* a table, as DataFrame.to_csv writes it *)
| Blob (b : string).      (* any other bytes *)

Inductive node :=
| Dir
| File (c : content).

Abbreviation filesystem := (gmap (list string) node) (only parsing).

(** ["/"] and the working directory ["."] always exist. *)
Definition is_anchor (p : Path) : bool :=
  match p with
  | [] => true
  | [r] => String.eqb r "/"
  | _ => false
  end.

Definition node_at (fs : filesystem) (p : Path) : option node :=
  if is_anchor p then Some Dir else fs !! p.

(** A computation on the file system that may raise; the file system it
    leaves is kept in both cases. *)
Definition M (A : Type) : Type := filesystem -> outcome A * filesystem.

Definition ret {A} (a : A) : M A := fun fs => (Return a, fs).
Definition raise {A} (e : exception) : M A := fun fs => (Raise e, fs).
Definition bind {A B} (m : M A) (k : A -> M B) : M B :=
  fun fs =>
    match m fs with
    | (Return a, fs') => k a fs'
    | (Raise e, fs') => (Raise e, fs')
    end.

(** [p.exists()] *)
Definition path_exists (p : Path) : M bool :=
  fun fs => (Return (bool_decide (is_Some (node_at fs p))), fs).

(** [os.mkdir] along the parts of a path, from the top: the work of
    [p.mkdir(parents=True, exist_ok=True)].  [base] is the part of the
    path already walked. *)
Fixpoint mkdir_from (base : Path) (rest : list string) : M unit :=
  match rest with
  | [] => ret tt
  | c :: rest' =>
      let q := base ++ [c] in
      fun fs =>
        match node_at fs q with
        | Some Dir => mkdir_from q rest' fs
        | Some (File _) =>
            (Raise (match rest' with
                    | [] => FileExistsError q
                    | _ => NotADirectoryError q
                    end), fs)
        | None => mkdir_from q rest' (<[q := Dir]> fs)
        end
  end.

Definition mkdir_parents (p : Path) : M unit := mkdir_from [] p.

(** [list(p.iterdir())] *)
Definition iterdir (p : Path) : M (list Path) :=
  fun fs =>
    match node_at fs p with
    | Some Dir =>
        (Return (filter (fun q => parent q = p /\ q <> p) (map_to_list fs).*1), fs)
    | Some (File _) => (Raise (NotADirectoryError p), fs)
    | None => (Raise (FileNotFoundError p), fs)
    end.

(** [open(p, "w")] followed by writing [c] and closing. *)
Definition write_file (p : Path) (c : content) : M unit :=
  fun fs =>
    match node_at fs p with
    | Some Dir => (Raise (IsADirectoryError p), fs)
    | _ =>
        match node_at fs (parent p) with
        | Some Dir => (Return tt, <[p := File c]> fs)
        | Some (File _) => (Raise (NotADirectoryError p), fs)
        | None => (Raise (FileNotFoundError p), fs)
        end
    end.

(** [json.load] on the file at [p]. *)
Definition json_load (p : Path) : M dict :=
  fun fs =>
    match node_at fs p with
    | Some (File (Json d)) => (Return d, fs)
    | Some (File _) => (Raise (JSONDecodeError p), fs)
    | Some Dir => (Raise (IsADirectoryError p), fs)
    | None => (Raise (FileNotFoundError p), fs)
    end.

(** [json.dump(data, f, indent=2)] into the file at [p]. *)
Definition json_dump (data : dict) (p : Path) : M unit := write_file p (Json data).

(** [pandas.read_csv(p, sep="\t")]; only what [to_csv] wrote is read back. *)
Definition read_csv (p : Path) : M DataFrame :=
  fun fs =>
    match node_at fs p with
    | Some (File (Table t)) => (Return t, fs)
    | Some (File _) => (Raise (ParserError p), fs)
    | Some Dir => (Raise (IsADirectoryError p), fs)
    | None => (Raise (FileNotFoundError p), fs)
    end.

(** [data.to_csv(p, sep="\t", index=False)] *)
Definition to_csv (data : DataFrame) (p : Path) : M unit := write_file p (Table data).

Definition tab : string := String "009"%char EmptyString.
Definition newline : string := String "010"%char EmptyString.

Definition tsv_line (cells : list string) : string :=
  String.concat tab cells +:+ newline.

(** The text [to_csv(sep="\t", index=False)] writes: the column labels,
    then one line per row, cells separated by tabs, no index column. *)
Definition to_csv_text (data : DataFrame) : string :=
  String.concat "" (map tsv_line (columns data :: rows data)).

(** The value a row has in column [c]; empty where the column is missing. *)
Fixpoint cell (cols row : list string) (c : string) : string :=
  match cols, row with
  | k :: cols', v :: row' => if String.eqb k c then v else cell cols' row' c
  | _, _ => ""
  end.

Definition reindex (cols : list string) (t : DataFrame) : list (list string) :=
  map (fun row => map (cell (columns t) row) cols) (rows t).

(** [pandas.concat([a, b])]: the rows of [a] then those of [b], over the
    columns of both. *)
Definition concat (a b : DataFrame) : DataFrame :=
  let cols :=
    columns a
    ++ List.filter (fun c => negb (existsb (String.eqb c) (columns a))) (columns b) in
  {| columns := cols; rows := reindex cols a ++ reindex cols b |}.

(** [shutil.copy2(src, dst)]: into [dst] when it is a directory. *)
Definition copy2 (src dst : Path) : M unit :=
  fun fs =>
    match node_at fs src with
    | Some (File c) =>
        let target :=
          match node_at fs dst with
          | Some Dir => dst ++ [name src]
          | _ => dst
          end in
        if bool_decide (target = src) then (Raise (SameFileError src), fs)
        else write_file target c fs
    | Some Dir => (Raise (IsADirectoryError src), fs)
    | None => (Raise (FileNotFoundError src), fs)
    end.

End FileSystem.

Import FileSystem.

Notation "x <- m ;; k" := (bind m (fun x => k))
  (at level 100, m at next level, right associativity).
Notation "m ;;; k" := (bind m (fun _ => k))
  (at level 100, right associativity).

(** ** bids_writer.py *)

Module bids_writer.

Inductive MergeStrategy :=
| UNKNOWN_MERGE
| NO_MERGE
| OVERWRITE
| KEEP
| RENAME_ENTITIES
| NEW_SESSION.

Definition value (s : MergeStrategy) : nat :=
  match s with
  | UNKNOWN_MERGE => 0
  | NO_MERGE => 1
  | OVERWRITE => 2
  | KEEP => 3
  | RENAME_ENTITIES => 5
  | NEW_SESSION => 6
  end.

Definition __str__ (s : MergeStrategy) : string :=
  match s with
  | UNKNOWN_MERGE => "UNKNOWN_MERGE"
  | NO_MERGE => "NO_MERGE"
  | OVERWRITE => "OVERWRITE"
  | KEEP => "KEEP"
  | RENAME_ENTITIES => "RENAME_ENTITIES"
  | NEW_SESSION => "NEW_SESSION"
  end.

(** [==] on members of the enumeration. *)
Definition strategy_eqb (a b : MergeStrategy) : bool := Nat.eqb (value a) (value b).

Record BidsWriter := {
  _bids_root : Path;
  _entity_merge_strategy : MergeStrategy;
  _bids : option BidsModel;
  _builder : option BidsBuilder;
  _config : BidsConfig
}.

(** [None] as [bids] or [config] stands for an argument left out. *)
Definition BidsWriter_new (bids_root : Path) (entity_merge_strategy : MergeStrategy)
    (bids : option BidsModel) (config : option BidsConfig) : BidsWriter :=
  {| _bids_root := bids_root;
     _entity_merge_strategy := entity_merge_strategy;
     _bids := bids;
     _builder := None;
     _config := default BidsConfig_default config |}.

Definition __enter__ (self : BidsWriter) : BidsWriter := self.

(** [builder()] hands out the writer's builder, made on first use by
    [BidsBuilder()] without arguments. *)
Definition builder (self : BidsWriter) : BidsBuilder * BidsWriter :=
  match _builder self with
  | Some b => (b, self)
  | None =>
      let b := __init__ None None in
      (b, {| _bids_root := _bids_root self;
             _entity_merge_strategy := _entity_merge_strategy self;
             _bids := _bids self;
             _builder := Some b;
             _config := _config self |})
  end.

Definition _merge_json (path : Path) (data : dict) : M unit :=
  present <- path_exists path ;;
  data <- (if present : bool
           then existing_data <- json_load path ;; ret (data ∪ existing_data)
           else ret data) ;;
  json_dump data path.

Definition _merge_tsv (path : Path) (data : DataFrame) : M unit :=
  present <- path_exists path ;;
  data <- (if present : bool
           then existing_data <- read_csv path ;; ret (concat existing_data data)
           else ret data) ;;
  to_csv data path.

Definition _ensure_directory_path (path : Path) (is_dir : bool) : M unit :=
  if is_dir then
    present <- path_exists path ;;
    if present : bool then ret tt else mkdir_parents path
  else
    present <- path_exists (parent path) ;;
    if present : bool then ret tt else mkdir_parents (parent path).

(** Truth value of [entity.metadata]: set and not empty. *)
Definition truthy (metadata : option dict) : bool :=
  match metadata with
  | Some d => bool_decide (d <> ∅)
  | None => false
  end.

Definition lift {A} (r : outcome A) : M A := fun fs => (r, fs).

Definition _merge_entity (self : BidsWriter) (entity : BidsEntity)
    (write_op : Path -> M unit) : M unit :=
  let expected_filepath :=
    joinpath (_bids_root self) (relative_entity_path (_config self) entity) in
  present <- path_exists expected_filepath ;;
  if strategy_eqb (_entity_merge_strategy self) NO_MERGE && present then
    raise (EntityConflict expected_filepath)
  else if strategy_eqb (_entity_merge_strategy self) OVERWRITE then
    _ensure_directory_path expected_filepath false ;;;
    write_op expected_filepath ;;;
    if truthy (metadata entity) then
      metadata_path <- lift (relative_entity_metadata_path (_config self) entity) ;;
      _merge_json (joinpath (_bids_root self) metadata_path)
                  (default ∅ (metadata entity))
    else ret tt
  else if strategy_eqb (_entity_merge_strategy self) KEEP then
    ret tt
  else if strategy_eqb (_entity_merge_strategy self) RENAME_ENTITIES then
    raise (NotSupported "RENAME_ENTITIES merge strategy not implemented.")
  else if strategy_eqb (_entity_merge_strategy self) NEW_SESSION then
    raise (NotSupported "New session merge strategy not implemented.")
  else
    raise (UnknownMergeStrategy (__str__ (_entity_merge_strategy self))).

(** The block of [write] under the comment "Confirm root". *)
Definition confirm_root (self : BidsWriter) : M unit :=
  mkdir_parents (_bids_root self) ;;;
  found <- iterdir (_bids_root self) ;;
  if (0 <? length found)%nat then
    if strategy_eqb (_entity_merge_strategy self) UNKNOWN_MERGE then
      raise MergeStrategyRequired
    else if strategy_eqb (_entity_merge_strategy self) NO_MERGE then
      raise RootNotEmpty
    else ret tt
  else ret tt.

(** The block under "Write dataset_description.json". *)
Definition write_dataset_description (self : BidsWriter) (bids : BidsModel) (h : heap)
    : M unit :=
  let data_description_path := div (_bids_root self) "dataset_description.json" in
  present <- path_exists data_description_path ;;
  if negb present || merge_dataset_description (_config self) then
    _merge_json data_description_path (get_description h (dataset_description bids))
  else ret tt.

(** The block under "Write participants.tsv".  Reading [subject_ids]
    fills the cache of the model, which is returned with the outcome. *)
Definition write_participants (self : BidsWriter) (bids : BidsModel) (h : heap)
    (fs : filesystem) : outcome unit * BidsModel * filesystem :=
  let participants_path := div (_bids_root self) "participants.tsv" in
  match path_exists participants_path fs with
  | (Return present, fs) =>
      if negb present || merge_participants_tsv (_config self) then
        let '(ids, bids) := subject_ids bids h in
        let '(r, fs) :=
          _merge_tsv participants_path
            {| columns := ["participant"]; rows := map (fun i => [i]) ids |} fs in
        (r, bids, fs)
      else (Return tt, bids, fs)
  | (Raise e, fs) => (Raise e, bids, fs)
  end.

(** The body of the loop under "Write subject folders". *)
Definition write_entity (self : BidsWriter) (entity : BidsEntity) : M unit :=
  match file_path entity with
  | Some fp => _merge_entity self entity (fun path => copy2 fp path)
  | None =>
      match tabular_data entity with
      | Some tb => _merge_entity self entity (fun path => to_csv tb path)
      | None => raise UnknownEntityType
      end
  end.

Fixpoint for_each {A} (body : A -> M unit) (xs : list A) : M unit :=
  match xs with
  | [] => ret tt
  | x :: xs' => body x ;;; for_each body xs'
  end.

Definition set_bids (self : BidsWriter) (bids : BidsModel) : BidsWriter :=
  {| _bids_root := _bids_root self;
     _entity_merge_strategy := _entity_merge_strategy self;
     _bids := Some bids;
     _builder := _builder self;
     _config := _config self |}.

(** The two tests on [self._bids] and [self._builder] that open [write]:
    a writer without a model takes the one its builder builds. *)
Definition with_model (self : BidsWriter) : BidsWriter :=
  match _bids self, _builder self with
  | None, Some b => set_bids self (build b)
  | _, _ => self
  end.

(** What [write] does after the block "Confirm root". *)
Definition write_files (self : BidsWriter) (bids : BidsModel) (h : heap)
    (fs : filesystem) : outcome bool * BidsWriter * filesystem :=
  match write_dataset_description self bids h fs with
  | (Raise e, fs) => (Raise e, self, fs)
  | (Return _, fs) =>
      match write_participants self bids h fs with
      | (Raise e, bids, fs) => (Raise e, set_bids self bids, fs)
      | (Return _, bids, fs) =>
          let self := set_bids self bids in
          match for_each (write_entity self) (get_entities h (entities bids)) fs with
          | (Raise e, fs) => (Raise e, self, fs)
          | (Return _, fs) => (Return true, self, fs)
          end
      end
  end.

(** [write] also assigns [self._bids], so it returns the writer too. *)
Definition write (self : BidsWriter) (h : heap) (fs : filesystem)
    : outcome bool * BidsWriter * filesystem :=
  match _bids self, _builder self with
  | None, None => (Raise NoModel, self, fs)
  | _, _ =>
      let self := with_model self in
      match _bids self with
      | None => (Raise NoModelOrBuilder, self, fs)
      | Some bids =>
          match confirm_root self fs with
          | (Raise e, fs) => (Raise e, self, fs)
          | (Return _, fs) => write_files self bids h fs
          end
      end
  end.

(** What [__exit__] is told about the block it closes. *)
Record exc_info := {
  exc_type : option string;
  exc_value : option exception;
  traceback : option (list string)
}.

Definition __exit__ (self : BidsWriter) (exc : exc_info) (h : heap) (fs : filesystem)
    : outcome bool * BidsWriter * filesystem :=
  write self h fs.

Definition no_exception : exc_info :=
  {| exc_type := None; exc_value := None; traceback := None |}.

Definition raised (e : exception) : exc_info :=
  {| exc_type := Some "Exception"; exc_value := Some e; traceback := Some [] |}.

(** Python's [with self as w: body]: [__exit__] runs in both cases; an
    exception of the body is dropped when [__exit__] returns a true value,
    raised again when it returns a false one, and replaced when [__exit__]
    itself raises.  [None] is the result of a block that was cut short. *)
Definition with_statement {A}
    (self : BidsWriter)
    (body : BidsWriter -> heap -> filesystem -> outcome A * BidsWriter * heap * filesystem)
    (h : heap) (fs : filesystem)
    : outcome (option A) * BidsWriter * heap * filesystem :=
  match body (__enter__ self) h fs with
  | (Return a, self, h, fs) =>
      match __exit__ self no_exception h fs with
      | (Return _, self, fs) => (Return (Some a), self, h, fs)
      | (Raise e', self, fs) => (Raise e', self, h, fs)
      end
  | (Raise e, self, h, fs) =>
      match __exit__ self (raised e) h fs with
      | (Return true, self, fs) => (Return None, self, h, fs)
      | (Return false, self, fs) => (Raise e, self, h, fs)
      | (Raise e', self, fs) => (Raise e', self, h, fs)
      end
  end.

End bids_writer.

Import bids_writer.

(** ** bids_model.py: the labels of an entity and [has_sessions] *)

(** Truth value of an optional string: set and not empty. *)
Definition str_truthy (x : option string) : bool :=
  match x with
  | Some s => negb (String.eqb s "")
  | None => false
  end.

Definition _bids_subject_label (self : BidsModel) (entity : BidsEntity) : string :=
  "sub-" +:+ subject_id entity.

Definition _bids_task_label (self : BidsModel) (entity : BidsEntity) : string :=
  "task-" +:+ task_name entity.

Definition _bids_session_label (self : BidsModel) (entity : BidsEntity) : option string :=
  if str_truthy (session_id entity) then Some ("ses-" +:+ fmt (session_id entity))
  else None.

Definition _bids_run_label (self : BidsModel) (entity : BidsEntity) : option string :=
  if str_truthy (run_id entity) then Some ("run-" +:+ fmt (run_id entity))
  else None.

(** [has_sessions] is a [cached_property] like [subject_ids]; the slot it
    fills on first use is passed along with the model. *)
Definition has_sessions (self : BidsModel) (slot : option bool) (h : heap)
    : bool * option bool :=
  match slot with
  | Some b => (b, slot)
  | None =>
      let b := existsb (fun entity => str_truthy (session_id entity))
                 (get_entities h (entities self)) in
      (b, Some b)
  end.

(** ** bids_writer.py: the names of the strategies *)

(** [list(MergeStrategy)]: the members in the order of their definition. *)
Definition members : list MergeStrategy :=
  [UNKNOWN_MERGE; NO_MERGE; OVERWRITE; KEEP; RENAME_ENTITIES; NEW_SESSION].

(** [f"{self.__class__}.{str(self)}"] *)
Definition __repr__ (s : MergeStrategy) : string :=
  "<enum 'MergeStrategy'>." +:+ __str__ s.

(** [s.upper()] on ASCII text: the letters a to z are raised, every other
    character is kept. *)
Definition upper_char (c : ascii) : ascii :=
  let n := nat_of_ascii c in
  if ((97 <=? n) && (n <=? 122))%nat then ascii_of_nat (n - 32) else c.

Fixpoint upper (s : string) : string :=
  match s with
  | EmptyString => EmptyString
  | String c s' => String (upper_char c) (upper s')
  end.

(** [MergeStrategy[s.upper()]]; [None] is the [KeyError] of a name that no
    member has. *)
Definition argparse (s : string) : option MergeStrategy :=
  List.find (fun m => String.eqb (__str__ m) (upper s)) members.

(** ** oak_mindlogger/oak_report.py: the file of a response

    The report object is kept to the directories these methods read; its
    tables take no part in them.  The methods only read the file system,
    so they are functions of it.  [Path.match] and [pandas.read_csv] on a
    comma-separated file are library calls whose result is taken as
    given. *)

Module oak_report.

Inductive error :=
| OSError (e : exception)     (* what listing a directory raises *)
| EmptyPattern                (* ValueError("empty pattern") of Path.match *)
| MultipleResponses           (* ValueError("... Multiple responses found in different zip files ...") *)
| MultipleMediaResponses      (* ValueError("... Multiple media responses found ...") *)
| MultipleDrawingResponses    (* ValueError("... Multiple drawing responses found ...") *)
| MultipleTrailsResponses     (* ValueError("... Multiple trails responses found ...") *)
| NoResponses (response : string)
                              (* ValueError(f"... No responses found: {response}") *)
| ReadError (p : Path).       (* what pandas.read_csv raises *)

Record OakReport := {
  _data_directory : Path;
  _drawing_dir : Path;
  _media_dir : Path;
  _trails_dir : Path
}.





(** The white space of ASCII, as [str.isspace] has it. *)
Definition is_space (c : ascii) : bool :=
  let n := nat_of_ascii c in
  ((9 <=? n) && (n <=? 13) || (28 <=? n) && (n <=? 32))%nat.

Fixpoint lstrip (s : string) : string :=
  match s with
  | String c s' => if is_space c then lstrip s' else s
  | EmptyString => EmptyString
  end.

Fixpoint rstrip (s : string) : string :=
  match s with
  | String c s' =>
      match rstrip s' with
      | EmptyString => if is_space c then EmptyString else String c EmptyString
      | r => String c r
      end
  | EmptyString => EmptyString
  end.

(** [s.strip()] on ASCII text. *)
Definition strip (s : string) : string := rstrip (lstrip s).

Section Library.

(** [file.match(pattern)]; [None] is its [ValueError]. *)
Variable path_match : Path -> string -> option bool.

(** [pandas.read_csv(p)]; [None] is any exception of it. *)
Variable read_csv_commas : filesystem -> Path -> option DataFrame.

(** [[file for file in files if file.match(search)]] *)
Fixpoint matching (files : list Path) (search : string) : error + list Path :=
  match files with
  | [] => inr []
  | file :: files' =>
      match path_match file search with
      | None => inl EmptyPattern
      | Some b =>
          match matching files' search with
          | inl e => inl e
          | inr found => inr (if b then file :: found else found)
          end
      end
  end.

(** The comprehension over [dir.iterdir()]. *)
Definition search_in (dir : Path) (search : string) (fs : filesystem)
    : error + list Path :=
  match iterdir dir fs with
  | (Return files, _) => matching files search
  | (Raise e, _) => inl (OSError e)
  end.

Definition _search_media (self : OakReport) (search : string) (fs : filesystem)
    : error + list Path :=
  search_in (_media_dir self) search fs.

Definition _search_drawings (self : OakReport) (search : string) (fs : filesystem)
    : error + list Path :=
  search_in (_drawing_dir self) search fs.

Definition _search_trails (self : OakReport) (search : string) (fs : filesystem)
    : error + list Path :=
  search_in (_trails_dir self) search fs.

Definition _find_response_artifact_path (self : OakReport) (response : string)
    (fs : filesystem) : error + Path :=
  match _search_media self response fs with
  | inl e => inl e
  | inr media_responses =>
  match _search_drawings self response fs with
  | inl e => inl e
  | inr drawing_responses =>
  match _search_trails self response fs with
  | inl e => inl e
  | inr trails_responses =>
      if (1 <? length media_responses + length drawing_responses
               + length trails_responses)%nat
      then inl MultipleResponses
      else
        match media_responses with
        | p :: _ =>
            if (1 <? length media_responses)%nat then inl MultipleMediaResponses
            else inr p
        | [] =>
        match drawing_responses with
        | p :: _ =>
            if (1 <? length drawing_responses)%nat then inl MultipleDrawingResponses
            else inr p
        | [] =>
        match trails_responses with
        | p :: _ =>
            if (1 <? length trails_responses)%nat then inl MultipleTrailsResponses
            else inr p
        | [] => inl (NoResponses response)
        end
        end
        end
  end
  end
  end.


End Library.

End oak_report.

(** ** mindlogger_graphomotor/report_preprocessors.py

    A table is the list of its rows, top first, each row under an index
    label of its own; a row is kept to the columns the preprocessors read
    or write, the others travelling with it as [cells].  [None] is a
    missing value ([NaN], [NaT], [NA]); a time is a number of
    milliseconds. *)

Module report_preprocessors.

Record Row := {
  item : option string;
  response : option string;
  study_id : option string;
  item_id : option string;
  activity_start_time : option Z;
  cells : list (string * string)
}.

(** [df["item"] == name], row by row. *)
Definition is_item (name : string) (r : Row) : bool :=
  bool_decide (item r = Some name).

(** [df["response"].where(df["item"] == "study_id")] *)
Definition where_study_id (rows : list Row) : list (option string) :=
  map (fun r => if is_item "study_id" r then response r else None) rows.

(** [s.shift(1)] *)
Definition shift (s : list (option string)) : list (option string) :=
  take (length s) (None :: s).

(** [s.fillna(other)], for two columns of one table. *)
Definition fillna (s other : list (option string)) : list (option string) :=
  zip_with (fun x y => match x with Some _ => x | None => y end) s other.

(** [s.bfill()]: a missing value takes the next value below. *)
Fixpoint bfill (s : list (option string)) : list (option string) :=
  match s with
  | [] => []
  | x :: s' =>
      let rest := bfill s' in
      match x with
      | Some _ => x
      | None => match rest with y :: _ => y | [] => None end
      end :: rest
  end.

(** [s.ffill()]: a missing value takes the last value above. *)
Fixpoint ffill_from (above : option string) (s : list (option string))
    : list (option string) :=
  match s with
  | [] => []
  | x :: s' =>
      let v := match x with Some _ => x | None => above end in
      v :: ffill_from v s'
  end.

Definition ffill (s : list (option string)) : list (option string) :=
  ffill_from None s.

Definition set_study_id (v : option string) (r : Row) : Row :=
  {| item := item r; response := response r; study_id := v;
     item_id := item_id r; activity_start_time := activity_start_time r;
     cells := cells r |}.

(** [df["study_id"] = s] *)
Definition assign_study_id (rows : list Row) (s : list (option string)) : list Row :=
  zip_with (fun r v => set_study_id v r) rows s.

(** [StudyIdPreprocessor.__call__].  The columns are aligned by place and
    [drop] removes the rows whose item is [study_id]: the index of a table
    read from an export has one label for each row. *)
Definition StudyIdPreprocessor (report activity : list Row) : list Row * list Row :=
  let report := assign_study_id report (where_study_id report) in
  let report :=
    assign_study_id report
      (bfill (fillna (map study_id report) (shift (map study_id report)))) in
  let report := filter (fun r => is_item "study_id" r = false) report in
  let activity := assign_study_id activity (where_study_id activity) in
  let activity :=
    assign_study_id activity
      (zip_with (fun r v => if is_item "cursive_q" r then Some "STOP" else v)
         activity (map study_id activity)) in
  let activity := assign_study_id activity (bfill (map study_id activity)) in
  let activity :=
    assign_study_id activity
      (map (fun v => if bool_decide (v = Some "STOP") then None else v)
         (map study_id activity)) in
  let activity := assign_study_id activity (ffill (map study_id activity)) in
  (report, activity).

(** [s.is_monotonic_decreasing]: no value is missing and none is greater
    than the one before. *)
Fixpoint is_monotonic_decreasing (xs : list (option Z)) : bool :=
  match xs with
  | [] => true
  | None :: _ => false
  | Some x :: rest =>
      match rest with
      | [] => true
      | None :: _ => false
      | Some y :: _ => (y <=? x)%Z && is_monotonic_decreasing rest
      end
  end.

(** Two rows agree on the columns of [subset]; missing values agree. *)
Definition same_subset (a b : Row) : bool :=
  bool_decide (study_id a = study_id b /\ item_id a = item_id b).

(** [df.drop_duplicates(subset=["study_id", "item_id"], keep="last")] *)
Fixpoint drop_duplicates (rows : list Row) : list Row :=
  match rows with
  | [] => []
  | r :: rest =>
      if existsb (same_subset r) rest then drop_duplicates rest
      else r :: drop_duplicates rest
  end.

Inductive error :=
| NotOrdered.   (* ValueError("Report must be ordered by timestamp ...") *)

(** [CrashPreprocessor.__call__] *)
Definition CrashPreprocessor {A} (report : list Row) (activity : A)
    : error + (list Row * A) :=
  if negb (is_monotonic_decreasing (map activity_start_time report)) then
    inl NotOrdered
  else
    let report := drop_duplicates report in
    inr (report, activity).

End report_preprocessors.

(** ** Definitions used to state the properties *)

(** The arguments of one call of [BidsBuilder.add]. *)
Record add_call := {
  call_subject_id : string;
  call_datatype : string;
  call_task_name : string;
  call_suffix : string;
  call_resource : resource;
  call_run_id : option string;
  call_session_id : option string;
  call_metadata : option dict
}.

Definition call_add (self : BidsBuilder) (c : add_call) (h : heap)
    : outcome BidsBuilder * heap :=
  add self (call_subject_id c) (call_datatype c) (call_task_name c) (call_suffix c)
      (call_resource c) (call_run_id c) (call_session_id c) (call_metadata c) h.

(** [add] called once per element, in order; the first exception ends it. *)
Fixpoint add_each (self : BidsBuilder) (calls : list add_call) (h : heap)
    : outcome BidsBuilder * heap :=
  match calls with
  | [] => (Return self, h)
  | c :: calls' =>
      match call_add self c h with
      | (Return self', h') => add_each self' calls' h'
      | (Raise e, h') => (Raise e, h')
      end
  end.

Definition valid_resource (c : add_call) : bool :=
  match call_resource c with
  | PathResource _ | FrameResource _ => true
  | OtherResource => false
  end.

(** The entity a call with a valid resource appends. *)
Definition entity_of_call (c : add_call) : BidsEntity :=
  {| subject_id := call_subject_id c; datatype := call_datatype c;
     task_name := call_task_name c; suffix := call_suffix c;
     session_id := call_session_id c; metadata := call_metadata c;
     file_path := match call_resource c with PathResource p => Some p | _ => None end;
     tabular_data := match call_resource c with FrameResource t => Some t | _ => None end;
     run_id := call_run_id c |}.

(** The same entity under another session id. *)
Definition with_session (s : option string) (e : BidsEntity) : BidsEntity :=
  {| subject_id := subject_id e; datatype := datatype e;
     task_name := task_name e; suffix := suffix e;
     session_id := s; metadata := metadata e;
     file_path := file_path e; tabular_data := tabular_data e;
     run_id := run_id e |}.

(** Exactly one of the two payload fields is set. *)
Definition one_payload (e : BidsEntity) : Prop :=
  (is_Some (file_path e) /\ tabular_data e = None)
  \/ (file_path e = None /\ is_Some (tabular_data e)).

(** The directories [mkdir_from base rest] walks through, top first. *)
Fixpoint chain (base : Path) (rest : list string) : list Path :=
  match rest with
  | [] => []
  | c :: rest' => (base ++ [c]) :: chain (base ++ [c]) rest'
  end.

(** A file system is a tree: what holds an entry is a directory. *)
Definition fs_wf (fs : filesystem) : Prop :=
  forall q n, fs !! q = Some n -> node_at fs (parent q) = Some Dir.

(** The entries directly under [p]. *)
Definition children (fs : filesystem) (p : Path) : list Path :=
  filter (fun q => parent q = p /\ q <> p) (map_to_list fs).*1.

(** The JSON object a path holds; empty when there is no file. *)
Definition json_at (fs : filesystem) (p : Path) : dict :=
  match node_at fs p with
  | Some (File (Json d)) => d
  | _ => ∅
  end.

(** The two files a write keeps at the root. *)
Definition description_path (root : Path) : Path := div root "dataset_description.json".
Definition participants_path (root : Path) : Path := div root "participants.tsv".

(** The table a path holds; [None] when it holds no table. *)
Definition table_at (fs : filesystem) (p : Path) : option DataFrame :=
  match node_at fs p with
  | Some (File (Table t)) => Some t
  | _ => None
  end.

(** A root the writer can merge into: no part of its path is a regular
    file; the description, if it is there, is a JSON object; the list of
    participants, if it is there, is a table. *)
Definition mergeable_root (fs : filesystem) (root : Path) : Prop :=
  (forall q c, q ∈ chain [] root -> node_at fs q <> Some (File c))
  /\ (node_at fs (description_path root) = None
      \/ exists d, node_at fs (description_path root) = Some (File (Json d)))
  /\ (node_at fs (participants_path root) = None
      \/ exists t, node_at fs (participants_path root) = Some (File (Table t))).

(** The entity carries a file or a table. *)
Definition has_payload (e : BidsEntity) : Prop :=
  is_Some (file_path e) \/ is_Some (tabular_data e).

(** The strategies that pass the root check whatever the root holds. *)
Definition merging (s : MergeStrategy) : bool :=
  negb (strategy_eqb s UNKNOWN_MERGE || strategy_eqb s NO_MERGE).

(** How [write] ends once the loop over the entities has run. *)
Definition finish (self : BidsWriter) (r : outcome unit * filesystem)
    : outcome bool * BidsWriter * filesystem :=
  match r with
  | (Raise e, fs) => (Raise e, self, fs)
  | (Return _, fs) => (Return true, self, fs)
  end.

(** *** The scenario of the specification: one table of subject S01 *)

Definition table_2rows : DataFrame :=
  {| columns := ["x"; "y"]; rows := [["1"; "2"]; ["3"; "4"]] |}.

Definition draw_entity (tb : DataFrame) (md : option dict) : BidsEntity :=
  {| subject_id := "S01"; datatype := "beh"; task_name := "draw"; suffix := ".tsv";
     session_id := None; metadata := md; file_path := None;
     tabular_data := Some tb; run_id := None |}.

(** The heap after [BidsBuilder([], {})] and one [add] of the table. *)
Definition draw_heap (tb : DataFrame) (md : option dict) : heap :=
  {| entity_lists := [[]; [draw_entity tb md]]; description_dicts := [∅; ∅] |}.

Definition draw_model : BidsModel :=
  {| entities := 1; dataset_description := 1; subject_ids_cache := None |}.

Definition draw_writer (strategy : MergeStrategy) : BidsWriter :=
  BidsWriter_new ["root"] strategy (Some draw_model) None.

Definition draw_call (tb : DataFrame) : add_call :=
  {| call_subject_id := "S01"; call_datatype := "beh"; call_task_name := "draw";
     call_suffix := ".tsv"; call_resource := FrameResource tb;
     call_run_id := None; call_session_id := None; call_metadata := None |}.

(** Two metadata dicts that share the key [k]. *)
Definition first_metadata : dict := <["a" := "1"]> (<["k" := "old"]> ∅).
Definition second_metadata : dict := <["k" := "new"]> (<["b" := "2"]> ∅).

(** A root that already holds one file. *)
Definition used_root : filesystem :=
  <[["root"; "notes.txt"] := File (Blob "hello")]> (<[["root"] := Dir]> ∅).

(** ** Further definitions used to state properties *)

Fixpoint has_char (c : ascii) (s : string) : bool :=
  match s with
  | EmptyString => false
  | String a s' => Ascii.eqb a c || has_char c s'
  end.

Definition has_slash (s : string) : bool := has_char slash s.

Definition is_ascii (s : string) : bool :=
  forallb (fun c => (nat_of_ascii c <? 128)%nat) (list_ascii_of_string s).

(** The name the default formatter gives an entity, up to its suffix. *)
Definition name_stem (e : BidsEntity) : string :=
  "sub-" +:+ subject_id e +:+ "_task-" +:+ task_name e
  +:+ match run_id e with Some r => "_run-" +:+ r | None => "" end +:+ "_".

(** The default configuration with session folders switched on. *)
Definition BidsConfig_sessions : BidsConfig :=
  {| subject_formatter := default_subject_formatter;
     task_name_formatter := default_task_name_formatter;
     session_formatter := default_session_formatter;
     entity_formatter := default_entity_formatter;
     merge_participants_tsv := true;
     merge_dataset_description := true;
     include_sessions := true;
     default_session_name := None |}.

(** An entity of subject S02 that belongs to a session. *)
Definition session_entity : BidsEntity :=
  {| subject_id := "S02"; datatype := "beh"; task_name := "trail"; suffix := ".csv";
     session_id := Some "1"; metadata := None; file_path := None;
     tabular_data := Some table_2rows; run_id := Some "2" |}.

(** What an entity brings to its destination: the content of its file,
    else its table. *)
Definition payload_at (fs : filesystem) (e : BidsEntity) : option content :=
  match file_path e with
  | Some fp =>
      match node_at fs fp with
      | Some (File c) => Some c
      | _ => None
      end
  | None =>
      match tabular_data e with
      | Some tb => Some (Table tb)
      | None => None
      end
  end.

(** An entity of subject S01 that is a file of the working directory. *)
Definition file_entity : BidsEntity :=
  {| subject_id := "S01"; datatype := "beh"; task_name := "draw"; suffix := ".svg";
     session_id := None; metadata := Some first_metadata;
     file_path := Some ["in"; "draw.svg"];
     tabular_data := Some table_2rows; run_id := None |}.

(** A place that holds that file. *)
Definition inbox : filesystem :=
  <[["in"; "draw.svg"] := File (Blob "<svg/>")]> (<[["in"] := Dir]> ∅).

(** The errors of the stages of a write that come after the test for a
    model: every exception but the two of that test and the one of
    [BidsBuilder.add]. *)
Definition from_writing (e : exception) : bool :=
  match e with
  | NoModel | NoModelOrBuilder | UnsupportedResourceType => false
  | _ => true
  end.

(** Every exception of a computation is one of those. *)
Definition raises_writing {A} (m : M A) : Prop :=
  forall fs e fs', m fs = (Raise e, fs') -> from_writing e = true.

(** The table [write] merges into [participants.tsv]. *)
Definition participants_frame (ids : list string) : DataFrame :=
  {| columns := ["participant"]; rows := map (fun i => [i]) ids |}.

(** The entity carries a file or a table, as a test. *)
Definition has_payload_b (e : BidsEntity) : bool :=
  is_file_resource e || is_tabular_data e.

(** A writer whose model is made by its builder, the one of the defaults. *)
Definition builder_writer (strategy : MergeStrategy) : BidsWriter :=
  (builder (BidsWriter_new ["root"] strategy None None)).2.

(** A report whose three directories lie in the data directory [in], and
    a place where the drawing directory holds one file. *)
Definition oak_example : oak_report.OakReport :=
  {| oak_report._data_directory := ["in"];
     oak_report._drawing_dir := ["in"; "drawing"];
     oak_report._media_dir := ["in"; "media"];
     oak_report._trails_dir := ["in"; "trails"] |}.

Definition oak_files : filesystem :=
  <[["in"; "drawing"; "a.svg"] := File (Blob "<svg/>")]>
    (<[["in"; "drawing"] := Dir]>
       (<[["in"; "media"] := Dir]>
          (<[["in"; "trails"] := Dir]> (<[["in"] := Dir]> ∅)))).

(** A matcher for the examples: the name of the file is the pattern. *)
Definition name_is (file : list string) (pattern : string) : option bool :=
  if String.eqb pattern "" then None else Some (String.eqb (name file) pattern).


(** The values of a row in the columns that tell duplicates. *)
Definition subset_key (r : report_preprocessors.Row) : option string * option string :=
  (report_preprocessors.study_id r, report_preprocessors.item_id r).

(** A row is not later than another: both have a time, and the first one's
    is not greater. *)
Definition not_later (a b : report_preprocessors.Row) : Prop :=
  exists x y, report_preprocessors.activity_start_time a = Some x
              /\ report_preprocessors.activity_start_time b = Some y
              /\ (x <= y)%Z.

(** A report in which the first item was answered twice, latest row first. *)
Definition answer (item : string) (time : Z) (text : string) : report_preprocessors.Row :=
  {| report_preprocessors.item := Some item;
     report_preprocessors.response := Some text;
     report_preprocessors.study_id := Some "S01";
     report_preprocessors.item_id := Some item;
     report_preprocessors.activity_start_time := Some time;
     report_preprocessors.cells := [] |}.

Definition crash_report : list report_preprocessors.Row :=
  [answer "i2" 30 "other"; answer "i1" 20 "second"; answer "i1" 10 "first"].

(** A row of an export: an item and its response, no study id yet. *)
Definition entry (item : string) (response : option string)
    : report_preprocessors.Row :=
  {| report_preprocessors.item := Some item;
     report_preprocessors.response := response;
     report_preprocessors.study_id := None;
     report_preprocessors.item_id := Some item;
     report_preprocessors.activity_start_time := None;
     report_preprocessors.cells := [] |}.

(** Two sessions of an export: the drawing, the study id, the cursive
    question. *)
Definition two_sessions : list report_preprocessors.Row :=
  [entry "draw" (Some "d1"); entry "study_id" (Some "A"); entry "cursive_q" (Some "yes");
   entry "draw" (Some "d2"); entry "study_id" (Some "B"); entry "cursive_q" (Some "no")].

(** * Properties *)

(** ** Paths and names *)

Example parse_nested : parse "sub-S01/beh" = ["sub-S01"; "beh"].
Proof. reflexivity. Qed.

Example parse_absolute : parse "/srv//data/./x" = ["/"; "srv"; "data"; "x"].
Proof. reflexivity. Qed.

Example with_suffix_tsv :
  with_suffix ["root"; "sub-S01_task-draw_.tsv"] ".json"
  = Some ["root"; "sub-S01_task-draw_.json"].
Proof. reflexivity. Qed.

Example with_suffix_anchor : with_suffix ["/"] ".json" = None.
Proof. reflexivity. Qed.

Example default_name_without_run :
  default_entity_formatter (draw_entity table_2rows None) = "sub-S01_task-draw_.tsv".
Proof. reflexivity. Qed.

Example default_name_with_run :
  default_entity_formatter
    {| subject_id := "S01"; datatype := "beh"; task_name := "draw"; suffix := "beh.tsv";
       session_id := Some "2"; metadata := None; file_path := None;
       tabular_data := None; run_id := Some "3" |}
  = "sub-S01_task-draw_run-3_beh.tsv".
Proof. reflexivity. Qed.

(** ** Entities *)

Section Entity.

Lemma one_payload_xor e :
  xorb (is_file_resource e) (is_tabular_data e) = true <-> one_payload e.
Proof.
  unfold one_payload, is_file_resource, is_tabular_data.
  destruct (file_path e), (tabular_data e); simpl; split; intros H;
    try discriminate; try reflexivity;
    try (left; split; eauto; fail); try (right; split; eauto; fail);
    destruct H as [[[? ?] ?]|[? [? ?]]]; discriminate.
Qed.

(** C2, as the code has it: the constructor checks nothing and returns
    the entity for every combination of fields; the two predicates say
    which payload field is set, so exactly one of them holds exactly when
    exactly one payload is set; and that is the case for every entity
    [add] appends. *)
Theorem entity_payload_unchecked :
  (forall sid dt tn sfx ses md fp tb run,
      exists e, BidsEntity_new sid dt tn sfx ses md fp tb run = Return e
                /\ file_path e = fp /\ tabular_data e = tb)
  /\ (forall e, (is_file_resource e = true <-> is_Some (file_path e))
                /\ (is_tabular_data e = true <-> is_Some (tabular_data e))
                /\ (xorb (is_file_resource e) (is_tabular_data e) = true
                    <-> one_payload e))
  /\ (forall self c h es b h',
        entity_lists h !! _entities self = Some es ->
        call_add self c h = (Return b, h') ->
        get_entities h' (_entities self) = es ++ [entity_of_call c]
        /\ xorb (is_file_resource (entity_of_call c))
                (is_tabular_data (entity_of_call c)) = true).
Proof.
  split; [| split].
  - intros. eexists. unfold BidsEntity_new. split; [reflexivity |]. split; reflexivity.
  - intros e. split; [| split].
    + unfold is_file_resource. destruct (file_path e); split;
        try discriminate; eauto. intros [? ?]; discriminate.
    + unfold is_tabular_data. destruct (tabular_data e); split;
        try discriminate; eauto. intros [? ?]; discriminate.
    + apply one_payload_xor.
  - intros self c h es b h' Hes Hadd.
    unfold call_add, add, BidsEntity_new in Hadd.
    unfold entity_of_call, is_file_resource, is_tabular_data.
    destruct (call_resource c); inversion Hadd; subst; clear Hadd;
      (split; [| reflexivity]);
      unfold get_entities, list_append; cbn [entity_lists];
      rewrite list_lookup_alter_eq, Hes; reflexivity.
Qed.

Lemma entity_payload_unchecked_witness :
  get_entities
    (call_add (__init__ None None) (draw_call table_2rows) heap_at_import).2
    default_entities = [] ++ [entity_of_call (draw_call table_2rows)]
  /\ xorb (is_file_resource (entity_of_call (draw_call table_2rows)))
          (is_tabular_data (entity_of_call (draw_call table_2rows))) = true.
Proof.
  destruct entity_payload_unchecked as [_ [_ H]].
  apply (H (__init__ None None) (draw_call table_2rows) heap_at_import []
           (__init__ None None)); reflexivity.
Defined.

(** C2 as stated fails: an entity with neither payload, and one with
    both, are constructed without any error. *)
Lemma entity_both_or_neither_accepted :
  (exists e, BidsEntity_new "S01" "beh" "draw" ".tsv" None None None None None = Return e
             /\ is_file_resource e = false /\ is_tabular_data e = false)
  /\ (exists e, BidsEntity_new "S01" "beh" "draw" ".tsv" None None
                  (Some ["in"; "draw.csv"]) (Some table_2rows) None = Return e
                /\ is_file_resource e = true /\ is_tabular_data e = true).
Proof. split; eexists; (split; [reflexivity |]); split; reflexivity. Qed.

End Entity.

(** ** The builder *)

Section Builder.

Lemma call_add_valid self c h :
  valid_resource c = true ->
  call_add self c h = (Return self, list_append (_entities self) (entity_of_call c) h).
Proof.
  unfold valid_resource, call_add, add, BidsEntity_new, entity_of_call.
  destruct (call_resource c); intros Hv; try discriminate; reflexivity.
Qed.

Lemma list_append_entities l x h es :
  entity_lists h !! l = Some es ->
  entity_lists (list_append l x h) !! l = Some (es ++ [x]).
Proof.
  intros Hes. unfold list_append; cbn [entity_lists].
  rewrite list_lookup_alter_eq, Hes. reflexivity.
Qed.

Lemma add_each_appends self calls : forall h es,
  entity_lists h !! _entities self = Some es ->
  forallb valid_resource calls = true ->
  exists h',
    add_each self calls h = (Return self, h')
    /\ entity_lists h' !! _entities self = Some (es ++ map entity_of_call calls)
    /\ description_dicts h' = description_dicts h.
Proof.
  induction calls as [| c calls IH]; intros h es Hes Hvalid.
  - exists h. simpl. rewrite app_nil_r. auto.
  - simpl in Hvalid. apply andb_prop in Hvalid as [Hc Hrest].
    destruct (IH (list_append (_entities self) (entity_of_call c) h)
                 (es ++ [entity_of_call c])) as (h' & Hrun & Hlist & Hdict).
    + apply list_append_entities, Hes.
    + exact Hrest.
    + exists h'. simpl. rewrite (call_add_valid _ _ _ Hc), Hrun.
      split; [reflexivity |]. split; [| exact Hdict].
      rewrite Hlist, <- app_assoc. reflexivity.
Qed.

(** C3, as the code has it: [build] after [N] calls of [add] with a path
    or a table yields the entities the builder's list held before,
    followed by the [N] new ones in the order of the calls; a builder made
    over a new empty list and a new empty dict starts with no entity and
    an empty description. *)
Theorem build_after_adds :
  (forall self calls h es,
      entity_lists h !! _entities self = Some es ->
      forallb valid_resource calls = true ->
      exists h',
        add_each self calls h = (Return self, h')
        /\ get_entities h' (entities (build self)) = es ++ map entity_of_call calls
        /\ length (get_entities h' (entities (build self)))
           = length es + length calls)
  /\ (forall h,
        let '(l, h1) := new_list [] h in
        let '(d, h2) := new_dict ∅ h1 in
        let b := __init__ (Some l) (Some d) in
        get_entities h2 (entities (build b)) = []
        /\ get_description h2 (dataset_description (build b)) = ∅).
Proof.
  split.
  - intros self calls h es Hes Hvalid.
    destruct (add_each_appends self calls h es Hes Hvalid) as (h' & Hrun & Hlist & _).
    exists h'. split; [exact Hrun |].
    unfold get_entities, build; cbn [entities]. rewrite Hlist. simpl.
    split; [reflexivity |].
    rewrite length_app, length_map. reflexivity.
  - intros h. unfold new_list, new_dict, __init__, build, get_entities, get_description.
    cbn [entities dataset_description entity_lists description_dicts
         _entities _dataset_description default].
    rewrite !list_lookup_middle by reflexivity. split; reflexivity.
Qed.

Lemma build_after_adds_witness :
  exists h',
    add_each (__init__ (Some 1) (Some 1))
             [draw_call table_2rows; draw_call table_2rows]
             (draw_heap table_2rows None) = (Return (__init__ (Some 1) (Some 1)), h')
    /\ get_entities h' (entities (build (__init__ (Some 1) (Some 1))))
       = [draw_entity table_2rows None]
         ++ map entity_of_call [draw_call table_2rows; draw_call table_2rows]
    /\ length (get_entities h' (entities (build (__init__ (Some 1) (Some 1)))))
       = length [draw_entity table_2rows None] + 2.
Proof.
  destruct build_after_adds as [H _].
  apply (H (__init__ (Some 1) (Some 1))
           [draw_call table_2rows; draw_call table_2rows]
           (draw_heap table_2rows None) [draw_entity table_2rows None]);
    reflexivity.
Defined.

(** C3 as stated fails: a builder made over a list that already holds an
    entity yields two entities after one call of [add]. *)
Lemma build_counts_earlier_entities :
  let b := __init__ (Some 1) (Some 1) in
  let h := draw_heap table_2rows None in
  (add_each b [draw_call table_2rows] h).1 = Return b
  /\ length (get_entities (add_each b [draw_call table_2rows] h).2
                          (entities (build b))) = 2.
Proof. split; reflexivity. Qed.

(** The defaults of [__init__] are one list and one dict for all builders
    made without arguments: what the first one adds, the second one
    starts with. *)
Lemma default_accumulators_are_shared :
  let first := __init__ None None in
  let h := (call_add first (draw_call table_2rows) heap_at_import).2 in
  let h := (add_dataset_description first "study" "1.8.0" ∅ h).2 in
  let second := __init__ None None in
  get_entities h (entities (build second)) = [draw_entity table_2rows None]
  /\ get_description h (dataset_description (build second)) !! "Name" = Some "study".
Proof. split; reflexivity. Qed.

End Builder.

(** ** The path configuration *)

Section Paths.

(** C9: under the default configuration the session id takes no part in
    the directory, the file name, the path or the sidecar path of an
    entity, and the directory is the subject label followed by the
    datatype, with no session folder. *)
Theorem default_path_ignores_session (e : BidsEntity) (s : option string) :
  include_sessions BidsConfig_default = false
  /\ relative_entity_dir BidsConfig_default (with_session s e)
     = relative_entity_dir BidsConfig_default e
  /\ entity_formatter BidsConfig_default (with_session s e)
     = entity_formatter BidsConfig_default e
  /\ relative_entity_path BidsConfig_default (with_session s e)
     = relative_entity_path BidsConfig_default e
  /\ relative_entity_metadata_path BidsConfig_default (with_session s e)
     = relative_entity_metadata_path BidsConfig_default e
  /\ relative_entity_dir BidsConfig_default e
     = div (parse ("sub-" +:+ subject_id e)) (datatype e).
Proof. repeat split; reflexivity. Qed.

Example session_left_out :
  relative_entity_path BidsConfig_default
    (with_session (Some "2") (draw_entity table_2rows None))
  = ["sub-S01"; "beh"; "sub-S01_task-draw_.tsv"].
Proof. reflexivity. Qed.

End Paths.

(** ** The merge strategies, one entity at a time *)

Section MergeEntity.

Variable self : BidsWriter.
Variable entity : BidsEntity.
Variable write_op : Path -> M unit.

(** Where the entity goes. *)
Let destination : Path :=
  joinpath (_bids_root self) (relative_entity_path (_config self) entity).

Lemma merge_entity_keep fs :
  _entity_merge_strategy self = KEEP ->
  _merge_entity self entity write_op fs = (Return tt, fs).
Proof. intros Hs. unfold _merge_entity, bind, path_exists. rewrite Hs. reflexivity. Qed.

Lemma merge_entity_rename fs :
  _entity_merge_strategy self = RENAME_ENTITIES ->
  _merge_entity self entity write_op fs
  = (Raise (NotSupported "RENAME_ENTITIES merge strategy not implemented."), fs).
Proof. intros Hs. unfold _merge_entity, bind, path_exists. rewrite Hs. reflexivity. Qed.

Lemma merge_entity_new_session fs :
  _entity_merge_strategy self = NEW_SESSION ->
  _merge_entity self entity write_op fs
  = (Raise (NotSupported "New session merge strategy not implemented."), fs).
Proof. intros Hs. unfold _merge_entity, bind, path_exists. rewrite Hs. reflexivity. Qed.

Lemma merge_entity_unknown fs :
  _entity_merge_strategy self = UNKNOWN_MERGE ->
  _merge_entity self entity write_op fs
  = (Raise (UnknownMergeStrategy "UNKNOWN_MERGE"), fs).
Proof. intros Hs. unfold _merge_entity, bind, path_exists. rewrite Hs. reflexivity. Qed.

Lemma merge_entity_no_merge_conflict fs :
  _entity_merge_strategy self = NO_MERGE ->
  is_Some (node_at fs destination) ->
  _merge_entity self entity write_op fs = (Raise (EntityConflict destination), fs).
Proof.
  intros Hs Hex. unfold _merge_entity, bind, path_exists. rewrite Hs.
  fold destination. rewrite bool_decide_eq_true_2 by exact Hex. reflexivity.
Qed.

(** With no conflict no branch is left for [NO_MERGE]: the chain of tests
    ends in its last [else]. *)
Lemma merge_entity_no_merge_fresh fs :
  _entity_merge_strategy self = NO_MERGE ->
  node_at fs destination = None ->
  _merge_entity self entity write_op fs
  = (Raise (UnknownMergeStrategy "NO_MERGE"), fs).
Proof.
  intros Hs Hex. unfold _merge_entity, bind, path_exists. rewrite Hs.
  fold destination. rewrite bool_decide_eq_false_2; [reflexivity |].
  rewrite Hex. intros [? ?]; discriminate.
Qed.

Lemma merge_entity_overwrite fs :
  _entity_merge_strategy self = OVERWRITE ->
  _merge_entity self entity write_op fs
  = (_ensure_directory_path destination false ;;;
     write_op destination ;;;
     if truthy (metadata entity) then
       metadata_path <- lift (relative_entity_metadata_path (_config self) entity) ;;
       _merge_json (joinpath (_bids_root self) metadata_path)
                   (default ∅ (metadata entity))
     else ret tt) fs.
Proof. intros Hs. unfold _merge_entity, bind at 1, path_exists. rewrite Hs. reflexivity. Qed.

End MergeEntity.

Section Strategies.

Lemma for_each_keep self es : forall fs,
  _entity_merge_strategy self = KEEP ->
  (for_each (write_entity self) es fs).2 = fs.
Proof.
  induction es as [| e es IH]; intros fs Hs; [reflexivity |].
  simpl. unfold bind, write_entity.
  destruct (file_path e) as [fp |].
  - rewrite merge_entity_keep by exact Hs. apply IH, Hs.
  - destruct (tabular_data e) as [tb |].
    + rewrite merge_entity_keep by exact Hs. apply IH, Hs.
    + reflexivity.
Qed.

(** C5: under [KEEP] the conflict resolution of an entity returns without
    touching the file system, whatever the entity, the payload writer and
    the state of the destination; so the loop over the entities of a
    model leaves every file as it was, sidecars included, and writes
    nothing where the destination is missing. *)
Theorem keep_never_writes (self : BidsWriter) :
  _entity_merge_strategy self = KEEP ->
  (forall entity write_op fs,
      _merge_entity self entity write_op fs = (Return tt, fs))
  /\ (forall es fs, (for_each (write_entity self) es fs).2 = fs).
Proof.
  intros Hs. split.
  - intros. apply merge_entity_keep, Hs.
  - intros. apply for_each_keep, Hs.
Qed.

Lemma keep_never_writes_witness :
  (forall entity write_op fs,
      _merge_entity (draw_writer KEEP) entity write_op fs = (Return tt, fs))
  /\ (forall es fs, (for_each (write_entity (draw_writer KEEP)) es fs).2 = fs).
Proof. apply (keep_never_writes (draw_writer KEEP)). reflexivity. Defined.

Example keep_skips_missing_destination :
  (write (draw_writer KEEP) (draw_heap table_2rows None) ∅).2
    !! ["root"; "sub-S01"; "beh"; "sub-S01_task-draw_.tsv"] = None.
Proof. vm_compute. reflexivity. Qed.

End Strategies.

(** ** The context manager *)

Section ContextManager.

Lemma write_files_returns_true self bids h fs b self' fs' :
  write_files self bids h fs = (Return b, self', fs') -> b = true.
Proof.
  unfold write_files.
  destruct (write_dataset_description self bids h fs) as [[[] | e] fs1];
    [| discriminate].
  destruct (write_participants self bids h fs1) as [[[[] | e] bids1] fs2];
    [| discriminate].
  destruct (for_each _ _ fs2) as [[[] | e] fs3]; [| discriminate].
  intros H; inversion H; reflexivity.
Qed.

Lemma write_returns_true self h fs b self' fs' :
  write self h fs = (Return b, self', fs') -> b = true.
Proof.
  unfold write.
  destruct (_bids self) as [m |] eqn:Hb; [| destruct (_builder self) eqn:Hu];
    try discriminate;
    (destruct (_bids (with_model self)); [| discriminate]);
    (destruct (confirm_root (with_model self) fs) as [[[] | e] fs1];
     [| discriminate]);
    apply write_files_returns_true.
Qed.

(** C10: [__exit__] does not look at the exception it is told about: it
    is [write], whose only normal result is [True]; so when the block
    raised and the write goes through, the with-statement ends normally
    and the exception of the block is dropped. *)
Theorem exit_writes_and_suppresses :
  (forall self exc h fs, __exit__ self exc h fs = write self h fs)
  /\ (forall self exc h fs b self' fs',
        __exit__ self exc h fs = (Return b, self', fs') -> b = true)
  /\ (forall (A : Type) self
             (body : BidsWriter -> heap -> filesystem
                     -> outcome A * BidsWriter * heap * filesystem)
             h fs e self1 h1 fs1 b self2 fs2,
        body (__enter__ self) h fs = (Raise e, self1, h1, fs1) ->
        write self1 h1 fs1 = (Return b, self2, fs2) ->
        with_statement self body h fs = (Return None, self2, h1, fs2)).
Proof.
  split; [reflexivity |]. split.
  - intros self exc h fs b self' fs' H. eapply write_returns_true, H.
  - intros A self body h fs e self1 h1 fs1 b self2 fs2 Hbody Hwrite.
    unfold with_statement, __exit__. rewrite Hbody, Hwrite.
    rewrite (write_returns_true _ _ _ _ _ _ Hwrite). reflexivity.
Qed.

Lemma exit_writes_and_suppresses_witness :
  with_statement (draw_writer OVERWRITE)
    (fun w h fs => (@Raise unit UnknownEntityType, w, h, fs))
    (draw_heap table_2rows None) ∅
  = (Return None,
     (write (draw_writer OVERWRITE) (draw_heap table_2rows None) ∅).1.2,
     draw_heap table_2rows None,
     (write (draw_writer OVERWRITE) (draw_heap table_2rows None) ∅).2).
Proof.
  destruct exit_writes_and_suppresses as [_ [_ H]].
  apply (H unit (draw_writer OVERWRITE)
           (fun w h fs => (@Raise unit UnknownEntityType, w, h, fs))
           (draw_heap table_2rows None) ∅ UnknownEntityType
           (draw_writer OVERWRITE) (draw_heap table_2rows None) ∅ true).
  - reflexivity.
  - assert (Hr : (write (draw_writer OVERWRITE) (draw_heap table_2rows None) ∅).1.1
                 = Return true) by (vm_compute; reflexivity).
    destruct (write (draw_writer OVERWRITE) (draw_heap table_2rows None) ∅)
      as [[r w] f].
    simpl in Hr. rewrite Hr. reflexivity.
Defined.

End ContextManager.

(** ** Facts about paths and the file system *)

Section FileSystemFacts.

Implicit Types (fs : gmap (list string) node) (p q base : list string).

Lemma node_at_anchor fs p : is_anchor p = true -> node_at fs p = Some Dir.
Proof. intros H. unfold node_at. rewrite H. reflexivity. Qed.

Lemma node_at_not_anchor fs p : is_anchor p = false -> node_at fs p = fs !! p.
Proof. intros H. unfold node_at. rewrite H. reflexivity. Qed.

Lemma node_at_None fs p : node_at fs p = None -> is_anchor p = false /\ fs !! p = None.
Proof. unfold node_at. destruct (is_anchor p); [discriminate | auto]. Qed.

Lemma node_at_same fs fs' p : fs' !! p = fs !! p -> node_at fs' p = node_at fs p.
Proof. intros H. unfold node_at. rewrite H. reflexivity. Qed.

Lemma node_at_insert_ne fs p n q : p <> q -> node_at (<[p := n]> fs) q = node_at fs q.
Proof. intros H. apply node_at_same, lookup_insert_ne, H. Qed.

Lemma node_at_insert_eq fs p n :
  is_anchor p = false -> node_at (<[p := n]> fs) p = Some n.
Proof. intros H. rewrite node_at_not_anchor by exact H. apply lookup_insert_eq. Qed.

Lemma is_anchor_snoc l x : is_anchor (l ++ [x]) = true -> l = [] /\ x = "/".
Proof.
  destruct l as [| a [| b l]]; simpl.
  - intros H. apply String.eqb_eq in H. auto.
  - discriminate.
  - discriminate.
Qed.

Lemma parent_snoc l x : is_anchor (l ++ [x]) = false -> parent (l ++ [x]) = l.
Proof.
  destruct l as [| a l]; simpl.
  - intros H. rewrite H. reflexivity.
  - intros _. destruct l as [| b l]; [reflexivity |].
    change (removelast ((a :: b :: l) ++ [x]) = a :: b :: l).
    apply removelast_last.
Qed.

Lemma parent_anchor p : is_anchor p = true -> parent p = p.
Proof.
  destruct p as [| a [| b l]]; simpl; try discriminate; [reflexivity |].
  intros H. rewrite H. reflexivity.
Qed.

(** A path other than its parent is its parent followed by one part. *)
Lemma parent_inv q p : parent q = p -> q <> p -> exists x, q = p ++ [x].
Proof.
  intros Hp Hne.
  destruct (is_anchor q) eqn:Ha.
  - rewrite parent_anchor in Hp by exact Ha. contradiction.
  - destruct q as [| a l] using rev_ind; [discriminate |].
    rewrite parent_snoc in Hp by exact Ha. subst. eauto.
Qed.

Lemma chain_snoc rest : forall base x,
  chain base (rest ++ [x]) = chain base rest ++ [base ++ rest ++ [x]].
Proof.
  induction rest as [| c rest IH]; intros base x; simpl.
  - reflexivity.
  - rewrite IH, <- !app_assoc. reflexivity.
Qed.

Lemma chain_length rest : forall base q,
  q ∈ chain base rest -> length base < length q <= length base + length rest.
Proof.
  induction rest as [| c rest IH]; intros base q Hq; simpl in Hq.
  - apply elem_of_nil in Hq. contradiction.
  - apply elem_of_cons in Hq as [-> | Hq].
    + rewrite length_app. simpl. lia.
    + apply IH in Hq. rewrite length_app in Hq. simpl in *. lia.
Qed.

Lemma chain_self p : p <> [] -> p ∈ chain [] p.
Proof.
  destruct p as [| x l] using rev_ind; [contradiction |]. intros _.
  rewrite chain_snoc. apply elem_of_app. right. apply list_elem_of_singleton.
  reflexivity.
Qed.

Lemma chain_prefix p : forall q, q `prefix_of` p -> q <> [] -> q ∈ chain [] p.
Proof.
  induction p as [| x l IH] using rev_ind; intros q [k Hk] Hq.
  - symmetry in Hk. apply app_eq_nil in Hk as [-> _]. contradiction.
  - rewrite chain_snoc. apply elem_of_app.
    destruct k as [| y k] using rev_ind.
    + right. rewrite app_nil_r in Hk. subst. apply list_elem_of_singleton. reflexivity.
    + left. rewrite app_assoc in Hk. apply app_inj_tail in Hk as [-> _].
      apply IH; [exists k; reflexivity | exact Hq].
Qed.

(** What [mkdir_from] leaves: the directories walked exist, and an entry is
    new only where the walk found nothing. *)
Lemma mkdir_from_spec rest : forall base fs,
  (forall q c, q ∈ chain base rest -> node_at fs q <> Some (File c)) ->
  exists fs',
    mkdir_from base rest fs = (Return tt, fs')
    /\ (forall q, q ∈ chain base rest -> node_at fs' q = Some Dir)
    /\ (forall q, fs' !! q = fs !! q
                  \/ (q ∈ chain base rest /\ node_at fs q = None
                      /\ fs' !! q = Some Dir)).
Proof.
  induction rest as [| c rest IH]; intros base fs Hok.
  - exists fs. split; [reflexivity |]. split.
    + intros q Hq. apply elem_of_nil in Hq. contradiction.
    + intros q. left. reflexivity.
  - simpl. destruct (node_at fs (base ++ [c])) as [[| c0] |] eqn:Hq0.
    + destruct (IH (base ++ [c]) fs) as (fs' & Hrun & Hdirs & Hframe).
      { intros q c1 Hq. apply Hok. simpl. apply elem_of_cons. auto. }
      exists fs'. split; [exact Hrun |]. split.
      * intros q Hq. apply elem_of_cons in Hq as [-> | Hq]; [| apply Hdirs, Hq].
        destruct (Hframe (base ++ [c])) as [Hsame | (_ & Hnone & _)].
        -- rewrite (node_at_same _ _ _ Hsame). exact Hq0.
        -- congruence.
      * intros q. destruct (Hframe q) as [Hsame | (Hin & Hnone & Hnew)]; [auto |].
        right. split; [apply elem_of_cons; auto | auto].
    + exfalso. apply (Hok (base ++ [c]) c0); [apply elem_of_cons; auto | exact Hq0].
    + apply node_at_None in Hq0 as Hq0'. destruct Hq0' as [Hna Hraw].
      destruct (IH (base ++ [c]) (<[base ++ [c] := Dir]> fs))
        as (fs' & Hrun & Hdirs & Hframe).
      { intros q c1 Hq. destruct (decide (base ++ [c] = q)) as [<- | Hne].
        - rewrite node_at_insert_eq by exact Hna. discriminate.
        - rewrite node_at_insert_ne by exact Hne.
          apply Hok. apply elem_of_cons. auto. }
      exists fs'. split; [exact Hrun |]. split.
      * intros q Hq. apply elem_of_cons in Hq as [-> | Hq]; [| apply Hdirs, Hq].
        rewrite node_at_not_anchor by exact Hna.
        destruct (Hframe (base ++ [c])) as [Hsame | (_ & _ & Hnew)]; [| exact Hnew].
        rewrite Hsame. apply lookup_insert_eq.
      * intros q. destruct (decide (base ++ [c] = q)) as [<- | Hne].
        -- right. split; [apply elem_of_cons; auto |]. split; [exact Hq0 |].
           destruct (Hframe (base ++ [c])) as [Hsame | (_ & _ & Hnew)]; [| exact Hnew].
           rewrite Hsame. apply lookup_insert_eq.
        -- destruct (Hframe q) as [Hsame | (Hin & Hnone & Hnew)].
           ++ left. rewrite Hsame. apply lookup_insert_ne, Hne.
           ++ right. split; [apply elem_of_cons; auto |].
              rewrite node_at_insert_ne in Hnone by exact Hne. auto.
Qed.

Lemma mkdir_parents_spec p fs :
  (forall q c, q ∈ chain [] p -> node_at fs q <> Some (File c)) ->
  exists fs',
    mkdir_parents p fs = (Return tt, fs')
    /\ (forall q, q ∈ chain [] p -> node_at fs' q = Some Dir)
    /\ (forall q, fs' !! q = fs !! q
                  \/ (q ∈ chain [] p /\ node_at fs q = None /\ fs' !! q = Some Dir)).
Proof. apply mkdir_from_spec. Qed.

(** Where every directory is there already, [mkdir] changes nothing. *)
Lemma mkdir_parents_existing p fs :
  (forall q, q ∈ chain [] p -> node_at fs q = Some Dir) ->
  mkdir_parents p fs = (Return tt, fs).
Proof.
  intros Hdirs.
  destruct (mkdir_parents_spec p fs) as (fs' & Hrun & _ & Hframe).
  { intros q c Hq. rewrite (Hdirs q Hq). discriminate. }
  rewrite Hrun. f_equal. apply map_eq. intros q.
  destruct (Hframe q) as [Hsame | (Hin & Hnone & _)]; [exact Hsame |].
  rewrite (Hdirs q Hin) in Hnone. discriminate.
Qed.

Lemma write_file_spec p c fs :
  node_at fs p <> Some Dir ->
  node_at fs (parent p) = Some Dir ->
  write_file p c fs = (Return tt, <[p := File c]> fs).
Proof.
  intros Hp Hparent. unfold write_file. rewrite Hparent.
  destruct (node_at fs p) as [[| c0] |]; [contradiction | reflexivity | reflexivity].
Qed.

(** A successful [write_file] put the file where it was asked to. *)
Lemma write_file_inv p c fs fs' r :
  write_file p c fs = (Return r, fs') ->
  fs' = <[p := File c]> fs /\ node_at fs p <> Some Dir.
Proof.
  unfold write_file.
  destruct (node_at fs p) as [[| c0] |]; try discriminate;
    (destruct (node_at fs (parent p)) as [[| c1] |]; try discriminate);
    intros H; inversion H; split; (reflexivity || discriminate).
Qed.

Lemma children_spec fs p q :
  q ∈ children fs p <-> is_Some (fs !! q) /\ parent q = p /\ q <> p.
Proof.
  unfold children. rewrite list_elem_of_filter. split.
  - intros [Hq Hin]. split; [| exact Hq].
    apply list_elem_of_fmap in Hin as ([q' n] & -> & Hin).
    apply elem_of_map_to_list in Hin. simpl. eauto.
  - intros [[n Hn] Hq]. split; [exact Hq |].
    apply list_elem_of_fmap. exists (q, n). split; [reflexivity |].
    apply elem_of_map_to_list. exact Hn.
Qed.

Lemma iterdir_children fs p :
  node_at fs p = Some Dir -> iterdir p fs = (Return (children fs p), fs).
Proof. intros H. unfold iterdir. rewrite H. reflexivity. Qed.

(** In a tree, what exists lies under directories only. *)
Lemma wf_ancestors fs : fs_wf fs -> forall p,
  is_Some (node_at fs p) ->
  forall q, q ∈ chain [] p -> q <> p -> node_at fs q = Some Dir.
Proof.
  intros Hwf. induction p as [| x l IH] using rev_ind; intros Hp q Hq Hne.
  - apply elem_of_nil in Hq. contradiction.
  - rewrite chain_snoc in Hq. apply elem_of_app in Hq as [Hq | Hq];
      [| apply list_elem_of_singleton in Hq; contradiction].
    destruct (is_anchor (l ++ [x])) eqn:Ha.
    + apply is_anchor_snoc in Ha as [-> _]. apply elem_of_nil in Hq. contradiction.
    + assert (Hl : node_at fs l = Some Dir).
      { destruct Hp as [n Hn]. rewrite node_at_not_anchor in Hn by exact Ha.
        apply Hwf in Hn. rewrite parent_snoc in Hn by exact Ha. exact Hn. }
      destruct (decide (q = l)) as [-> | Hql]; [exact Hl |].
      apply IH; [rewrite Hl; eauto | exact Hq | exact Hql].
Qed.

Lemma wf_dir_chain fs p :
  fs_wf fs -> node_at fs p = Some Dir ->
  forall q, q ∈ chain [] p -> node_at fs q = Some Dir.
Proof.
  intros Hwf Hp q Hq. destruct (decide (q = p)) as [-> | Hne]; [exact Hp |].
  eapply wf_ancestors; eauto.
Qed.

End FileSystemFacts.

(** ** The start of a write: the root directory *)

Section ConfirmRoot.

Implicit Types (fs : gmap (list string) node) (self : BidsWriter).

Lemma with_model_root self : _bids_root (with_model self) = _bids_root self.
Proof. unfold with_model. destruct (_bids self), (_builder self); reflexivity. Qed.

Lemma with_model_strategy self :
  _entity_merge_strategy (with_model self) = _entity_merge_strategy self.
Proof. unfold with_model. destruct (_bids self), (_builder self); reflexivity. Qed.

Lemma with_model_config self : _config (with_model self) = _config self.
Proof. unfold with_model. destruct (_bids self), (_builder self); reflexivity. Qed.

Lemma with_model_idem self bids :
  _bids self = Some bids -> with_model self = self.
Proof. intros H. unfold with_model. rewrite H. reflexivity. Qed.

(** [write], once the model is there: the root check, then the files. *)
Lemma write_unfold self bids h fs :
  _bids (with_model self) = Some bids ->
  write self h fs
  = match confirm_root (with_model self) fs with
    | (Raise e, fs') => (Raise e, with_model self, fs')
    | (Return _, fs') => write_files (with_model self) bids h fs'
    end.
Proof.
  intros Hm. unfold write.
  destruct (_bids self) as [m |] eqn:Hb; [| destruct (_builder self) as [b |] eqn:Hu].
  - rewrite Hm. reflexivity.
  - rewrite Hm. reflexivity.
  - unfold with_model in Hm. rewrite Hb, Hu in Hm. congruence.
Qed.

Lemma confirm_root_existing self fs :
  fs_wf fs ->
  node_at fs (_bids_root self) = Some Dir ->
  confirm_root self fs
  = (if (0 <? length (children fs (_bids_root self)))%nat then
       match _entity_merge_strategy self with
       | UNKNOWN_MERGE => Raise MergeStrategyRequired
       | NO_MERGE => Raise RootNotEmpty
       | _ => Return tt
       end
     else Return tt, fs).
Proof.
  intros Hwf Hroot. unfold confirm_root, bind.
  rewrite mkdir_parents_existing by (apply wf_dir_chain; assumption).
  rewrite iterdir_children by exact Hroot.
  destruct (0 <? length (children fs (_bids_root self)))%nat; [| reflexivity].
  destruct (_entity_merge_strategy self); reflexivity.
Qed.

Lemma confirm_root_created self fs :
  fs_wf fs ->
  node_at fs (_bids_root self) = None ->
  (forall q c, q ∈ chain [] (_bids_root self) -> node_at fs q <> Some (File c)) ->
  exists fs',
    confirm_root self fs = (Return tt, fs')
    /\ (forall q, q `prefix_of` _bids_root self -> node_at fs' q = Some Dir)
    /\ (forall q, is_Some (fs !! q) -> fs' !! q = fs !! q).
Proof.
  intros Hwf Hroot Hfiles.
  destruct (mkdir_parents_spec (_bids_root self) fs Hfiles)
    as (fs' & Hrun & Hdirs & Hframe).
  assert (Hne : _bids_root self <> []).
  { intros E. rewrite E in Hroot. discriminate. }
  assert (Hdir : node_at fs' (_bids_root self) = Some Dir).
  { apply Hdirs, chain_self, Hne. }
  assert (Hempty : children fs' (_bids_root self) = []).
  { apply elem_of_nil_inv. intros q Hq.
    apply children_spec in Hq as ([n Hn] & Hparent & Hq).
    destruct (parent_inv _ _ Hparent Hq) as [x ->].
    destruct (Hframe (_bids_root self ++ [x])) as [Hsame | (Hin & _ & _)].
    - rewrite Hsame in Hn. apply Hwf in Hn. rewrite Hparent in Hn. congruence.
    - apply chain_length in Hin. rewrite length_app in Hin. simpl in Hin. lia. }
  exists fs'. split; [| split].
  - unfold confirm_root, bind. rewrite Hrun, (iterdir_children _ _ Hdir), Hempty.
    reflexivity.
  - intros q Hq. destruct q as [| a q]; [reflexivity |].
    apply Hdirs, chain_prefix; [exact Hq | discriminate].
  - intros q [n Hn]. destruct (Hframe q) as [Hsame | (_ & Hnone & _)]; [exact Hsame |].
    apply node_at_None in Hnone as [_ Hnone]. congruence.
Qed.

(** C6: a write starts with the root.  A root that is missing is created
    with the directories above it, and the write goes on to the files;
    over a root that exists and holds something, the write fails with
    [MergeStrategyRequired] under [UNKNOWN_MERGE] and with [RootNotEmpty]
    under [NO_MERGE], nothing being written, and goes on to the files under
    every other strategy. *)
Theorem root_check (self : BidsWriter) (bids : BidsModel) (h : heap)
    (fs : gmap (list string) node) :
  _bids (with_model self) = Some bids ->
  fs_wf fs ->
  (node_at fs (_bids_root self) = None ->
   (forall q c, q ∈ chain [] (_bids_root self) -> node_at fs q <> Some (File c)) ->
   exists fs',
     confirm_root (with_model self) fs = (Return tt, fs')
     /\ (forall q, q `prefix_of` _bids_root self -> node_at fs' q = Some Dir)
     /\ (forall q, is_Some (fs !! q) -> fs' !! q = fs !! q)
     /\ write self h fs = write_files (with_model self) bids h fs')
  /\ (node_at fs (_bids_root self) = Some Dir ->
      children fs (_bids_root self) <> [] ->
      match _entity_merge_strategy self with
      | UNKNOWN_MERGE =>
          write self h fs = (Raise MergeStrategyRequired, with_model self, fs)
      | NO_MERGE =>
          write self h fs = (Raise RootNotEmpty, with_model self, fs)
      | _ => write self h fs = write_files (with_model self) bids h fs
      end).
Proof.
  intros Hm Hwf. split.
  - intros Hroot Hfiles.
    destruct (confirm_root_created (with_model self) fs Hwf) as (fs' & Hrun & Hdirs & Hold).
    + rewrite with_model_root. exact Hroot.
    + rewrite with_model_root. exact Hfiles.
    + exists fs'. rewrite with_model_root in Hdirs.
      repeat split; try assumption.
      rewrite (write_unfold _ _ _ _ Hm), Hrun. reflexivity.
  - intros Hroot Hfull.
    assert (Hlen : (0 <? length (children fs (_bids_root self)))%nat = true).
    { apply Nat.ltb_lt. destruct (children fs (_bids_root self));
        [contradiction | simpl; lia]. }
    pose proof (confirm_root_existing (with_model self) fs Hwf) as Hrun.
    rewrite with_model_root, with_model_strategy, Hlen in Hrun.
    specialize (Hrun Hroot).
    rewrite (write_unfold _ _ _ _ Hm), Hrun.
    destruct (_entity_merge_strategy self); reflexivity.
Qed.

Lemma fs_wf_empty : fs_wf ∅.
Proof. intros q n H. rewrite lookup_empty in H. discriminate. Qed.

Lemma fs_wf_used_root : fs_wf used_root.
Proof.
  intros q n H. unfold used_root in H.
  apply lookup_insert_Some in H as [[<- _] | [_ H]]; [reflexivity |].
  apply lookup_insert_Some in H as [[<- _] | [_ H]]; [reflexivity |].
  rewrite lookup_empty in H. discriminate.
Qed.

Lemma root_check_witness :
  (exists fs',
      confirm_root (with_model (draw_writer OVERWRITE)) ∅ = (Return tt, fs')
      /\ (forall q, q `prefix_of` ["root"] -> node_at fs' q = Some Dir)
      /\ (forall q, is_Some ((∅ : gmap (list string) node) !! q)
                    -> fs' !! q = (∅ : gmap (list string) node) !! q)
      /\ write (draw_writer OVERWRITE) (draw_heap table_2rows None) ∅
         = write_files (with_model (draw_writer OVERWRITE)) draw_model
             (draw_heap table_2rows None) fs')
  /\ write (draw_writer NO_MERGE) (draw_heap table_2rows None) used_root
     = (Raise RootNotEmpty, with_model (draw_writer NO_MERGE), used_root).
Proof.
  split.
  - destruct (root_check (draw_writer OVERWRITE) draw_model
                (draw_heap table_2rows None) ∅ eq_refl fs_wf_empty) as [H _].
    apply H; [reflexivity |].
    intros q c Hq. apply list_elem_of_singleton in Hq. subst. discriminate.
  - destruct (root_check (draw_writer NO_MERGE) draw_model
                (draw_heap table_2rows None) used_root eq_refl fs_wf_used_root)
      as [_ H].
    apply H; [reflexivity |]. vm_compute. discriminate.
Defined.

End ConfirmRoot.

(** ** The files at the root *)

Section RootFiles.

Implicit Types (fs : gmap (list string) node) (self : BidsWriter) (root : list string).

Lemma description_path_eq root :
  description_path root = root ++ ["dataset_description.json"].
Proof. reflexivity. Qed.

Lemma participants_path_eq root :
  participants_path root = root ++ ["participants.tsv"].
Proof. reflexivity. Qed.

Lemma snoc_not_anchor root x : x <> "/" -> is_anchor (root ++ [x]) = false.
Proof.
  intros Hx. destruct (is_anchor (root ++ [x])) eqn:Ha; [| reflexivity].
  apply is_anchor_snoc in Ha as [_ Ha]. contradiction.
Qed.

Lemma snoc_not_in_chain root x : root ++ [x] ∉ chain [] root.
Proof.
  intros Hin. apply chain_length in Hin. rewrite length_app in Hin. simpl in Hin. lia.
Qed.

(** The root once [mkdir] went over a path without regular files: it is a
    directory, as are those above it, and what lies under it is as before. *)
Lemma prepare_root root fs :
  (forall q c, q ∈ chain [] root -> node_at fs q <> Some (File c)) ->
  exists fs1,
    mkdir_parents root fs = (Return tt, fs1)
    /\ node_at fs1 root = Some Dir
    /\ (forall q, q ∈ chain [] root -> node_at fs1 q = Some Dir)
    /\ (forall x, node_at fs1 (root ++ [x]) = node_at fs (root ++ [x])).
Proof.
  intros Hfiles.
  destruct (mkdir_parents_spec root fs Hfiles) as (fs1 & Hrun & Hdirs & Hframe).
  exists fs1. split; [exact Hrun |]. split; [| split; [exact Hdirs |]].
  - destruct root as [| a root]; [reflexivity |].
    apply Hdirs, chain_self. discriminate.
  - intros x. apply node_at_same.
    destruct (Hframe (root ++ [x])) as [Hsame | (Hin & _ & _)]; [exact Hsame |].
    apply snoc_not_in_chain in Hin. contradiction.
Qed.

(** [_merge_json] over a path that is free or holds a JSON object. *)
Lemma merge_json_spec path data fs :
  node_at fs (parent path) = Some Dir ->
  node_at fs path = None \/ (exists d, node_at fs path = Some (File (Json d))) ->
  _merge_json path data fs
  = (Return tt, <[path := File (Json (data ∪ json_at fs path))]> fs).
Proof.
  intros Hparent Hpath. unfold _merge_json, bind, path_exists, json_at, json_dump.
  destruct Hpath as [Hnone | [d Hd]].
  - rewrite Hnone. rewrite bool_decide_eq_false_2 by (intros [? ?]; discriminate).
    unfold ret. rewrite (right_id_L ∅ (∪)).
    apply write_file_spec; [rewrite Hnone; discriminate | exact Hparent].
  - rewrite Hd. rewrite bool_decide_eq_true_2 by eauto.
    unfold json_load, ret. rewrite Hd.
    apply write_file_spec; [rewrite Hd; discriminate | exact Hparent].
Qed.

(** [_merge_tsv] over a path that is free or holds a table. *)
Lemma merge_tsv_spec path data fs :
  node_at fs (parent path) = Some Dir ->
  node_at fs path = None \/ (exists t, node_at fs path = Some (File (Table t))) ->
  _merge_tsv path data fs
  = (Return tt,
     <[path := File (Table (match table_at fs path with
                            | Some t => concat t data
                            | None => data
                            end))]> fs).
Proof.
  intros Hparent Hpath. unfold _merge_tsv, bind, path_exists, table_at, to_csv.
  destruct Hpath as [Hnone | [t Ht]].
  - rewrite Hnone. rewrite bool_decide_eq_false_2 by (intros [? ?]; discriminate).
    unfold ret.
    apply write_file_spec; [rewrite Hnone; discriminate | exact Hparent].
  - rewrite Ht. rewrite bool_decide_eq_true_2 by eauto.
    unfold read_csv, ret. rewrite Ht.
    apply write_file_spec; [rewrite Ht; discriminate | exact Hparent].
Qed.

Lemma write_description_spec self bids h fs :
  node_at fs (_bids_root self) = Some Dir ->
  node_at fs (description_path (_bids_root self)) = None
  \/ (exists d, node_at fs (description_path (_bids_root self)) = Some (File (Json d))) ->
  exists fs',
    write_dataset_description self bids h fs = (Return tt, fs')
    /\ (exists d, node_at fs' (description_path (_bids_root self)) = Some (File (Json d)))
    /\ (forall q, q <> description_path (_bids_root self) -> fs' !! q = fs !! q).
Proof.
  intros Hroot Hpath. unfold write_dataset_description.
  fold (description_path (_bids_root self)).
  unfold bind at 1, path_exists.
  assert (Hna : is_anchor (description_path (_bids_root self)) = false).
  { rewrite description_path_eq. apply snoc_not_anchor. discriminate. }
  assert (Hparent : node_at fs (parent (description_path (_bids_root self))) = Some Dir).
  { rewrite description_path_eq, parent_snoc; [exact Hroot |].
    apply snoc_not_anchor. discriminate. }
  destruct (negb (bool_decide (is_Some (node_at fs (description_path (_bids_root self)))))
            || merge_dataset_description (_config self)) eqn:Hgate.
  - rewrite merge_json_spec by assumption.
    eexists. split; [reflexivity |]. split.
    + eexists. apply node_at_insert_eq, Hna.
    + intros q Hq. apply lookup_insert_ne. congruence.
  - exists fs. split; [reflexivity |]. split; [| reflexivity].
    apply orb_false_elim in Hgate as [Hgate _].
    apply negb_false_iff, bool_decide_eq_true in Hgate.
    destruct Hpath as [Hnone | Hd]; [| exact Hd].
    rewrite Hnone in Hgate. destruct Hgate. discriminate.
Qed.

Lemma write_participants_spec self bids h fs :
  node_at fs (_bids_root self) = Some Dir ->
  node_at fs (participants_path (_bids_root self)) = None
  \/ (exists t, node_at fs (participants_path (_bids_root self)) = Some (File (Table t))) ->
  exists bids' fs',
    write_participants self bids h fs = (Return tt, bids', fs')
    /\ entities bids' = entities bids
    /\ (exists t, node_at fs' (participants_path (_bids_root self)) = Some (File (Table t)))
    /\ (forall q, q <> participants_path (_bids_root self) -> fs' !! q = fs !! q).
Proof.
  intros Hroot Hpath. unfold write_participants.
  fold (participants_path (_bids_root self)).
  unfold path_exists.
  assert (Hna : is_anchor (participants_path (_bids_root self)) = false).
  { rewrite participants_path_eq. apply snoc_not_anchor. discriminate. }
  assert (Hparent : node_at fs (parent (participants_path (_bids_root self))) = Some Dir).
  { rewrite participants_path_eq, parent_snoc; [exact Hroot |].
    apply snoc_not_anchor. discriminate. }
  destruct (negb (bool_decide (is_Some (node_at fs (participants_path (_bids_root self)))))
            || merge_participants_tsv (_config self)) eqn:Hgate.
  - destruct (subject_ids bids h) as [ids bids'] eqn:Hids.
    rewrite merge_tsv_spec by assumption.
    exists bids'. eexists. split; [reflexivity |]. split; [| split].
    + unfold subject_ids in Hids.
      destruct (subject_ids_cache bids); inversion Hids; reflexivity.
    + eexists. apply node_at_insert_eq, Hna.
    + intros q Hq. apply lookup_insert_ne. congruence.
  - exists bids, fs. split; [reflexivity |]. split; [reflexivity |].
    split; [| reflexivity].
    apply orb_false_elim in Hgate as [Hgate _].
    apply negb_false_iff, bool_decide_eq_true in Hgate.
    destruct Hpath as [Hnone | Ht]; [| exact Ht].
    rewrite Hnone in Hgate. destruct Hgate. discriminate.
Qed.

End RootFiles.

(** ** A whole write *)

Section WholeWrite.

Implicit Types (fs : gmap (list string) node) (self : BidsWriter).

Lemma confirm_root_merging self fs fs1 :
  merging (_entity_merge_strategy self) = true ->
  mkdir_parents (_bids_root self) fs = (Return tt, fs1) ->
  node_at fs1 (_bids_root self) = Some Dir ->
  confirm_root self fs = (Return tt, fs1).
Proof.
  intros Hs Hrun Hroot. unfold confirm_root, bind.
  rewrite Hrun, (iterdir_children _ _ Hroot).
  destruct (0 <? length (children fs1 (_bids_root self)))%nat; [| reflexivity].
  destruct (_entity_merge_strategy self); try discriminate; reflexivity.
Qed.

(** Over a root that can be merged into, a write under a merging strategy
    reaches the loop over the entities, and the root can be merged into
    again afterwards. *)
Lemma write_reaches_entities self bids h fs :
  _bids (with_model self) = Some bids ->
  merging (_entity_merge_strategy self) = true ->
  mergeable_root fs (_bids_root self) ->
  exists bids' fs3,
    entities bids' = entities bids
    /\ mergeable_root fs3 (_bids_root self)
    /\ write self h fs
       = finish (set_bids (with_model self) bids')
           (for_each (write_entity (set_bids (with_model self) bids'))
                     (get_entities h (entities bids')) fs3).
Proof.
  intros Hm Hs (Hfiles & Hdesc & Hpart).
  destruct (prepare_root _ _ Hfiles) as (fs1 & Hmk & Hroot1 & Hdirs1 & Hunder1).
  rewrite (write_unfold _ _ _ _ Hm).
  rewrite (confirm_root_merging (with_model self) fs fs1);
    [| rewrite with_model_strategy; exact Hs
     | rewrite with_model_root; exact Hmk
     | rewrite with_model_root; exact Hroot1].
  unfold write_files.
  destruct (write_description_spec (with_model self) bids h fs1)
    as (fs2 & Hrun2 & Hjson2 & Hframe2).
  { rewrite with_model_root. exact Hroot1. }
  { rewrite with_model_root, description_path_eq, Hunder1, <- description_path_eq.
    exact Hdesc. }
  rewrite Hrun2. rewrite with_model_root in Hjson2, Hframe2.
  assert (Hdp : description_path (_bids_root self) <> participants_path (_bids_root self)).
  { rewrite description_path_eq, participants_path_eq. intros E.
    apply app_inv_head in E. discriminate. }
  destruct (write_participants_spec (with_model self) bids h fs2)
    as (bids' & fs3 & Hrun3 & Hent & Htable3 & Hframe3).
  { rewrite with_model_root. rewrite (node_at_same fs1); [exact Hroot1 |].
    apply Hframe2. rewrite description_path_eq. intros E.
    apply (f_equal length) in E. rewrite length_app in E. simpl in E. lia. }
  { rewrite with_model_root. rewrite (node_at_same fs1).
    - rewrite participants_path_eq, Hunder1, <- participants_path_eq. exact Hpart.
    - apply Hframe2. congruence. }
  rewrite Hrun3. rewrite with_model_root in Htable3, Hframe3.
  exists bids', fs3. split; [exact Hent |]. split; [| reflexivity].
  split; [| split].
  - intros q c Hq.
    assert (Hq2 : q <> description_path (_bids_root self)).
    { intros ->. rewrite description_path_eq in Hq.
      apply snoc_not_in_chain in Hq. contradiction. }
    assert (Hq3 : q <> participants_path (_bids_root self)).
    { intros ->. rewrite participants_path_eq in Hq.
      apply snoc_not_in_chain in Hq. contradiction. }
    rewrite (node_at_same fs2) by (apply Hframe3, Hq3).
    rewrite (node_at_same fs1) by (apply Hframe2, Hq2).
    rewrite (Hdirs1 q Hq). discriminate.
  - right. rewrite (node_at_same fs2) by (apply Hframe3, Hdp). exact Hjson2.
  - right. exact Htable3.
Qed.

Lemma for_each_raises_first self e es fs x :
  write_entity self e fs = (Raise x, fs) ->
  for_each (write_entity self) (e :: es) fs = (Raise x, fs).
Proof. intros H. simpl. unfold bind. rewrite H. reflexivity. Qed.

Lemma write_entity_rename self e fs :
  _entity_merge_strategy self = RENAME_ENTITIES ->
  has_payload e ->
  write_entity self e fs
  = (Raise (NotSupported "RENAME_ENTITIES merge strategy not implemented."), fs).
Proof.
  intros Hs Hp. unfold write_entity. unfold has_payload in Hp.
  destruct (file_path e) as [fp |]; [apply merge_entity_rename, Hs |].
  destruct (tabular_data e) as [tb |]; [apply merge_entity_rename, Hs |].
  destruct Hp as [[? ?] | [? ?]]; discriminate.
Qed.

(** One write under [RENAME_ENTITIES]; what it leaves is ready for the next. *)
Lemma write_rename_fails self bids h fs e es :
  _entity_merge_strategy self = RENAME_ENTITIES ->
  _bids (with_model self) = Some bids ->
  get_entities h (entities bids) = e :: es ->
  has_payload e ->
  mergeable_root fs (_bids_root self) ->
  exists self' bids' fs',
    write self h fs
    = (Raise (NotSupported "RENAME_ENTITIES merge strategy not implemented."), self', fs')
    /\ _entity_merge_strategy self' = RENAME_ENTITIES
    /\ _bids_root self' = _bids_root self
    /\ _bids self' = Some bids'
    /\ entities bids' = entities bids
    /\ mergeable_root fs' (_bids_root self).
Proof.
  intros Hs Hm Hes Hp Hroot.
  destruct (write_reaches_entities self bids h fs Hm) as (bids' & fs3 & Hent & Hroot3 & Hw);
    [rewrite Hs; reflexivity | exact Hroot |].
  exists (set_bids (with_model self) bids'), bids', fs3.
  rewrite Hw, Hent, Hes.
  rewrite (for_each_raises_first _ _ _ _
             (NotSupported "RENAME_ENTITIES merge strategy not implemented."));
    [| apply write_entity_rename;
       [simpl; rewrite with_model_strategy; exact Hs | exact Hp]].
  unfold finish. cbn [_entity_merge_strategy _bids_root _bids set_bids].
  rewrite with_model_strategy, with_model_root.
  split; [reflexivity |]. split; [exact Hs |]. split; [reflexivity |].
  split; [reflexivity |]. split; [reflexivity | exact Hroot3].
Qed.

(** C8: under [RENAME_ENTITIES] and under [NEW_SESSION] the conflict
    resolution of an entity fails with [NotSupported], whatever the entity
    and whether its destination exists, and writes nothing; so two writes
    in a row of a model whose first entity carries a payload, under
    [RENAME_ENTITIES] and into a root that can be merged into, both fail
    with [NotSupported], whatever the first one left. *)
Theorem unsupported_strategies :
  (forall self entity write_op fs,
      _entity_merge_strategy self = RENAME_ENTITIES ->
      _merge_entity self entity write_op fs
      = (Raise (NotSupported "RENAME_ENTITIES merge strategy not implemented."), fs))
  /\ (forall self entity write_op fs,
        _entity_merge_strategy self = NEW_SESSION ->
        _merge_entity self entity write_op fs
        = (Raise (NotSupported "New session merge strategy not implemented."), fs))
  /\ (forall self bids h fs e es,
        _entity_merge_strategy self = RENAME_ENTITIES ->
        _bids (with_model self) = Some bids ->
        get_entities h (entities bids) = e :: es ->
        has_payload e ->
        mergeable_root fs (_bids_root self) ->
        exists self1 fs1 self2 fs2,
          write self h fs
          = (Raise (NotSupported "RENAME_ENTITIES merge strategy not implemented."),
             self1, fs1)
          /\ write self1 h fs1
             = (Raise (NotSupported "RENAME_ENTITIES merge strategy not implemented."),
                self2, fs2)).
Proof.
  split; [| split].
  - intros. apply merge_entity_rename. assumption.
  - intros. apply merge_entity_new_session. assumption.
  - intros self bids h fs e es Hs Hm Hes Hp Hroot.
    destruct (write_rename_fails self bids h fs e es Hs Hm Hes Hp Hroot)
      as (self1 & bids1 & fs1 & Hw1 & Hs1 & Hr1 & Hb1 & He1 & Hroot1).
    destruct (write_rename_fails self1 bids1 h fs1 e es)
      as (self2 & bids2 & fs2 & Hw2 & _); try assumption.
    + rewrite (with_model_idem _ _ Hb1). exact Hb1.
    + rewrite He1. exact Hes.
    + rewrite Hr1. exact Hroot1.
    + exists self1, fs1, self2, fs2. auto.
Qed.

Lemma mergeable_root_empty : mergeable_root ∅ ["root"].
Proof.
  split; [| split].
  - intros q c Hq. apply list_elem_of_singleton in Hq. subst. discriminate.
  - left. reflexivity.
  - left. reflexivity.
Qed.

Lemma unsupported_strategies_witness :
  exists self1 fs1 self2 fs2,
    write (draw_writer RENAME_ENTITIES) (draw_heap table_2rows None) ∅
    = (Raise (NotSupported "RENAME_ENTITIES merge strategy not implemented."),
       self1, fs1)
    /\ write self1 (draw_heap table_2rows None) fs1
       = (Raise (NotSupported "RENAME_ENTITIES merge strategy not implemented."),
          self2, fs2).
Proof.
  destruct unsupported_strategies as [_ [_ H]].
  apply (H (draw_writer RENAME_ENTITIES) draw_model (draw_heap table_2rows None) ∅
           (draw_entity table_2rows None) []).
  - reflexivity.
  - reflexivity.
  - reflexivity.
  - right. simpl. eauto.
  - exact mergeable_root_empty.
Defined.

End WholeWrite.

(** ** NO_MERGE *)

Section NoMerge.

Implicit Types (fs : gmap (list string) node) (self : BidsWriter).

Lemma write_participants_entities self bids h fs r bids' fs' :
  write_participants self bids h fs = (r, bids', fs') ->
  entities bids' = entities bids.
Proof.
  unfold write_participants, path_exists.
  destruct (negb _ || _).
  - unfold subject_ids. destruct (subject_ids_cache bids);
      destruct (_merge_tsv _ _ fs); intros H; inversion H; reflexivity.
  - intros H; inversion H; reflexivity.
Qed.

(** Under [NO_MERGE] the conflict resolution of an entity always raises:
    [EntityConflict] where the destination exists, and the error of the
    last [else] where it does not. *)
Lemma write_entity_no_merge self e fs :
  _entity_merge_strategy self = NO_MERGE ->
  exists x, write_entity self e fs = (Raise x, fs).
Proof.
  intros Hs.
  assert (Hm : forall op, exists x, _merge_entity self e op fs = (Raise x, fs)).
  { intros op.
    destruct (node_at fs (joinpath (_bids_root self)
                            (relative_entity_path (_config self) e))) eqn:Hd.
    - eexists. apply merge_entity_no_merge_conflict; [exact Hs |]. rewrite Hd. eauto.
    - eexists. apply merge_entity_no_merge_fresh; assumption. }
  unfold write_entity.
  destruct (file_path e); [apply Hm |].
  destruct (tabular_data e); [apply Hm |].
  eexists. reflexivity.
Qed.

(** So a write under [NO_MERGE] of a model that holds an entity never
    returns normally, whatever the root holds. *)
Lemma no_merge_never_succeeds self bids h fs e es :
  _entity_merge_strategy self = NO_MERGE ->
  _bids (with_model self) = Some bids ->
  get_entities h (entities bids) = e :: es ->
  exists x, (write self h fs).1.1 = Raise x.
Proof.
  intros Hs Hm Hes. rewrite (write_unfold _ _ _ _ Hm).
  destruct (confirm_root (with_model self) fs) as [[[] | x] fs1]; [| eauto].
  unfold write_files.
  destruct (write_dataset_description _ bids h fs1) as [[[] | x] fs2]; [| eauto].
  destruct (write_participants _ bids h fs2) as [[[[] | x] bids'] fs3] eqn:Hp; [| eauto].
  apply write_participants_entities in Hp. rewrite Hp, Hes.
  destruct (write_entity_no_merge (set_bids (with_model self) bids') e fs3) as [x Hx].
  { simpl. rewrite with_model_strategy. exact Hs. }
  simpl. unfold bind. rewrite Hx. eauto.
Qed.

(** C1, the code at the failing input: the write of the one-table model
    under [NO_MERGE] into an empty root stops at the entity with the error
    of the last [else] of [_merge_entity]; the table is not written.  Under
    [OVERWRITE] the same write returns [True] and writes it. *)
Theorem no_merge_into_empty_root_fails :
  (write (draw_writer NO_MERGE) (draw_heap table_2rows None) ∅).1.1
  = Raise (UnknownMergeStrategy "NO_MERGE")
  /\ (write (draw_writer NO_MERGE) (draw_heap table_2rows None) ∅).2
       !! ["root"; "sub-S01"; "beh"; "sub-S01_task-draw_.tsv"] = None
  /\ (write (draw_writer OVERWRITE) (draw_heap table_2rows None) ∅).1.1
     = Return true
  /\ (write (draw_writer OVERWRITE) (draw_heap table_2rows None) ∅).2
       !! ["root"; "sub-S01"; "beh"; "sub-S01_task-draw_.tsv"]
     = Some (File (Table table_2rows)).
Proof. vm_compute. repeat split; reflexivity. Qed.

End NoMerge.

(** ** The scenario: one table written under OVERWRITE *)

Section Scenario.

Lemma append_empty (s : string) : s +:+ "" = s.
Proof.
  induction s as [| c s IH]; [reflexivity |].
  change (String c (s +:+ "") = String c s). rewrite IH. reflexivity.
Qed.

(** The text of a table file: the line of the column labels, then the lines
    of the rows. *)
Lemma to_csv_text_lines (tb : DataFrame) :
  to_csv_text tb
  = tsv_line (columns tb) +:+ String.concat "" (map tsv_line (rows tb)).
Proof.
  unfold to_csv_text. cbn [map String.concat].
  destruct (map tsv_line (rows tb)) as [| l ls]; [| reflexivity].
  symmetry. apply append_empty.
Qed.

Example to_csv_text_2rows :
  to_csv_text table_2rows
  = "x" +:+ tab +:+ "y" +:+ newline
    +:+ "1" +:+ tab +:+ "2" +:+ newline
    +:+ "3" +:+ tab +:+ "4" +:+ newline.
Proof. reflexivity. Qed.

(** C4, as the code has it: the write of the one-table model under
    [OVERWRITE] and the default configuration into an empty root returns
    [True] and leaves the table at
    [root/sub-S01/beh/sub-S01_task-draw_.tsv], the suffix [.tsv] being
    joined to the name by an underscore like every other part; the text of
    that file is the line of the column labels followed by one line per
    row, cells separated by tabs, without an index column;
    [root/dataset_description.json] and [root/participants.tsv] are there. *)
Theorem overwrite_scenario (tb : DataFrame) :
  (write (draw_writer OVERWRITE) (draw_heap tb None) ∅).1.1 = Return true
  /\ (write (draw_writer OVERWRITE) (draw_heap tb None) ∅).2
       !! ["root"; "sub-S01"; "beh"; "sub-S01_task-draw_.tsv"]
     = Some (File (Table tb))
  /\ to_csv_text tb
     = (String.concat tab (columns tb) +:+ newline)
       +:+ String.concat "" (map (fun row => String.concat tab row +:+ newline) (rows tb))
  /\ (write (draw_writer OVERWRITE) (draw_heap tb None) ∅).2
       !! ["root"; "dataset_description.json"] = Some (File (Json ∅))
  /\ (write (draw_writer OVERWRITE) (draw_heap tb None) ∅).2
       !! ["root"; "participants.tsv"]
     = Some (File (Table {| columns := ["participant"]; rows := [["S01"]] |})).
Proof.
  split; [vm_compute; reflexivity |].
  split; [vm_compute; reflexivity |].
  split; [exact (to_csv_text_lines tb) |].
  split; vm_compute; reflexivity.
Qed.

(** C4 as stated fails: after that write nothing is at
    [root/sub-S01/beh/sub-S01_task-draw.tsv]. *)
Lemma overwrite_scenario_name_differs :
  (write (draw_writer OVERWRITE) (draw_heap table_2rows None) ∅).1.1 = Return true
  /\ (write (draw_writer OVERWRITE) (draw_heap table_2rows None) ∅).2
       !! ["root"; "sub-S01"; "beh"; "sub-S01_task-draw.tsv"] = None.
Proof. vm_compute. split; reflexivity. Qed.

End Scenario.

(** ** Metadata sidecars *)

Section Sidecar.

Implicit Types (fs : gmap (list string) node) (self : BidsWriter).

Lemma json_name_not_slash (s : string) : s +:+ ".json" <> "/".
Proof.
  destruct s as [| a s]; [discriminate |].
  change (String a (s +:+ ".json") <> "/"). intros H. injection H as _ H.
  destruct s; discriminate.
Qed.

(** The sidecar of a path lies next to it: same directory, another name. *)
Lemma sidecar_sibling (root rel mp : Path) :
  with_suffix rel ".json" = Some mp ->
  exists L n y,
    joinpath root rel = L ++ [n] /\ joinpath root mp = L ++ [y]
    /\ n <> "/" /\ y <> "/".
Proof.
  unfold with_suffix. destruct (String.eqb (name rel) "") eqn:Hn; [discriminate |].
  intros [= <-].
  destruct rel as [| n l _] using rev_ind; [discriminate |].
  unfold name in *. rewrite last_last in *. rewrite removelast_last.
  destruct (String.eqb n "/") eqn:Hs; [discriminate |].
  apply String.eqb_neq in Hs.
  set (y := stem_of n +:+ ".json").
  assert (Hy : y <> "/") by apply json_name_not_slash.
  assert (Habs : is_absolute (l ++ [y]) = is_absolute (l ++ [n])).
  { destruct l as [| a l]; [| reflexivity]. simpl.
    apply String.eqb_neq in Hs, Hy. rewrite Hs, Hy. reflexivity. }
  unfold joinpath. rewrite Habs. destruct (is_absolute (l ++ [n])).
  - exists l, n, y. auto.
  - exists (root ++ l), n, y. rewrite !app_assoc. auto.
Qed.

(** [mkdir] touches nothing but the directories on its way. *)
Lemma mkdir_from_frame rest : forall base fs r fs',
  mkdir_from base rest fs = (r, fs') ->
  forall q, fs' !! q = fs !! q \/ q ∈ chain base rest.
Proof.
  induction rest as [| c rest IH]; intros base fs r fs' Hrun q; simpl in Hrun.
  - inversion Hrun. left. reflexivity.
  - destruct (node_at fs (base ++ [c])) as [[| c0] |].
    + destruct (IH _ _ _ _ Hrun q) as [H | H]; [left; exact H |].
      right. simpl. apply elem_of_cons. right. exact H.
    + inversion Hrun. left. reflexivity.
    + destruct (IH _ _ _ _ Hrun q) as [H | H].
      * destruct (decide (q = base ++ [c])) as [-> | Hne].
        -- right. simpl. apply elem_of_cons. left. reflexivity.
        -- left. rewrite H. apply lookup_insert_ne. congruence.
      * right. simpl. apply elem_of_cons. right. exact H.
Qed.

Lemma ensure_directory_frame (L : Path) (n y : string) fs r fs' :
  n <> "/" ->
  _ensure_directory_path (L ++ [n]) false fs = (r, fs') ->
  fs' !! (L ++ [y]) = fs !! (L ++ [y]).
Proof.
  intros Hn. unfold _ensure_directory_path, bind, path_exists.
  rewrite parent_snoc by (apply snoc_not_anchor; exact Hn).
  destruct (bool_decide _).
  - intros H. inversion H. reflexivity.
  - intros H. destruct (mkdir_from_frame _ _ _ _ _ H (L ++ [y])) as [Hq | Hq];
      [exact Hq |].
    apply snoc_not_in_chain in Hq. contradiction.
Qed.

Lemma copy2_inv (src dst : Path) fs fs' r :
  copy2 src dst fs = (Return r, fs') ->
  exists c, fs' = <[dst := File c]> fs
            \/ fs' = <[dst ++ [name src] := File c]> fs.
Proof.
  unfold copy2. destruct (node_at fs src) as [[| c] |]; try discriminate.
  destruct (bool_decide _); [discriminate |].
  intros H. apply write_file_inv in H as [H _]. exists c.
  destruct (node_at fs dst) as [[| c0] |]; auto.
Qed.

(** A JSON merge that returns has read an object or nothing, and leaves
    the given keys over those it read. *)
Lemma merge_json_inv (path : Path) (data : dict) fs fs' :
  _merge_json path data fs = (Return tt, fs') ->
  fs' = <[path := File (Json (data ∪ json_at fs path))]> fs.
Proof.
  unfold _merge_json, bind, path_exists, json_load, json_dump, json_at, ret.
  destruct (node_at fs path) as [[| [d | t | b]] |] eqn:Hp.
  - rewrite bool_decide_eq_true_2 by eauto. cbn beta iota. rewrite Hp. discriminate.
  - rewrite bool_decide_eq_true_2 by eauto. cbn beta iota. rewrite Hp.
    intros H. apply write_file_inv in H as [H _]. exact H.
  - rewrite bool_decide_eq_true_2 by eauto. cbn beta iota. rewrite Hp. discriminate.
  - rewrite bool_decide_eq_true_2 by eauto. cbn beta iota. rewrite Hp. discriminate.
  - rewrite bool_decide_eq_false_2 by (intros [? ?]; discriminate). cbn beta iota.
    rewrite (right_id_L ∅ (∪)).
    intros H. apply write_file_inv in H as [H _]. exact H.
Qed.

Lemma falsy_metadata (md : option dict) : truthy md = false -> default ∅ md = ∅.
Proof.
  destruct md as [d |]; [| reflexivity]. simpl. intros H.
  apply bool_decide_eq_false in H. destruct (decide (d = ∅)); [assumption | contradiction].
Qed.

(** What one entity leaves at its sidecar under [OVERWRITE]. *)
Lemma overwrite_sidecar self (e : BidsEntity) (mp : Path) fs fs' :
  _entity_merge_strategy self = OVERWRITE ->
  relative_entity_metadata_path (_config self) e = Return mp ->
  joinpath (_bids_root self) mp
    <> joinpath (_bids_root self) (relative_entity_path (_config self) e) ->
  write_entity self e fs = (Return tt, fs') ->
  node_at fs' (joinpath (_bids_root self) mp)
  = if truthy (metadata e)
    then Some (File (Json (default ∅ (metadata e)
                           ∪ json_at fs (joinpath (_bids_root self) mp))))
    else node_at fs (joinpath (_bids_root self) mp).
Proof.
  intros Hs Hmp Hne Hrun.
  assert (Hsuf : with_suffix (relative_entity_path (_config self) e) ".json" = Some mp).
  { unfold relative_entity_metadata_path in Hmp.
    destruct (with_suffix _ _); [injection Hmp as -> ; reflexivity | discriminate]. }
  destruct (sidecar_sibling (_bids_root self) _ _ Hsuf) as (L & n & y & Hd & Hsp & Hn & Hy).
  set (dest := joinpath (_bids_root self) (relative_entity_path (_config self) e)) in *.
  set (sp := joinpath (_bids_root self) mp) in *.
  assert (Hany : forall op,
    (forall fsa fsb, op dest fsa = (Return tt, fsb) -> fsb !! sp = fsa !! sp) ->
    _merge_entity self e op fs = (Return tt, fs') ->
    node_at fs' sp
    = if truthy (metadata e)
      then Some (File (Json (default ∅ (metadata e) ∪ json_at fs sp)))
      else node_at fs sp).
  { intros op Hop Hm. rewrite merge_entity_overwrite in Hm by exact Hs.
    fold dest in Hm. unfold bind in Hm.
    destruct (_ensure_directory_path dest false fs) as [[[] | x] fs1] eqn:He;
      [| discriminate].
    assert (H1 : fs1 !! sp = fs !! sp).
    { rewrite Hsp. rewrite Hd in He. exact (ensure_directory_frame L n y fs _ fs1 Hn He). }
    destruct (op dest fs1) as [[[] | x] fs2] eqn:Ho; [| discriminate].
    assert (H2 : node_at fs2 sp = node_at fs sp).
    { apply node_at_same. rewrite (Hop _ _ Ho). exact H1. }
    destruct (truthy (metadata e)).
    - rewrite Hmp in Hm. unfold lift in Hm. fold sp in Hm.
      apply merge_json_inv in Hm. subst fs'.
      rewrite node_at_insert_eq
        by (rewrite Hsp; apply snoc_not_anchor; exact Hy).
      unfold json_at. rewrite H2. reflexivity.
    - inversion Hm. subst fs'. exact H2. }
  unfold write_entity in Hrun.
  destruct (file_path e) as [fp |].
  - apply (Hany (fun path => copy2 fp path)); [| exact Hrun].
    intros fsa fsb Hc. apply copy2_inv in Hc as [c [-> | ->]].
    + apply lookup_insert_ne. congruence.
    + apply lookup_insert_ne. rewrite Hsp, Hd. intros Heq.
      apply (f_equal (@length string)) in Heq. rewrite !length_app in Heq.
      simpl in Heq. lia.
  - destruct (tabular_data e) as [tb |]; [| discriminate].
    apply (Hany (fun path => to_csv tb path)); [| exact Hrun].
    intros fsa fsb Hc. apply write_file_inv in Hc as [-> _].
    apply lookup_insert_ne. congruence.
Qed.

(** C7: under [OVERWRITE], two entities of the same destination written
    one after the other, each with some metadata, into a place that holds
    no sidecar yet, leave one sidecar: the union of the two dicts, the
    second entity's value where both have the key.  In general the JSON
    merge leaves the given keys over those of the object it read. *)
Theorem overwrite_merges_sidecar self (e1 e2 : BidsEntity) (mp : Path)
    (fs0 fs1 fs2 : filesystem) :
  _entity_merge_strategy self = OVERWRITE ->
  relative_entity_path (_config self) e2 = relative_entity_path (_config self) e1 ->
  relative_entity_metadata_path (_config self) e1 = Return mp ->
  joinpath (_bids_root self) mp
    <> joinpath (_bids_root self) (relative_entity_path (_config self) e1) ->
  node_at fs0 (joinpath (_bids_root self) mp) = None ->
  write_entity self e1 fs0 = (Return tt, fs1) ->
  write_entity self e2 fs1 = (Return tt, fs2) ->
  node_at fs2 (joinpath (_bids_root self) mp)
  = (if truthy (metadata e1) || truthy (metadata e2)
     then Some (File (Json (default ∅ (metadata e2) ∪ default ∅ (metadata e1))))
     else None)
  /\ (forall k,
        (default ∅ (metadata e2) ∪ default ∅ (metadata e1)) !! k
        = match default ∅ (metadata e2) !! k with
          | Some v => Some v
          | None => default ∅ (metadata e1) !! k
          end)
  /\ (forall path data fs fs',
        _merge_json path data fs = (Return tt, fs') ->
        fs' = <[path := File (Json (data ∪ json_at fs path))]> fs).
Proof.
  intros Hs Hrel Hmp Hne H0 Hw1 Hw2.
  assert (Hmp2 : relative_entity_metadata_path (_config self) e2 = Return mp).
  { unfold relative_entity_metadata_path in *. rewrite Hrel. exact Hmp. }
  pose proof (overwrite_sidecar self e1 mp fs0 fs1 Hs Hmp Hne Hw1) as A1.
  rewrite <- Hrel in Hne.
  pose proof (overwrite_sidecar self e2 mp fs1 fs2 Hs Hmp2 Hne Hw2) as A2.
  split; [| split].
  - rewrite A2. unfold json_at at 1. rewrite A1. unfold json_at. rewrite H0.
    rewrite (right_id_L ∅ (∪)).
    destruct (truthy (metadata e1)) eqn:T1, (truthy (metadata e2)) eqn:T2; simpl.
    + reflexivity.
    + rewrite (falsy_metadata _ T2), (left_id_L ∅ (∪)). reflexivity.
    + rewrite (falsy_metadata _ T1). reflexivity.
    + reflexivity.
  - intros k. destruct (default ∅ (metadata e2) !! k) as [v |] eqn:Hk.
    + apply lookup_union_Some_l. exact Hk.
    + rewrite lookup_union_r by exact Hk. reflexivity.
  - apply merge_json_inv.
Qed.

Lemma overwrite_merges_sidecar_witness :
  node_at
    (write_entity (draw_writer OVERWRITE)
       (draw_entity table_2rows (Some second_metadata))
       (write_entity (draw_writer OVERWRITE)
          (draw_entity table_2rows (Some first_metadata)) ∅).2).2
    ["root"; "sub-S01"; "beh"; "sub-S01_task-draw_.json"]
  = Some (File (Json (second_metadata ∪ first_metadata))).
Proof.
  pose (self := draw_writer OVERWRITE).
  pose (e1 := draw_entity table_2rows (Some first_metadata)).
  pose (e2 := draw_entity table_2rows (Some second_metadata)).
  pose (fs1 := (write_entity self e1 ∅).2).
  pose (fs2 := (write_entity self e2 fs1).2).
  assert (T1 : truthy (Some first_metadata) = true) by (vm_compute; reflexivity).
  destruct (overwrite_merges_sidecar self e1 e2
              ["sub-S01"; "beh"; "sub-S01_task-draw_.json"] ∅ fs1 fs2) as [H _].
  - reflexivity.
  - reflexivity.
  - vm_compute. reflexivity.
  - vm_compute. discriminate.
  - reflexivity.
  - assert (Hr : (write_entity self e1 ∅).1 = Return tt) by (vm_compute; reflexivity).
    subst fs1. destruct (write_entity self e1 ∅) as [r f].
    simpl in Hr. rewrite Hr. reflexivity.
  - assert (Hr : (write_entity self e2 fs1).1 = Return tt) by (vm_compute; reflexivity).
    subst fs2. destruct (write_entity self e2 fs1) as [r f].
    simpl in Hr. rewrite Hr. reflexivity.
  - cbn [metadata e1 e2 draw_entity] in H. rewrite T1 in H. exact H.
Defined.

End Sidecar.

(** ** The layout of the default configuration *)

Section Layout.

Lemma append_assoc (a b c : string) : (a +:+ b) +:+ c = a +:+ (b +:+ c).
Proof.
  induction a as [| x a IH]; [reflexivity |].
  change (String x ((a +:+ b) +:+ c) = String x (a +:+ (b +:+ c))).
  rewrite IH. reflexivity.
Qed.

Lemma length_append (a b : string) :
  String.length (a +:+ b) = String.length a + String.length b.
Proof.
  induction a as [| x a IH]; [reflexivity |].
  change (S (String.length (a +:+ b)) = S (String.length a + String.length b)).
  rewrite IH. reflexivity.
Qed.

Lemma has_char_app c (a b : string) :
  has_char c (a +:+ b) = has_char c a || has_char c b.
Proof.
  induction a as [| x a IH]; [reflexivity |].
  change (Ascii.eqb x c || has_char c (a +:+ b)
          = Ascii.eqb x c || has_char c a || has_char c b).
  rewrite IH, orb_assoc. reflexivity.
Qed.

Lemma split_slash_single (s : string) : has_slash s = false -> split_slash s = [s].
Proof.
  unfold has_slash. induction s as [| c s IH]; [reflexivity |]. simpl.
  intros H. apply orb_false_elim in H as [Hc Hs].
  rewrite Hc, (IH Hs). reflexivity.
Qed.

(** A text without ["/"] that is neither empty nor ["."] is one part. *)
Lemma parse_single (s : string) :
  has_slash s = false -> is_component s = true -> parse s = [s].
Proof.
  intros Hs Hc. unfold parse. rewrite (split_slash_single s Hs). simpl. rewrite Hc.
  destruct s as [| c s]; [reflexivity |]. simpl.
  unfold has_slash in Hs. simpl in Hs. apply orb_false_elim in Hs as [Hs _].
  rewrite Hs. reflexivity.
Qed.

Lemma default_name_parts (e : BidsEntity) :
  default_entity_formatter e = name_stem e +:+ suffix e.
Proof.
  unfold default_entity_formatter, name_stem.
  destruct (run_id e) as [r |]; cbn [app String.concat].
  - rewrite !append_assoc. reflexivity.
  - rewrite !append_assoc. reflexivity.
Qed.

Lemma name_stem_no_slash (e : BidsEntity) :
  has_slash (subject_id e) = false ->
  has_slash (task_name e) = false ->
  has_slash (default "" (run_id e)) = false ->
  has_slash (name_stem e) = false.
Proof.
  unfold has_slash, name_stem. intros H1 H2 H3.
  destruct (run_id e) as [r |]; simpl in H3;
    repeat (rewrite has_char_app); rewrite H1, H2, ?H3; reflexivity.
Qed.

Lemma name_stem_length (e : BidsEntity) : 0 < String.length (name_stem e).
Proof.
  unfold name_stem.
  change (0 < S (String.length ("ub-" +:+ subject_id e +:+ "_task-" +:+ task_name e
                 +:+ match run_id e with Some r => "_run-" +:+ r | None => "" end
                 +:+ "_"))).
  lia.
Qed.

Lemma default_name_component (e : BidsEntity) :
  is_component (default_entity_formatter e) = true.
Proof. rewrite default_name_parts. reflexivity. Qed.

Lemma default_name_no_slash (e : BidsEntity) :
  has_slash (subject_id e) = false ->
  has_slash (task_name e) = false ->
  has_slash (default "" (run_id e)) = false ->
  has_slash (suffix e) = false ->
  has_slash (default_entity_formatter e) = false.
Proof.
  intros H1 H2 H3 H4. rewrite default_name_parts. unfold has_slash.
  rewrite has_char_app. fold (has_slash (name_stem e)).
  rewrite (name_stem_no_slash e H1 H2 H3). exact H4.
Qed.

Lemma div_single (p : Path) (s : string) :
  has_slash s = false -> is_component s = true -> div p s = p ++ [s].
Proof.
  intros Hs Hc. unfold div, joinpath. rewrite (parse_single s Hs Hc). simpl.
  destruct (String.eqb_spec s "/") as [-> | _]; [discriminate | reflexivity].
Qed.

(** X1: with the default formatters, an entity whose ids hold no ["/"] and
    whose datatype is a proper path part goes to
    [sub-<subject>/[ses-<session>/]<datatype>/<name>], the session folder
    being there exactly when [include_sessions] is set (and named
    [ses-None] for an entity without session); under a root, the path is
    the root followed by these parts. *)
Theorem default_layout (cfg : BidsConfig) (e : BidsEntity) (root : list string) :
  subject_formatter cfg = default_subject_formatter ->
  session_formatter cfg = default_session_formatter ->
  entity_formatter cfg = default_entity_formatter ->
  has_slash (subject_id e) = false ->
  has_slash (default "" (session_id e)) = false ->
  has_slash (datatype e) = false ->
  is_component (datatype e) = true ->
  has_slash (task_name e) = false ->
  has_slash (default "" (run_id e)) = false ->
  has_slash (suffix e) = false ->
  relative_entity_path cfg e
  = ["sub-" +:+ subject_id e]
    ++ (if include_sessions cfg then ["ses-" +:+ fmt (session_id e)] else [])
    ++ [datatype e; default_entity_formatter e]
  /\ joinpath root (relative_entity_path cfg e) = root ++ relative_entity_path cfg e.
Proof.
  intros Fs Fe Fn Hsub Hses Hdt Hdtc Htask Hrun Hsfx.
  assert (Hdir : parse (subject_formatter cfg e) = ["sub-" +:+ subject_id e]).
  { rewrite Fs. apply parse_single; [| reflexivity].
    unfold has_slash, default_subject_formatter. rewrite has_char_app. exact Hsub. }
  assert (Hs : has_slash (session_formatter cfg e) = false).
  { rewrite Fe. unfold has_slash, default_session_formatter. rewrite has_char_app.
    destruct (session_id e); [exact Hses | reflexivity]. }
  assert (Hsc : is_component (session_formatter cfg e) = true).
  { rewrite Fe. reflexivity. }
  assert (Hpath : relative_entity_path cfg e
                  = ["sub-" +:+ subject_id e]
                    ++ (if include_sessions cfg
                        then ["ses-" +:+ fmt (session_id e)] else [])
                    ++ [datatype e; default_entity_formatter e]).
  { unfold relative_entity_path, relative_entity_dir. rewrite Hdir, Fn.
    rewrite (div_single _ (default_entity_formatter e))
      by (apply default_name_no_slash || apply default_name_component; assumption).
    destruct (include_sessions cfg).
    - rewrite (div_single _ _ Hs Hsc), (div_single _ _ Hdt Hdtc), Fe. reflexivity.
    - rewrite (div_single _ _ Hdt Hdtc). reflexivity. }
  split; [exact Hpath |].
  unfold joinpath. rewrite Hpath. reflexivity.
Qed.

Lemma default_layout_witness :
  relative_entity_path BidsConfig_sessions (draw_entity table_2rows None)
  = ["sub-" +:+ "S01"] ++ ["ses-" +:+ "None"]
    ++ ["beh"; default_entity_formatter (draw_entity table_2rows None)]
  /\ joinpath ["root"] (relative_entity_path BidsConfig_sessions
                          (draw_entity table_2rows None))
     = ["root"] ++ relative_entity_path BidsConfig_sessions
                     (draw_entity table_2rows None).
Proof.
  apply (default_layout BidsConfig_sessions (draw_entity table_2rows None) ["root"]);
    reflexivity.
Defined.

End Layout.

(** ** The name of the sidecar *)

Section SidecarName.

Lemma rfind_dot_none (s : string) : has_char dot s = false -> rfind_dot s = None.
Proof.
  induction s as [| c s IH]; [reflexivity |]. simpl. intros H.
  apply orb_false_elim in H as [Hc Hs]. rewrite (IH Hs), Hc. reflexivity.
Qed.

Lemma rfind_dot_app (a s : string) :
  rfind_dot (a +:+ s)
  = match rfind_dot s with
    | Some i => Some (String.length a + i)
    | None => rfind_dot a
    end.
Proof.
  induction a as [| c a IH].
  - change ("" +:+ s) with s. destruct (rfind_dot s); reflexivity.
  - change (String c a +:+ s) with (String c (a +:+ s)).
    cbn [rfind_dot String.length]. rewrite IH.
    destruct (rfind_dot s); reflexivity.
Qed.

Lemma take_string_app (a s : string) : take_string (String.length a) (a +:+ s) = a.
Proof.
  induction a as [| c a IH].
  - destruct s; reflexivity.
  - change (String c a +:+ s) with (String c (a +:+ s)).
    cbn [String.length take_string]. rewrite IH. reflexivity.
Qed.

(** The stem of [a.ext], for a non-empty [a] and a non-empty extension
    without dots, is [a]. *)
Lemma stem_of_extension (a ext : string) :
  0 < String.length a -> ext <> "" -> has_char dot ext = false ->
  stem_of (a +:+ "." +:+ ext) = a.
Proof.
  intros Ha Hext Hdot. unfold stem_of.
  rewrite rfind_dot_app.
  change ("." +:+ ext) with (String dot ext).
  cbn [rfind_dot]. rewrite (rfind_dot_none ext Hdot).
  change (Ascii.eqb dot dot) with true. cbn iota.
  rewrite Nat.add_0_r, length_append. cbn [String.length].
  assert (Hl : 0 < String.length ext) by (destruct ext; [contradiction | simpl; lia]).
  replace ((0 <? String.length a)
           && (String.length a <? String.length a + S (String.length ext) - 1))%nat
    with true.
  - apply take_string_app.
  - symmetry. apply andb_true_intro. split; apply Nat.ltb_lt; lia.
Qed.

Lemma name_snoc (l : list string) (n : string) :
  n <> "/" -> name (l ++ [n]) = n.
Proof.
  intros Hn. unfold name. rewrite last_last.
  destruct (String.eqb_spec n "/"); [contradiction | reflexivity].
Qed.

(** X2: with the default name formatter, the sidecar of an entity whose
    suffix is a dot followed by a non-empty extension without dots lies in
    the directory of the entity and is named
    [sub-<subject>_task-<task>[_run-<run>]_.json]: the extension takes no
    part in it, so entities that differ only in their extension share one
    sidecar. *)
Theorem sidecar_name (cfg : BidsConfig) (e : BidsEntity) (ext : string) :
  entity_formatter cfg = default_entity_formatter ->
  suffix e = "." +:+ ext ->
  ext <> "" ->
  has_char dot ext = false ->
  has_slash ext = false ->
  has_slash (subject_id e) = false ->
  has_slash (task_name e) = false ->
  has_slash (default "" (run_id e)) = false ->
  relative_entity_path cfg e
  = relative_entity_dir cfg e ++ [name_stem e +:+ "." +:+ ext]
  /\ relative_entity_metadata_path cfg e
     = Return (relative_entity_dir cfg e ++ [name_stem e +:+ ".json"]).
Proof.
  intros Fn Hsfx Hext Hdot Hslash Hsub Htask Hrun.
  assert (Hname : default_entity_formatter e = name_stem e +:+ "." +:+ ext).
  { rewrite default_name_parts, Hsfx. reflexivity. }
  assert (Hpath : relative_entity_path cfg e
                  = relative_entity_dir cfg e ++ [name_stem e +:+ "." +:+ ext]).
  { unfold relative_entity_path. rewrite Fn, <- Hname.
    apply div_single; [| apply default_name_component].
    apply default_name_no_slash; try assumption.
    rewrite Hsfx. exact Hslash. }
  split; [exact Hpath |].
  unfold relative_entity_metadata_path, with_suffix. rewrite Hpath.
  assert (Hn : name_stem e +:+ "." +:+ ext <> "/").
  { intros E. apply (f_equal (has_char dot)) in E.
    rewrite !has_char_app in E. simpl in E. rewrite orb_true_r in E. discriminate. }
  rewrite (name_snoc _ _ Hn), removelast_last.
  destruct (String.eqb_spec (name_stem e +:+ "." +:+ ext) "") as [E | _].
  - apply (f_equal String.length) in E. rewrite length_append in E.
    pose proof (name_stem_length e). simpl in E. lia.
  - rewrite stem_of_extension by (apply name_stem_length || assumption).
    reflexivity.
Qed.

Lemma sidecar_name_witness :
  relative_entity_path BidsConfig_default session_entity
  = relative_entity_dir BidsConfig_default session_entity
    ++ [name_stem session_entity +:+ "." +:+ "csv"]
  /\ relative_entity_metadata_path BidsConfig_default session_entity
     = Return (relative_entity_dir BidsConfig_default session_entity
               ++ [name_stem session_entity +:+ ".json"]).
Proof.
  apply (sidecar_name BidsConfig_default session_entity "csv");
    try reflexivity. discriminate.
Defined.

End SidecarName.

(** ** Paths that leave the root *)

Section AbsoluteParts.

Lemma is_absolute_parse (s : string) :
  starts_with_slash s = true -> is_absolute (parse s) = true.
Proof. intros H. unfold parse. rewrite H. reflexivity. Qed.

Lemma is_absolute_app (p q : list string) :
  is_absolute p = true -> is_absolute (p ++ q) = true.
Proof. destruct p as [| a p]; [discriminate | intros H; exact H]. Qed.

Lemma is_absolute_div (p : list string) (s : string) :
  is_absolute p = true \/ is_absolute (parse s) = true ->
  is_absolute (div p s) = true.
Proof.
  intros H. unfold div, joinpath.
  destruct (is_absolute (parse s)) eqn:Hs; [exact Hs |].
  destruct H as [H | H]; [apply is_absolute_app, H | discriminate].
Qed.

Lemma joinpath_absolute (root p : list string) :
  is_absolute p = true -> joinpath root p = p.
Proof. intros H. unfold joinpath. rewrite H. reflexivity. Qed.

Lemma is_absolute_removelast (a b : string) (l : list string) :
  is_absolute (removelast (a :: b :: l)) = is_absolute (a :: b :: l).
Proof. reflexivity. Qed.

(** X3: whatever the configuration and the root, an entity whose datatype
    starts with ["/"] has an absolute relative path, and joining it to the
    root drops the root: the entity and its sidecar are written where the
    datatype says, not under the root. *)
Theorem absolute_datatype_leaves_root (cfg : BidsConfig) (e : BidsEntity)
    (root : list string) :
  starts_with_slash (datatype e) = true ->
  is_absolute (relative_entity_path cfg e) = true
  /\ joinpath root (relative_entity_path cfg e) = relative_entity_path cfg e
  /\ (forall mp, relative_entity_metadata_path cfg e = Return mp ->
                 joinpath root mp = mp).
Proof.
  intros Hd.
  assert (Hdir : is_absolute (relative_entity_dir cfg e) = true).
  { unfold relative_entity_dir. apply is_absolute_div. right.
    apply is_absolute_parse, Hd. }
  assert (Hpath : is_absolute (relative_entity_path cfg e) = true).
  { unfold relative_entity_path. apply is_absolute_div. left. exact Hdir. }
  split; [exact Hpath |]. split; [apply joinpath_absolute, Hpath |].
  intros mp Hmp. apply joinpath_absolute.
  unfold relative_entity_metadata_path, with_suffix in Hmp.
  destruct (String.eqb (name (relative_entity_path cfg e)) "") eqn:Hn;
    [discriminate |].
  injection Hmp as <-.
  destruct (relative_entity_path cfg e) as [| a [| b l]].
  - discriminate.
  - simpl in Hpath. unfold name in Hn. simpl in Hn. rewrite Hpath in Hn. discriminate.
  - apply is_absolute_app. rewrite is_absolute_removelast. exact Hpath.
Qed.

Lemma absolute_datatype_leaves_root_witness :
  is_absolute
    (relative_entity_path BidsConfig_default
       {| subject_id := "S01"; datatype := "/tmp"; task_name := "draw";
          suffix := ".tsv"; session_id := None; metadata := None;
          file_path := None; tabular_data := Some table_2rows; run_id := None |})
  = true
  /\ joinpath ["root"]
       (relative_entity_path BidsConfig_default
          {| subject_id := "S01"; datatype := "/tmp"; task_name := "draw";
             suffix := ".tsv"; session_id := None; metadata := None;
             file_path := None; tabular_data := Some table_2rows; run_id := None |})
     = relative_entity_path BidsConfig_default
         {| subject_id := "S01"; datatype := "/tmp"; task_name := "draw";
            suffix := ".tsv"; session_id := None; metadata := None;
            file_path := None; tabular_data := Some table_2rows; run_id := None |}
  /\ (forall mp,
        relative_entity_metadata_path BidsConfig_default
          {| subject_id := "S01"; datatype := "/tmp"; task_name := "draw";
             suffix := ".tsv"; session_id := None; metadata := None;
             file_path := None; tabular_data := Some table_2rows; run_id := None |}
        = Return mp ->
        joinpath ["root"] mp = mp).
Proof.
  apply (absolute_datatype_leaves_root BidsConfig_default
           {| subject_id := "S01"; datatype := "/tmp"; task_name := "draw";
              suffix := ".tsv"; session_id := None; metadata := None;
              file_path := None; tabular_data := Some table_2rows; run_id := None |}
           ["root"]).
  reflexivity.
Defined.

Example absolute_datatype_path :
  joinpath ["root"]
    (relative_entity_path BidsConfig_default
       {| subject_id := "S01"; datatype := "/tmp"; task_name := "draw";
          suffix := ".tsv"; session_id := None; metadata := None;
          file_path := None; tabular_data := Some table_2rows; run_id := None |})
  = ["/"; "tmp"; "sub-S01_task-draw_.tsv"].
Proof. reflexivity. Qed.

End AbsoluteParts.

(** ** The cached properties of a model *)

Section CachedProperties.

Lemma elem_of_In {A} (x : A) (l : list A) : x ∈ l <-> In x l.
Proof.
  induction l as [| a l IH]; simpl.
  - split; [intros H; apply elem_of_nil in H; contradiction | contradiction].
  - rewrite elem_of_cons, IH. split; intros [H | H]; auto.
Qed.

(** X4: the first read of [subject_ids] yields every subject of the
    model's entities exactly once, and fills the cache with that list; the
    entities of the model stay the same. *)
Theorem subject_ids_first_read (self : BidsModel) (h : heap) :
  subject_ids_cache self = None ->
  NoDup (subject_ids self h).1
  /\ (forall s, s ∈ (subject_ids self h).1
                <-> exists e, e ∈ get_entities h (entities self) /\ subject_id e = s)
  /\ subject_ids_cache (subject_ids self h).2 = Some (subject_ids self h).1
  /\ entities (subject_ids self h).2 = entities self
  /\ dataset_description (subject_ids self h).2 = dataset_description self.
Proof.
  intros Hc. unfold subject_ids. rewrite Hc. cbn [fst snd].
  split; [apply NoDup_remove_dups |]. split; [| repeat split].
  intros s. rewrite elem_of_remove_dups, list_elem_of_fmap. split.
  - intros (e & -> & He). eauto.
  - intros (e & He & <-). eauto.
Qed.

Lemma subject_ids_first_read_witness :
  NoDup (subject_ids draw_model (draw_heap table_2rows None)).1
  /\ (forall s, s ∈ (subject_ids draw_model (draw_heap table_2rows None)).1
                <-> exists e,
                      e ∈ get_entities (draw_heap table_2rows None) (entities draw_model)
                      /\ subject_id e = s)
  /\ subject_ids_cache (subject_ids draw_model (draw_heap table_2rows None)).2
     = Some (subject_ids draw_model (draw_heap table_2rows None)).1
  /\ entities (subject_ids draw_model (draw_heap table_2rows None)).2
     = entities draw_model
  /\ dataset_description (subject_ids draw_model (draw_heap table_2rows None)).2
     = dataset_description draw_model.
Proof.
  apply (subject_ids_first_read draw_model (draw_heap table_2rows None)).
  reflexivity.
Defined.

(** X5: the first read of [has_sessions] says whether some entity of the
    model has a session label, that is, a session id that is set and not
    empty; a model without entities has none. *)
Theorem has_sessions_first_read (self : BidsModel) (h : heap) :
  ((has_sessions self None h).1 = true
   <-> exists e, e ∈ get_entities h (entities self)
                 /\ is_Some (_bids_session_label self e))
  /\ (forall e, is_Some (_bids_session_label self e)
                <-> exists s, session_id e = Some s /\ s <> "")
  /\ (get_entities h (entities self) = [] -> (has_sessions self None h).1 = false)
  /\ (has_sessions self None h).2 = Some (has_sessions self None h).1.
Proof.
  assert (Hl : forall e, is_Some (_bids_session_label self e)
                         <-> str_truthy (session_id e) = true).
  { intros e. unfold _bids_session_label.
    destruct (str_truthy (session_id e)); split; eauto; try discriminate.
    intros [? ?]; discriminate. }
  split; [| split; [| split]].
  - cbn [has_sessions fst]. rewrite existsb_exists. split.
    + intros (e & He & Ht). exists e. split; [apply elem_of_In, He | apply Hl, Ht].
    + intros (e & He & Ht). exists e. split; [apply elem_of_In, He | apply Hl, Ht].
  - intros e. rewrite Hl. unfold str_truthy.
    destruct (session_id e) as [s |].
    + destruct (String.eqb_spec s ""); simpl; split.
      * discriminate.
      * intros (s' & [= <-] & Hs). contradiction.
      * intros _. eauto.
      * reflexivity.
    + split; [discriminate | intros (s & H & _); discriminate].
  - intros He. cbn [has_sessions fst]. rewrite He. reflexivity.
  - reflexivity.
Qed.

Lemma has_sessions_first_read_witness :
  (has_sessions draw_model None (draw_heap table_2rows None)).1 = false
  /\ (has_sessions draw_model None
        {| entity_lists := [[]; [session_entity]]; description_dicts := [∅; ∅] |}).1
     = true.
Proof.
  split.
  - destruct (has_sessions_first_read draw_model (draw_heap table_2rows None))
      as [H _].
    apply not_true_is_false. intros E.
    apply H in E as (e & He & Hl). apply list_elem_of_singleton in He. subst e.
    destruct Hl as [l Hl]. discriminate.
  - destruct (has_sessions_first_read draw_model
                {| entity_lists := [[]; [session_entity]];
                   description_dicts := [∅; ∅] |}) as [H _].
    apply H. exists session_entity. split.
    + apply list_elem_of_singleton. reflexivity.
    + eexists. reflexivity.
Defined.

(** X6: once [subject_ids] and [has_sessions] have been read, they keep
    their values whatever is added afterwards through the builder the
    model was built from, although the model's list does hold the new
    entity: a subject first seen in a later [add] is missing from
    [subject_ids], where a model built afresh has it. *)
Theorem cached_properties_are_frozen (b : BidsBuilder) (c : add_call) (h : heap)
    (es : list BidsEntity) :
  entity_lists h !! _entities b = Some es ->
  valid_resource c = true ->
  (forall e, e ∈ es -> subject_id e <> call_subject_id c) ->
  let model := (subject_ids (build b) h).2 in
  let ids := (subject_ids (build b) h).1 in
  let slot := (has_sessions (build b) None h).2 in
  let h' := (call_add b c h).2 in
  get_entities h' (entities model) = es ++ [entity_of_call c]
  /\ subject_ids model h' = (ids, model)
  /\ has_sessions model slot h' = ((has_sessions (build b) None h).1, slot)
  /\ (call_subject_id c ∉ (subject_ids model h').1)
  /\ call_subject_id c ∈ (subject_ids (build b) h').1.
Proof.
  intros Hes Hv Hnew model ids slot h'.
  assert (Hh' : entity_lists h' !! _entities b = Some (es ++ [entity_of_call c])).
  { unfold h'. rewrite (call_add_valid _ _ _ Hv). cbn [snd].
    apply list_append_entities, Hes. }
  assert (Hold : get_entities h (_entities b) = es).
  { unfold get_entities. rewrite Hes. reflexivity. }
  split; [| split; [| split; [| split]]].
  - unfold get_entities. cbn. rewrite Hh'. reflexivity.
  - reflexivity.
  - reflexivity.
  - cbn. rewrite Hold, elem_of_remove_dups, list_elem_of_fmap.
    intros (e & He & Hin). apply (Hnew e Hin). symmetry. exact He.
  - cbn. unfold get_entities. rewrite Hh'. cbn.
    rewrite elem_of_remove_dups, list_elem_of_fmap.
    exists (entity_of_call c). split; [reflexivity |].
    apply elem_of_app. right. apply list_elem_of_singleton. reflexivity.
Qed.

Lemma cached_properties_are_frozen_witness :
  let b := __init__ (Some 1) (Some 1) in
  let c := {| call_subject_id := "S02"; call_datatype := "beh";
              call_task_name := "trail"; call_suffix := ".csv";
              call_resource := FrameResource table_2rows; call_run_id := None;
              call_session_id := Some "1"; call_metadata := None |} in
  let h := draw_heap table_2rows None in
  subject_ids (subject_ids (build b) h).2 (call_add b c h).2
  = (["S01"], (subject_ids (build b) h).2)
  /\ "S02" ∈ (subject_ids (build b) (call_add b c h).2).1.
Proof.
  intros b c h.
  destruct (cached_properties_are_frozen b c h [draw_entity table_2rows None])
    as (_ & H2 & _ & _ & H5).
  - reflexivity.
  - reflexivity.
  - intros e He. apply list_elem_of_singleton in He. subst e. discriminate.
  - split; [exact H2 | exact H5].
Defined.

End CachedProperties.

(** ** The description of the dataset *)

Section DatasetDescription.

(** X7: [add_dataset_description] returns the builder it was called on
    and touches one dict only, the builder's description: afterwards a key
    of [fields] has the value [fields] gives it, also where the key is
    [Name] or [BIDSVersion]; otherwise [Name] and [BIDSVersion] have the
    values of the call, and every other key has the value it had. *)
Theorem add_dataset_description_keys (self : BidsBuilder) (name bids_version : string)
    (fields : gmap string string) (h : heap) (old : gmap string string) :
  description_dicts h !! _dataset_description self = Some old ->
  (add_dataset_description self name bids_version fields h).1 = self
  /\ entity_lists (add_dataset_description self name bids_version fields h).2
     = entity_lists h
  /\ (forall l, l <> _dataset_description self ->
        description_dicts (add_dataset_description self name bids_version fields h).2
          !! l
        = description_dicts h !! l)
  /\ (forall k,
        get_description (add_dataset_description self name bids_version fields h).2
          (_dataset_description self) !! k
        = match fields !! k with
          | Some v => Some v
          | None =>
              if String.eqb k "Name" then Some name
              else if String.eqb k "BIDSVersion" then Some bids_version
              else old !! k
          end).
Proof.
  intros Hold. unfold add_dataset_description. cbn [fst snd].
  split; [reflexivity |]. split; [reflexivity |]. split.
  - intros l Hl. unfold dict_update. cbn [description_dicts].
    rewrite !list_lookup_alter_ne by congruence. reflexivity.
  - intros k. unfold get_description, dict_update. cbn [description_dicts].
    rewrite !list_lookup_alter_eq, Hold. cbn [fmap option_fmap option_map default].
    unfold id.
    destruct (fields !! k) as [v |] eqn:Hf.
    + apply lookup_union_Some_l. exact Hf.
    + rewrite lookup_union_r by exact Hf.
      destruct (String.eqb_spec k "Name") as [-> | Hn].
      * apply lookup_union_Some_l. apply lookup_insert_eq.
      * destruct (String.eqb_spec k "BIDSVersion") as [-> | Hv].
        -- apply lookup_union_Some_l.
           rewrite lookup_insert_ne by discriminate. apply lookup_insert_eq.
        -- rewrite lookup_union_r; [reflexivity |].
           rewrite !lookup_insert_ne by congruence. apply lookup_empty.
Qed.

Lemma add_dataset_description_keys_witness :
  get_description
    (add_dataset_description (__init__ None None) "study" "1.8.0"
       (<["Name" := "other"]> ∅) heap_at_import).2
    default_dataset_description !! "Name" = Some "other"
  /\ get_description
       (add_dataset_description (__init__ None None) "study" "1.8.0"
          (<["Name" := "other"]> ∅) heap_at_import).2
       default_dataset_description !! "BIDSVersion" = Some "1.8.0".
Proof.
  destruct (add_dataset_description_keys (__init__ None None) "study" "1.8.0"
              (<["Name" := "other"]> ∅) heap_at_import ∅ eq_refl)
    as (_ & _ & _ & H).
  change default_dataset_description
    with (_dataset_description (__init__ None None)).
  split.
  - rewrite (H "Name"). vm_compute. reflexivity.
  - rewrite (H "BIDSVersion"). vm_compute. reflexivity.
Defined.

End DatasetDescription.

(** ** The names of the strategies *)

Section StrategyNames.

Lemma upper_names (m : MergeStrategy) : upper (__str__ m) = __str__ m.
Proof. destruct m; reflexivity. Qed.

Lemma argparse_name (m : MergeStrategy) (n : string) :
  n = __str__ m -> List.find (fun x => String.eqb (__str__ x) n) members = Some m.
Proof. intros ->. destruct m; reflexivity. Qed.

(** X8: the members of [MergeStrategy] have distinct values and distinct
    names, so that [==] tells them apart; [argparse] gives back the member
    whose name it is handed, and on ASCII text it accepts exactly the
    names of the members, in any letter case: every other text is a
    [KeyError].  [repr] tells the members apart as well. *)
Theorem strategy_names (s : string) :
  is_ascii s = true ->
  (forall a b, strategy_eqb a b = true <-> a = b)
  /\ (forall a b, __str__ a = __str__ b -> a = b)
  /\ (forall a b, __repr__ a = __repr__ b -> a = b)
  /\ (forall m, argparse (__str__ m) = Some m)
  /\ (forall m, argparse s = Some m <-> upper s = __str__ m)
  /\ (argparse s = None <-> forall m, upper s <> __str__ m).
Proof.
  intros _.
  assert (Hfind : forall m, argparse s = Some m <-> upper s = __str__ m).
  { intros m. unfold argparse. split.
    - intros H. apply find_some in H as [_ H]. apply String.eqb_eq in H. congruence.
    - intros H. apply argparse_name. exact H. }
  split; [| split; [| split; [| split; [| split]]]].
  - intros a b. split; [| intros ->; destruct b; reflexivity].
    destruct a, b; try reflexivity; discriminate.
  - intros a b. destruct a, b; try reflexivity; discriminate.
  - intros a b. destruct a, b; try reflexivity; discriminate.
  - intros m. unfold argparse. rewrite upper_names. apply argparse_name. reflexivity.
  - exact Hfind.
  - split.
    + intros Hn m Hm. apply Hfind in Hm. congruence.
    + intros Hn. destruct (argparse s) as [m |] eqn:E; [| reflexivity].
      exfalso. apply (Hn m), (Hfind m). reflexivity.
Qed.

Lemma strategy_names_witness :
  argparse "overwrite" = Some OVERWRITE /\ argparse "rename_file" = None.
Proof.
  destruct (strategy_names "overwrite" eq_refl) as (_ & _ & _ & _ & H & _).
  destruct (strategy_names "rename_file" eq_refl) as (_ & _ & _ & _ & _ & H').
  split.
  - apply H. reflexivity.
  - apply H'. intros m. destruct m; discriminate.
Defined.

End StrategyNames.

(** ** The builder of a writer *)

Section WriterBuilder.

(** X9: [builder()] makes the writer's builder on first use, over the two
    default accumulators, and hands the same builder out afterwards.  The
    builders of two writers therefore share one list: an entity added
    through the builder of one writer is in the model the other writer
    builds when it writes. *)
Theorem writers_share_builder_lists (w1 w2 : BidsWriter) (c : add_call) (h : heap)
    (es : list BidsEntity) :
  _builder w1 = None ->
  _builder w2 = None ->
  _bids w2 = None ->
  entity_lists h !! default_entities = Some es ->
  valid_resource c = true ->
  builder (builder w1).2 = builder w1
  /\ _entities (builder w1).1 = _entities (builder w2).1
  /\ _dataset_description (builder w1).1 = _dataset_description (builder w2).1
  /\ exists m,
       _bids (with_model (builder w2).2) = Some m
       /\ get_entities (call_add (builder w1).1 c h).2 (entities m)
          = es ++ [entity_of_call c].
Proof.
  intros H1 H2 Hb Hes Hv. unfold builder. rewrite H1, H2. cbn [fst snd _builder].
  split; [reflexivity |]. split; [reflexivity |]. split; [reflexivity |].
  exists (build (__init__ None None)). split.
  - unfold with_model. cbn [_bids _builder]. rewrite Hb. reflexivity.
  - rewrite (call_add_valid _ _ _ Hv). cbn [snd].
    unfold get_entities. cbn [entities build].
    rewrite (list_append_entities _ _ _ es); [reflexivity |]. exact Hes.
Qed.

Lemma writers_share_builder_lists_witness :
  exists m,
    _bids (with_model (builder (BidsWriter_new ["other"] KEEP None None)).2) = Some m
    /\ get_entities
         (call_add (builder (BidsWriter_new ["root"] OVERWRITE None None)).1
            (draw_call table_2rows) heap_at_import).2 (entities m)
       = [] ++ [entity_of_call (draw_call table_2rows)].
Proof.
  destruct (writers_share_builder_lists
              (BidsWriter_new ["root"] OVERWRITE None None)
              (BidsWriter_new ["other"] KEEP None None)
              (draw_call table_2rows) heap_at_import [])
    as (_ & _ & _ & H); try reflexivity.
  exact H.
Defined.

End WriterBuilder.

(** ** The two merges and the directories *)

Section Merges.

Implicit Types (fs : gmap (list string) node) (path : list string).

Lemma write_file_cases path c fs :
  (write_file path c fs = (Return tt, <[path := File c]> fs)
   /\ node_at fs path <> Some Dir /\ node_at fs (parent path) = Some Dir)
  \/ (exists e, write_file path c fs = (Raise e, fs)).
Proof.
  unfold write_file.
  destruct (node_at fs path) as [[| c0] |];
    [right; eauto | |];
    (destruct (node_at fs (parent path)) as [[| c1] |];
     [left; repeat split; discriminate | right; eauto | right; eauto]).
Qed.

Lemma not_dir_not_anchor fs path : node_at fs path <> Some Dir -> is_anchor path = false.
Proof.
  intros H. destruct (is_anchor path) eqn:Ha; [| reflexivity].
  rewrite node_at_anchor in H by exact Ha. contradiction.
Qed.

Lemma parent_ne path : is_anchor path = false -> parent path <> path.
Proof.
  intros Ha. destruct path as [| x l _] using rev_ind; [discriminate |].
  rewrite parent_snoc by exact Ha. intros E.
  apply (f_equal length) in E. rewrite length_app in E. simpl in E. lia.
Qed.

(** [_merge_json], whatever it finds. *)
Lemma merge_json_cases path data fs :
  (_merge_json path data fs
   = (Return tt, <[path := File (Json (data ∪ json_at fs path))]> fs)
   /\ is_anchor path = false
   /\ node_at fs (parent path) = Some Dir
   /\ (node_at fs path = None \/ exists d, node_at fs path = Some (File (Json d))))
  \/ (exists e, _merge_json path data fs = (Raise e, fs)).
Proof.
  unfold _merge_json, bind, path_exists, json_load, json_dump, json_at, ret.
  destruct (node_at fs path) as [[| [d | t | b]] |] eqn:Hp.
  - right. rewrite bool_decide_eq_true_2 by eauto. cbn beta iota. rewrite Hp. eauto.
  - rewrite bool_decide_eq_true_2 by eauto. cbn beta iota. rewrite Hp.
    destruct (write_file_cases path (Json (data ∪ d)) fs) as [(Hw & Hd & Hpar) | [e Hw]].
    + left. rewrite Hw. repeat split; eauto using not_dir_not_anchor.
    + right. rewrite Hw. eauto.
  - right. rewrite bool_decide_eq_true_2 by eauto. cbn beta iota. rewrite Hp. eauto.
  - right. rewrite bool_decide_eq_true_2 by eauto. cbn beta iota. rewrite Hp. eauto.
  - rewrite bool_decide_eq_false_2 by (intros [? ?]; discriminate). cbn beta iota.
    rewrite (right_id_L ∅ (∪)).
    destruct (write_file_cases path (Json data) fs) as [(Hw & Hd & Hpar) | [e Hw]].
    + left. rewrite Hw. repeat split; eauto using not_dir_not_anchor.
    + right. rewrite Hw. eauto.
Qed.

(** X10: a JSON merge that raises leaves the file system as it was; one
    that returns leaves the given keys over those the file had, touches no
    other path, and can be repeated without changing anything. *)
Theorem merge_json_atomic_idempotent path (data : gmap string string) fs :
  match (_merge_json path data fs).1 with
  | Raise _ => (_merge_json path data fs).2 = fs
  | Return _ =>
      node_at (_merge_json path data fs).2 path
      = Some (File (Json (data ∪ json_at fs path)))
      /\ (forall q, q <> path -> (_merge_json path data fs).2 !! q = fs !! q)
      /\ _merge_json path data (_merge_json path data fs).2
         = (Return tt, (_merge_json path data fs).2)
  end.
Proof.
  destruct (merge_json_cases path data fs) as [(Hw & Ha & Hpar & Hold) | [e Hw]];
    rewrite Hw; cbn [fst snd]; [| reflexivity].
  split; [apply node_at_insert_eq, Ha |].
  split; [intros q Hq; apply lookup_insert_ne; congruence |].
  rewrite merge_json_spec.
  - unfold json_at at 1. rewrite node_at_insert_eq by exact Ha.
    rewrite (assoc_L (∪)), (idemp_L (∪)), insert_insert_eq. reflexivity.
  - rewrite node_at_insert_ne by (apply not_eq_sym, parent_ne, Ha). exact Hpar.
  - right. rewrite node_at_insert_eq by exact Ha. eauto.
Qed.

Lemma table_at_Some fs path t :
  node_at fs path = Some (File (Table t)) -> table_at fs path = Some t.
Proof. intros H. unfold table_at. rewrite H. reflexivity. Qed.

Lemma concat_rows (a b : DataFrame) :
  length (rows (concat a b)) = length (rows a) + length (rows b).
Proof.
  unfold concat. cbn [rows]. unfold reindex.
  rewrite length_app, !length_map. reflexivity.
Qed.



(** [mkdir] only ever adds directories, on its way. *)
Lemma mkdir_from_adds rest : forall base fs r fs',
  mkdir_from base rest fs = (r, fs') ->
  forall q, fs' !! q = fs !! q
            \/ (fs !! q = None /\ fs' !! q = Some Dir /\ q ∈ chain base rest).
Proof.
  induction rest as [| c rest IH]; intros base fs r fs' Hrun q; simpl in Hrun.
  - inversion Hrun. left. reflexivity.
  - destruct (node_at fs (base ++ [c])) as [[| c0] |] eqn:Hq0.
    + destruct (IH _ _ _ _ Hrun q) as [H | (H1 & H2 & H3)]; [left; exact H |].
      right. split; [exact H1 |]. split; [exact H2 |].
      simpl. apply elem_of_cons. right. exact H3.
    + inversion Hrun. left. reflexivity.
    + apply node_at_None in Hq0 as [_ Hq0].
      destruct (decide (q = base ++ [c])) as [-> | Hne].
      * right. split; [exact Hq0 |]. split; [| simpl; apply elem_of_cons; auto].
        destruct (IH _ _ _ _ Hrun (base ++ [c])) as [H | (H1 & _ & _)].
        -- rewrite H. apply lookup_insert_eq.
        -- rewrite lookup_insert_eq in H1. discriminate.
      * destruct (IH _ _ _ _ Hrun q) as [H | (H1 & H2 & H3)].
        -- left. rewrite H. apply lookup_insert_ne. congruence.
        -- right. rewrite lookup_insert_ne in H1 by congruence.
           split; [exact H1 |]. split; [exact H2 |].
           simpl. apply elem_of_cons. right. exact H3.
Qed.

(** When [mkdir] returns, every directory on its way is there. *)
Lemma mkdir_from_dirs rest : forall base fs fs',
  mkdir_from base rest fs = (Return tt, fs') ->
  forall q, q ∈ chain base rest -> node_at fs' q = Some Dir.
Proof.
  induction rest as [| c rest IH]; intros base fs fs' Hrun q Hq; simpl in Hq.
  - apply elem_of_nil in Hq. contradiction.
  - simpl in Hrun. apply elem_of_cons in Hq as [-> | Hq].
    + destruct (is_anchor (base ++ [c])) eqn:Ha; [apply node_at_anchor, Ha |].
      rewrite node_at_not_anchor by exact Ha.
      destruct (node_at fs (base ++ [c])) as [[| c0] |] eqn:Hq0; [| discriminate |].
      * rewrite node_at_not_anchor in Hq0 by exact Ha.
        destruct (mkdir_from_adds _ _ _ _ _ Hrun (base ++ [c])) as [H | (H1 & _ & _)];
          congruence.
      * destruct (mkdir_from_adds _ _ _ _ _ Hrun (base ++ [c])) as [H | (H1 & _ & _)].
        -- rewrite H. apply lookup_insert_eq.
        -- rewrite lookup_insert_eq in H1. discriminate.
    + destruct (node_at fs (base ++ [c])) as [[| c0] |]; [| discriminate |];
        eapply IH; eauto.
Qed.

(** X12: [_ensure_directory_path] never changes or removes an entry: all
    it can do is add directories on the way to its target, the path
    itself with [is_dir], its parent without.  Where the target exists, as
    a directory or as a file, it returns without doing anything; when it
    returns, the target exists. *)
Theorem ensure_directory_only_adds path (is_dir : bool) fs :
  let target := if is_dir then path else parent path in
  (forall q,
      (_ensure_directory_path path is_dir fs).2 !! q = fs !! q
      \/ (fs !! q = None
          /\ (_ensure_directory_path path is_dir fs).2 !! q = Some Dir
          /\ q ∈ chain [] target))
  /\ (is_Some (node_at fs target) ->
      _ensure_directory_path path is_dir fs = (Return tt, fs))
  /\ ((_ensure_directory_path path is_dir fs).1 = Return tt ->
      is_Some (node_at (_ensure_directory_path path is_dir fs).2 target)).
Proof.
  intros target.
  assert (Hrun : _ensure_directory_path path is_dir fs
                 = if bool_decide (is_Some (node_at fs target))
                   then (Return tt, fs) else mkdir_parents target fs).
  { unfold _ensure_directory_path, target, bind, path_exists.
    destruct is_dir; destruct (bool_decide _); reflexivity. }
  rewrite Hrun. split; [| split].
  - intros q. destruct (bool_decide _); [left; reflexivity |].
    destruct (mkdir_parents target fs) as [r fs'] eqn:Hm.
    apply (mkdir_from_adds _ _ _ _ _ Hm).
  - intros H. rewrite bool_decide_eq_true_2 by exact H. reflexivity.
  - destruct (bool_decide (is_Some (node_at fs target))) eqn:Hb.
    + intros _. apply bool_decide_eq_true in Hb. exact Hb.
    + destruct (mkdir_parents target fs) as [[[] | e] fs'] eqn:Hm; [| discriminate].
      intros _. cbn [snd].
      destruct target as [| x l]; [eauto |].
      rewrite (mkdir_from_dirs _ _ _ _ Hm); [eauto |].
      apply chain_self. discriminate.
Qed.

Lemma ensure_directory_only_adds_witness :
  _ensure_directory_path ["root"; "sub-S01"; "beh"; "x.tsv"] false used_root
  <> (Return tt, used_root)
  /\ _ensure_directory_path ["root"; "notes.txt"; "x.tsv"] false used_root
     = (Return tt, used_root).
Proof.
  split.
  - intros E.
    destruct (ensure_directory_only_adds ["root"; "sub-S01"; "beh"; "x.tsv"]
                false used_root) as (_ & _ & H).
    rewrite E in H. specialize (H eq_refl). destruct H as [n H].
    vm_compute in H. discriminate.
  - destruct (ensure_directory_only_adds ["root"; "notes.txt"; "x.tsv"]
                false used_root) as (_ & H & _).
    apply H. vm_compute. eauto.
Defined.

End Merges.

(** ** One entity under OVERWRITE *)

Section OverwriteEntity.

Implicit Types (fs : gmap (list string) node) (self : BidsWriter).

Lemma copy2_spec (src dst : list string) (c : content) fs :
  node_at fs src = Some (File c) ->
  node_at fs dst <> Some Dir ->
  src <> dst ->
  node_at fs (parent dst) = Some Dir ->
  copy2 src dst fs = (Return tt, <[dst := File c]> fs).
Proof.
  intros Hsrc Hdst Hne Hpar. unfold copy2. rewrite Hsrc.
  destruct (node_at fs dst) as [[| c0] |] eqn:Hd; [contradiction | |];
    (rewrite bool_decide_eq_false_2 by congruence);
    apply write_file_spec; (rewrite Hd; discriminate) || exact Hpar.
Qed.

(** The directories above a path, made where they are missing. *)
Lemma ensure_parent_spec (dest : list string) fs :
  (forall q c, q ∈ chain [] (parent dest) -> node_at fs q <> Some (File c)) ->
  exists fs1,
    _ensure_directory_path dest false fs = (Return tt, fs1)
    /\ node_at fs1 (parent dest) = Some Dir
    /\ (forall q, fs1 !! q = fs !! q
                  \/ (fs !! q = None /\ fs1 !! q = Some Dir
                      /\ q ∈ chain [] (parent dest))).
Proof.
  intros Hfiles. unfold _ensure_directory_path, bind, path_exists.
  destruct (bool_decide (is_Some (node_at fs (parent dest)))) eqn:Hb.
  - apply bool_decide_eq_true in Hb. destruct Hb as [n Hn].
    assert (Hdir : node_at fs (parent dest) = Some Dir).
    { destruct n as [| c]; [exact Hn |]. exfalso.
      destruct (parent dest) as [| x l] eqn:E; [discriminate |].
      apply (Hfiles (x :: l) c); [apply chain_self; discriminate | exact Hn]. }
    exists fs. split; [reflexivity |]. split; [exact Hdir | auto].
  - destruct (mkdir_parents_spec (parent dest) fs Hfiles) as (fs1 & Hrun & Hdirs & _).
    exists fs1. split; [exact Hrun |]. split.
    + destruct (parent dest) as [| x l] eqn:E; [reflexivity |].
      apply Hdirs, chain_self. discriminate.
    + intros q. apply (mkdir_from_adds _ _ _ _ _ Hrun).
Qed.

Lemma not_in_parent_chain (L : list string) (x : string) (q : list string) :
  q ∈ chain [] L -> q <> L ++ [x].
Proof.
  intros Hq ->. apply chain_length in Hq. rewrite length_app in Hq. simpl in Hq. lia.
Qed.

(** [_merge_entity] under [OVERWRITE], for a payload writer that puts a
    content at the destination once the directory is there. *)
Lemma overwrite_with_op self (e : BidsEntity) (op : list string -> M unit)
    (c : content) (mp : list string) fs :
  let dest := joinpath (_bids_root self) (relative_entity_path (_config self) e) in
  let sp := joinpath (_bids_root self) mp in
  _entity_merge_strategy self = OVERWRITE ->
  (forall q c', q ∈ chain [] (parent dest) -> node_at fs q <> Some (File c')) ->
  node_at fs dest <> Some Dir ->
  (truthy (metadata e) = true ->
   relative_entity_metadata_path (_config self) e = Return mp
   /\ sp <> dest
   /\ (node_at fs sp = None \/ exists d, node_at fs sp = Some (File (Json d)))) ->
  (forall fs1,
      node_at fs1 (parent dest) = Some Dir ->
      node_at fs1 dest <> Some Dir ->
      (forall q, fs1 !! q = fs !! q
                 \/ (fs !! q = None /\ fs1 !! q = Some Dir
                     /\ q ∈ chain [] (parent dest))) ->
      op dest fs1 = (Return tt, <[dest := File c]> fs1)) ->
  exists fs',
    _merge_entity self e op fs = (Return tt, fs')
    /\ node_at fs' dest = Some (File c)
    /\ (truthy (metadata e) = true ->
        node_at fs' sp
        = Some (File (Json (default ∅ (metadata e) ∪ json_at fs sp))))
    /\ (forall q, q <> dest -> (truthy (metadata e) = true -> q <> sp) ->
          fs' !! q = fs !! q
          \/ (fs !! q = None /\ fs' !! q = Some Dir
              /\ q ∈ chain [] (parent dest))).
Proof.
  intros dest sp Hs Hfiles Hdest Hmeta Hop.
  assert (Ha : is_anchor dest = false) by (apply (not_dir_not_anchor fs), Hdest).
  destruct (ensure_parent_spec dest fs Hfiles) as (fs1 & Hens & Hpar1 & Hadd1).
  assert (Hsame1 : forall q, q ∉ chain [] (parent dest) -> fs1 !! q = fs !! q).
  { intros q Hq. destruct (Hadd1 q) as [H | (_ & _ & H)]; [exact H | contradiction]. }
  assert (Hd1 : node_at fs1 dest = node_at fs dest).
  { apply node_at_same, Hsame1. intros Hin.
    destruct dest as [| x L _] using rev_ind; [discriminate |].
    rewrite parent_snoc in Hin by exact Ha.
    exact (not_in_parent_chain _ _ _ Hin eq_refl). }
  rewrite merge_entity_overwrite by exact Hs. fold dest. unfold bind.
  rewrite Hens, (Hop fs1 Hpar1); [| rewrite Hd1; exact Hdest | exact Hadd1].
  destruct (truthy (metadata e)) eqn:Ht.
  - destruct (Hmeta eq_refl) as (Hmp & Hne & Hold).
    rewrite Hmp. unfold lift. fold sp.
    assert (Hsuf : with_suffix (relative_entity_path (_config self) e) ".json"
                   = Some mp).
    { unfold relative_entity_metadata_path in Hmp.
      destruct (with_suffix _ _); [injection Hmp as ->; reflexivity | discriminate]. }
    destruct (sidecar_sibling (_bids_root self) _ _ Hsuf)
      as (L & n & y & HdL & HsL & Hn & Hy).
    fold dest in HdL. fold sp in HsL.
    assert (HparL : parent dest = L).
    { rewrite HdL. apply parent_snoc, snoc_not_anchor, Hn. }
    assert (Hasp : is_anchor sp = false).
    { rewrite HsL. apply snoc_not_anchor, Hy. }
    assert (Hsp1 : fs1 !! sp = fs !! sp).
    { apply Hsame1. rewrite HparL, HsL. intros Hin.
      exact (not_in_parent_chain _ _ _ Hin eq_refl). }
    assert (Hsp2 : node_at (<[dest := File c]> fs1) sp = node_at fs sp).
    { rewrite node_at_insert_ne by congruence. apply node_at_same, Hsp1. }
    rewrite merge_json_spec.
    + eexists. split; [reflexivity |]. split; [| split].
      * rewrite node_at_insert_ne by exact Hne. apply node_at_insert_eq, Ha.
      * intros _. rewrite node_at_insert_eq by exact Hasp.
        unfold json_at. rewrite Hsp2. reflexivity.
      * intros q Hq1 Hq2. specialize (Hq2 eq_refl).
        rewrite !lookup_insert_ne by congruence. apply Hadd1.
    + assert (Hps : parent sp = L).
      { rewrite HsL. apply parent_snoc. rewrite <- HsL. exact Hasp. }
      rewrite Hps, <- HparL.
      rewrite node_at_insert_ne by (apply not_eq_sym, parent_ne, Ha). exact Hpar1.
    + rewrite Hsp2. exact Hold.
  - eexists. split; [reflexivity |]. split; [apply node_at_insert_eq, Ha |].
    split; [discriminate |].
    intros q Hq1 _. rewrite lookup_insert_ne by congruence. apply Hadd1.
Qed.

(** X13: under [OVERWRITE], an entity whose payload is there (the file it
    names, else its table) is written wherever no regular file stands in
    the way of its directory and its destination is no directory: the
    write returns, the missing directories are made, the destination
    holds the payload whatever it held before, and, where the entity has
    metadata, the sidecar holds them over what it held; no other entry is
    changed.  An entity with both a file and a table is written as the
    file. *)
Theorem overwrite_entity_succeeds self (e : BidsEntity) (c : content)
    (mp : list string) fs :
  let dest := joinpath (_bids_root self) (relative_entity_path (_config self) e) in
  let sp := joinpath (_bids_root self) mp in
  _entity_merge_strategy self = OVERWRITE ->
  payload_at fs e = Some c ->
  file_path e <> Some dest ->
  (forall q c', q ∈ chain [] (parent dest) -> node_at fs q <> Some (File c')) ->
  node_at fs dest <> Some Dir ->
  (truthy (metadata e) = true ->
   relative_entity_metadata_path (_config self) e = Return mp
   /\ sp <> dest
   /\ (node_at fs sp = None \/ exists d, node_at fs sp = Some (File (Json d)))) ->
  exists fs',
    write_entity self e fs = (Return tt, fs')
    /\ node_at fs' dest = Some (File c)
    /\ (truthy (metadata e) = true ->
        node_at fs' sp
        = Some (File (Json (default ∅ (metadata e) ∪ json_at fs sp))))
    /\ (forall q, q <> dest -> (truthy (metadata e) = true -> q <> sp) ->
          fs' !! q = fs !! q
          \/ (fs !! q = None /\ fs' !! q = Some Dir
              /\ q ∈ chain [] (parent dest))).
Proof.
  intros dest sp Hs Hpay Hsrc Hfiles Hdest Hmeta.
  unfold write_entity. unfold payload_at in Hpay.
  destruct (file_path e) as [fp |] eqn:Hfp.
  - destruct (node_at fs fp) as [[| c0] |] eqn:Hn; try discriminate.
    injection Hpay as ->.
    apply (overwrite_with_op self e _ c mp fs); try assumption.
    intros fs1 Hpar1 Hd1 Hadd1. apply copy2_spec; try assumption;
      [| intros E; apply Hsrc; rewrite E; reflexivity].
    assert (Hafp : is_anchor fp = false).
    { apply (not_dir_not_anchor fs). rewrite Hn. discriminate. }
    rewrite node_at_not_anchor in Hn |- * by exact Hafp.
    destruct (Hadd1 fp) as [H | (H & _ & _)]; congruence.
  - destruct (tabular_data e) as [tb |]; [| discriminate].
    injection Hpay as <-.
    apply (overwrite_with_op self e _ (Table tb) mp fs); try assumption.
    intros fs1 Hpar1 Hd1 _. apply write_file_spec; assumption.
Qed.

Lemma overwrite_entity_succeeds_witness :
  exists fs',
    write_entity (draw_writer OVERWRITE) file_entity inbox = (Return tt, fs')
    /\ node_at fs' ["root"; "sub-S01"; "beh"; "sub-S01_task-draw_.svg"]
       = Some (File (Blob "<svg/>"))
    /\ node_at fs' ["root"; "sub-S01"; "beh"; "sub-S01_task-draw_.json"]
       = Some (File (Json first_metadata)).
Proof.
  destruct (overwrite_entity_succeeds (draw_writer OVERWRITE) file_entity
              (Blob "<svg/>") ["sub-S01"; "beh"; "sub-S01_task-draw_.json"] inbox)
    as (fs' & Hrun & Hdest & Hside & _).
  - reflexivity.
  - vm_compute. reflexivity.
  - vm_compute. discriminate.
  - intros q c' Hq. vm_compute in Hq.
    repeat (apply elem_of_cons in Hq as [-> | Hq]; [vm_compute; discriminate |]).
    apply elem_of_nil in Hq. contradiction.
  - vm_compute. discriminate.
  - intros _. split; [vm_compute; reflexivity |].
    split; [vm_compute; discriminate |]. left. vm_compute. reflexivity.
  - exists fs'. split; [exact Hrun |]. split; [exact Hdest |].
    etransitivity; [exact (Hside ltac:(vm_compute; reflexivity)) |].
    vm_compute. reflexivity.
Defined.

End OverwriteEntity.

(** ** The errors of a write *)

Section WriteErrors.

Implicit Types (fs : gmap (list string) node) (self : BidsWriter).

Lemma raises_ret {A} (a : A) : raises_writing (ret a).
Proof. intros fs e fs' H. discriminate. Qed.

Lemma raises_raise {A} (x : exception) :
  from_writing x = true -> raises_writing (@raise A x).
Proof. intros Hx fs e fs' H. unfold raise in H. congruence. Qed.

Lemma raises_bind {A B} (m : M A) (k : A -> M B) :
  raises_writing m -> (forall a, raises_writing (k a)) -> raises_writing (bind m k).
Proof.
  intros Hm Hk fs e fs'. unfold bind.
  destruct (m fs) as [[a | x] fs1] eqn:E.
  - apply Hk.
  - intros [= <- <-]. apply (Hm _ _ _ E).
Qed.

Lemma raises_path_exists p : raises_writing (path_exists p).
Proof. intros fs e fs' H. discriminate. Qed.

Lemma raises_mkdir_from rest : forall base, raises_writing (mkdir_from base rest).
Proof.
  induction rest as [| c rest IH]; intros base fs e fs' H; simpl in H.
  - discriminate.
  - destruct (node_at fs (base ++ [c])) as [[| c0] |].
    + apply (IH _ _ _ _ H).
    + destruct rest; injection H as <- <-; reflexivity.
    + apply (IH _ _ _ _ H).
Qed.

Lemma raises_iterdir p : raises_writing (iterdir p).
Proof.
  intros fs e fs'. unfold iterdir.
  destruct (node_at fs p) as [[| c] |]; intros [= <- <-]; reflexivity.
Qed.

Lemma raises_write_file p c : raises_writing (write_file p c).
Proof.
  intros fs e fs'. unfold write_file.
  destruct (node_at fs p) as [[| c0] |];
    [intros [= <- <-]; reflexivity | |];
    (destruct (node_at fs (parent p)) as [[| c1] |]; intros [= <- <-]; reflexivity).
Qed.

Lemma raises_json_load p : raises_writing (json_load p).
Proof.
  intros fs e fs'. unfold json_load.
  destruct (node_at fs p) as [[| [d | t | b]] |]; intros [= <- <-]; reflexivity.
Qed.

Lemma raises_read_csv p : raises_writing (read_csv p).
Proof.
  intros fs e fs'. unfold read_csv.
  destruct (node_at fs p) as [[| [d | t | b]] |]; intros [= <- <-]; reflexivity.
Qed.

Lemma raises_copy2 src dst : raises_writing (copy2 src dst).
Proof.
  intros fs e fs'. unfold copy2.
  destruct (node_at fs src) as [[| c] |]; [intros [= <- <-]; reflexivity | |
                                           intros [= <- <-]; reflexivity].
  destruct (bool_decide _); [intros [= <- <-]; reflexivity |].
  apply raises_write_file.
Qed.

Lemma raises_merge_json p data : raises_writing (_merge_json p data).
Proof.
  unfold _merge_json. apply raises_bind; [apply raises_path_exists |].
  intros present. apply raises_bind.
  - destruct present; [| apply raises_ret].
    apply raises_bind; [apply raises_json_load | intros; apply raises_ret].
  - intros d. apply raises_write_file.
Qed.

Lemma raises_merge_tsv p data : raises_writing (_merge_tsv p data).
Proof.
  unfold _merge_tsv. apply raises_bind; [apply raises_path_exists |].
  intros present. apply raises_bind.
  - destruct present; [| apply raises_ret].
    apply raises_bind; [apply raises_read_csv | intros; apply raises_ret].
  - intros d. apply raises_write_file.
Qed.

Lemma raises_ensure_directory p is_dir : raises_writing (_ensure_directory_path p is_dir).
Proof.
  unfold _ensure_directory_path.
  destruct is_dir; (apply raises_bind; [apply raises_path_exists |]);
    intros present; destruct present;
    apply raises_ret || apply raises_mkdir_from.
Qed.

Lemma raises_merge_entity self e op :
  (forall p, raises_writing (op p)) -> raises_writing (_merge_entity self e op).
Proof.
  intros Hop. unfold _merge_entity.
  apply raises_bind; [apply raises_path_exists |]. intros present.
  destruct (strategy_eqb _ NO_MERGE && present); [apply raises_raise; reflexivity |].
  destruct (strategy_eqb _ OVERWRITE).
  { apply raises_bind; [apply raises_ensure_directory |]. intros _.
    apply raises_bind; [apply Hop |]. intros _.
    destruct (truthy _); [| apply raises_ret].
    apply raises_bind; [| intros; apply raises_merge_json].
    intros fs x fs'. unfold lift, relative_entity_metadata_path.
    destruct (with_suffix _ _); intros [= <- <-]; reflexivity. }
  destruct (strategy_eqb _ KEEP); [apply raises_ret |].
  destruct (strategy_eqb _ RENAME_ENTITIES); [apply raises_raise; reflexivity |].
  destruct (strategy_eqb _ NEW_SESSION); apply raises_raise; reflexivity.
Qed.

Lemma raises_write_entity self e : raises_writing (write_entity self e).
Proof.
  unfold write_entity. destruct (file_path e) as [fp |].
  - apply raises_merge_entity. intros p. apply raises_copy2.
  - destruct (tabular_data e) as [tb |].
    + apply raises_merge_entity. intros p. apply raises_write_file.
    + apply raises_raise. reflexivity.
Qed.

Lemma raises_for_each {A} (body : A -> M unit) (xs : list A) :
  (forall x, raises_writing (body x)) -> raises_writing (for_each body xs).
Proof.
  intros Hb. induction xs as [| x xs IH]; simpl.
  - apply raises_ret.
  - apply raises_bind; [apply Hb | intros _; exact IH].
Qed.

Lemma raises_confirm_root self : raises_writing (confirm_root self).
Proof.
  unfold confirm_root. apply raises_bind; [apply raises_mkdir_from |]. intros _.
  apply raises_bind; [apply raises_iterdir |]. intros found.
  destruct (0 <? length found)%nat; [| apply raises_ret].
  destruct (strategy_eqb _ UNKNOWN_MERGE); [apply raises_raise; reflexivity |].
  destruct (strategy_eqb _ NO_MERGE); [apply raises_raise; reflexivity |].
  apply raises_ret.
Qed.

Lemma raises_write_description self bids h :
  raises_writing (write_dataset_description self bids h).
Proof.
  unfold write_dataset_description. apply raises_bind; [apply raises_path_exists |].
  intros present. destruct (negb present || _);
    [apply raises_merge_json | apply raises_ret].
Qed.

Lemma raises_write_participants self bids h fs e bids' fs' :
  write_participants self bids h fs = (Raise e, bids', fs') -> from_writing e = true.
Proof.
  unfold write_participants, path_exists.
  destruct (negb _ || _); [| discriminate].
  destruct (subject_ids bids h) as [ids bids1].
  destruct (_merge_tsv _ _ fs) as [r fs1] eqn:E.
  intros [= -> <- <-]. apply (raises_merge_tsv _ _ _ _ _ E).
Qed.

Lemma raises_write_files self bids h fs e self' fs' :
  write_files self bids h fs = (Raise e, self', fs') -> from_writing e = true.
Proof.
  unfold write_files.
  destruct (write_dataset_description self bids h fs) as [[[] | x] fs1] eqn:E1.
  - destruct (write_participants self bids h fs1) as [[[[] | x] bids1] fs2] eqn:E2.
    + destruct (for_each _ _ fs2) as [[[] | x] fs3] eqn:E3; [discriminate |].
      intros [= <- <- <-].
      apply (raises_for_each _ _ (raises_write_entity _) _ _ _ E3).
    + intros [= <- <- <-]. apply (raises_write_participants _ _ _ _ _ _ _ E2).
  - intros [= <- <- <-]. apply (raises_write_description _ _ _ _ _ _ E1).
Qed.

(** X14: a writer that has neither a model nor a builder fails with
    [NoModel] before touching anything, and that is the only way [write]
    raises [NoModel]; the second test, for [NoModelOrBuilder], never
    fires: a writer with a builder gets its model from it.  Every other
    exception of [write] comes from a later stage. *)
Theorem write_errors self (h : heap) fs :
  (_bids self = None -> _builder self = None ->
   write self h fs = (Raise NoModel, self, fs))
  /\ (forall e, (write self h fs).1.1 = Raise e ->
        e <> NoModelOrBuilder
        /\ (e = NoModel <-> _bids self = None /\ _builder self = None)
        /\ (e <> NoModel -> from_writing e = true))
  /\ (forall b, _bids self = None -> _builder self = Some b ->
        _bids (write self h fs).1.2 <> None
        /\ option_map entities (_bids (write self h fs).1.2) = Some (_entities b)).
Proof.
  assert (Hlater : forall w bids e,
            _bids w = Some bids ->
            (match confirm_root w fs with
             | (Raise x, fs1) => (Raise x, w, fs1)
             | (Return _, fs1) => write_files w bids h fs1
             end).1.1 = Raise e ->
            from_writing e = true).
  { intros w bids e Hb.
    destruct (confirm_root w fs) as [[[] | x] fs1] eqn:E1.
    - destruct (write_files w bids h fs1) as [[r w'] fs2] eqn:E2. cbn [fst].
      intros ->. apply (raises_write_files _ _ _ _ _ _ _ E2).
    - cbn [fst]. intros [= <-]. apply (raises_confirm_root _ _ _ _ E1). }
  assert (Hkeep : forall w bids,
            _bids (match confirm_root w fs with
                   | (Raise x, fs1) => (Raise x, w, fs1)
                   | (Return _, fs1) => write_files w bids h fs1
                   end).1.2
            = match confirm_root w fs with
              | (Raise x, fs1) => _bids w
              | (Return _, fs1) => _bids (write_files w bids h fs1).1.2
              end).
  { intros w bids. destruct (confirm_root w fs) as [[[] | x] fs1]; reflexivity. }
  split; [| split].
  - intros Hb Hu. unfold write. rewrite Hb, Hu. reflexivity.
  - intros e He. unfold write in He.
    destruct (_bids self) as [m |] eqn:Hb; [| destruct (_builder self) as [b |] eqn:Hu].
    + rewrite (with_model_idem self m Hb), Hb in He.
      pose proof (Hlater self m e Hb He) as Hw.
      split; [intros ->; discriminate |]. split; [| auto].
      split; [intros ->; discriminate | intros [? _]; discriminate].
    + assert (Hm : _bids (with_model self) = Some (build b)).
      { unfold with_model. rewrite Hb, Hu. reflexivity. }
      rewrite Hm in He.
      pose proof (Hlater (with_model self) (build b) e Hm He) as Hw.
      split; [intros ->; discriminate |]. split; [| auto].
      split; [intros ->; discriminate | intros [_ ?]; discriminate].
    + cbn [fst] in He. injection He as <-.
      split; [discriminate |]. split; [tauto | intros H; contradiction].
  - intros b Hb Hu.
    assert (Hm : with_model self = set_bids self (build b)).
    { unfold with_model. rewrite Hb, Hu. reflexivity. }
    unfold write. rewrite Hb, Hu, Hm. cbn [_bids set_bids].
    destruct (confirm_root (set_bids self (build b)) fs) as [[[] | x] fs1];
      [| split; [discriminate | reflexivity]].
    unfold write_files.
    destruct (write_dataset_description _ _ h fs1) as [[[] | x] fs2];
      [| split; [discriminate | reflexivity]].
    destruct (write_participants _ (build b) h fs2) as [[r bids1] fs3] eqn:E.
    apply write_participants_entities in E.
    destruct r as [[] | x].
    + destruct (for_each _ _ fs3) as [[[] | x] fs4]; cbn [fst snd _bids set_bids];
        (split; [discriminate | cbn; rewrite E; reflexivity]).
    + cbn [fst snd _bids set_bids]. split; [discriminate | cbn; rewrite E; reflexivity].
Qed.

Lemma write_errors_witness :
  write (BidsWriter_new ["root"] OVERWRITE None None) heap_at_import ∅
  = (Raise NoModel, BidsWriter_new ["root"] OVERWRITE None None, ∅)
  /\ option_map entities
       (_bids (write (builder_writer OVERWRITE) heap_at_import ∅).1.2)
     = Some default_entities.
Proof.
  split.
  - destruct (write_errors (BidsWriter_new ["root"] OVERWRITE None None)
                heap_at_import ∅) as (H & _ & _).
    apply H; reflexivity.
  - destruct (write_errors (builder_writer OVERWRITE) heap_at_import ∅)
      as (_ & _ & H).
    destruct (H (__init__ None None) eq_refl eq_refl) as [_ H2]. exact H2.
Defined.

End WriteErrors.

(** ** The files a write keeps at the root *)

Section RootStage.

Implicit Types (fs : gmap (list string) node) (self : BidsWriter).

Lemma json_at_same fs fs' p : node_at fs' p = node_at fs p -> json_at fs' p = json_at fs p.
Proof. intros H. unfold json_at. rewrite H. reflexivity. Qed.

Lemma table_at_same fs fs' p :
  node_at fs' p = node_at fs p -> table_at fs' p = table_at fs p.
Proof. intros H. unfold table_at. rewrite H. reflexivity. Qed.

Lemma root_files_differ (root : list string) :
  description_path root <> participants_path root.
Proof.
  rewrite description_path_eq, participants_path_eq. intros E.
  apply app_inv_head in E. discriminate.
Qed.

Lemma root_file_not_root (root : list string) (x : string) : root ++ [x] <> root.
Proof.
  intros E. apply (f_equal length) in E. rewrite length_app in E. simpl in E. lia.
Qed.

(** What [write] does after the root check, over a root directory whose
    two files are missing or can be merged into. *)
Lemma write_files_spec self bids (h : heap) fs1 :
  let root := _bids_root self in
  node_at fs1 root = Some Dir ->
  (node_at fs1 (description_path root) = None
   \/ (merge_dataset_description (_config self) = true
       /\ exists d, node_at fs1 (description_path root) = Some (File (Json d)))) ->
  (node_at fs1 (participants_path root) = None
   \/ (merge_participants_tsv (_config self) = true
       /\ exists t, node_at fs1 (participants_path root) = Some (File (Table t)))) ->
  write_files self bids h fs1
  = finish (set_bids self (subject_ids bids h).2)
      (for_each (write_entity (set_bids self (subject_ids bids h).2))
         (get_entities h (entities bids))
         (<[participants_path root :=
              File (Table (match table_at fs1 (participants_path root) with
                           | Some t => concat t (participants_frame (subject_ids bids h).1)
                           | None => participants_frame (subject_ids bids h).1
                           end))]>
            (<[description_path root :=
                 File (Json (get_description h (dataset_description bids)
                             ∪ json_at fs1 (description_path root)))]> fs1))).
Proof.
  intros root Hroot Hdesc Hpart.
  assert (Hda : is_anchor (description_path root) = false).
  { rewrite description_path_eq. apply snoc_not_anchor. discriminate. }
  assert (Hpa : is_anchor (participants_path root) = false).
  { rewrite participants_path_eq. apply snoc_not_anchor. discriminate. }
  assert (Hdp : parent (description_path root) = root).
  { rewrite description_path_eq. apply parent_snoc.
    rewrite <- description_path_eq. exact Hda. }
  assert (Hpp : parent (participants_path root) = root).
  { rewrite participants_path_eq. apply parent_snoc.
    rewrite <- participants_path_eq. exact Hpa. }
  unfold write_files.
  (* dataset_description.json *)
  assert (H1 : write_dataset_description self bids h fs1
               = (Return tt,
                  <[description_path root :=
                      File (Json (get_description h (dataset_description bids)
                                  ∪ json_at fs1 (description_path root)))]> fs1)).
  { unfold write_dataset_description. fold root. fold (description_path root).
    unfold bind at 1, path_exists.
    replace (negb (bool_decide (is_Some (node_at fs1 (description_path root))))
             || merge_dataset_description (_config self)) with true.
    - apply merge_json_spec; [rewrite Hdp; exact Hroot |].
      destruct Hdesc as [H | [_ H]]; auto.
    - symmetry. destruct Hdesc as [H | [H _]].
      + rewrite H. rewrite bool_decide_eq_false_2 by (intros [? ?]; discriminate).
        reflexivity.
      + rewrite H. apply orb_true_r. }
  rewrite H1.
  set (fs2 := <[description_path root := _]> fs1).
  assert (Hroot2 : node_at fs2 root = Some Dir).
  { unfold fs2. rewrite node_at_insert_ne; [exact Hroot |].
    rewrite description_path_eq. apply root_file_not_root. }
  assert (Hpart2 : node_at fs2 (participants_path root)
                   = node_at fs1 (participants_path root)).
  { unfold fs2. apply node_at_insert_ne, root_files_differ. }
  (* participants.tsv *)
  assert (H2 : write_participants self bids h fs2
               = (Return tt, (subject_ids bids h).2,
                  <[participants_path root :=
                      File (Table (match table_at fs1 (participants_path root) with
                                   | Some t =>
                                       concat t (participants_frame (subject_ids bids h).1)
                                   | None => participants_frame (subject_ids bids h).1
                                   end))]> fs2)).
  { unfold write_participants. fold root. fold (participants_path root).
    unfold path_exists.
    replace (negb (bool_decide (is_Some (node_at fs2 (participants_path root))))
             || merge_participants_tsv (_config self)) with true.
    - destruct (subject_ids bids h) as [ids bids'] eqn:Hids. cbn [fst snd].
      fold (participants_frame ids).
      rewrite merge_tsv_spec.
      + rewrite (table_at_same fs1 fs2 _ Hpart2). reflexivity.
      + rewrite Hpp. exact Hroot2.
      + rewrite Hpart2. destruct Hpart as [H | [_ H]]; auto.
    - symmetry. rewrite Hpart2. destruct Hpart as [H | [H _]].
      + rewrite H. rewrite bool_decide_eq_false_2 by (intros [? ?]; discriminate).
        reflexivity.
      + rewrite H. apply orb_true_r. }
  rewrite H2. unfold finish.
  assert (He : entities (subject_ids bids h).2 = entities bids).
  { unfold subject_ids. destruct (subject_ids_cache bids); reflexivity. }
  rewrite He.
  destruct (for_each _ _ _) as [[[] | x] fs4]; reflexivity.
Qed.

(** A root that is missing in a tree, once made, is an empty directory,
    and the root check lets every strategy pass. *)
Lemma confirm_root_fresh self fs :
  let root := _bids_root self in
  fs_wf fs ->
  node_at fs root = None ->
  (forall q c, q ∈ chain [] root -> node_at fs q <> Some (File c)) ->
  exists fs1,
    confirm_root self fs = (Return tt, fs1)
    /\ node_at fs1 root = Some Dir
    /\ (forall x, node_at fs1 (root ++ [x]) = None)
    /\ (forall q, fs1 !! q = fs !! q
                  \/ (fs !! q = None /\ fs1 !! q = Some Dir /\ q ∈ chain [] root)).
Proof.
  intros root Hwf Hroot Hfiles.
  destruct (prepare_root root fs Hfiles) as (fs1 & Hmk & Hroot1 & _ & Hunder).
  assert (Hnone : forall x, node_at fs1 (root ++ [x]) = None).
  { intros x. rewrite Hunder.
    destruct (node_at fs (root ++ [x])) as [n |] eqn:E; [| reflexivity].
    destruct (is_anchor (root ++ [x])) eqn:Ha.
    - apply is_anchor_snoc in Ha as [Hr _]. fold root in Hroot. rewrite Hr in Hroot.
      discriminate.
    - rewrite node_at_not_anchor in E by exact Ha. apply Hwf in E.
      rewrite parent_snoc in E by exact Ha. congruence. }
  assert (Hempty : children fs1 root = []).
  { apply elem_of_nil_inv. intros q Hq.
    apply children_spec in Hq as ([n Hn] & Hparent & Hq).
    destruct (parent_inv _ _ Hparent Hq) as [x ->].
    specialize (Hnone x). apply node_at_None in Hnone as [_ Hnone]. congruence. }
  exists fs1. split; [| split; [exact Hroot1 | split; [exact Hnone |]]].
  - unfold confirm_root, bind. fold root.
    rewrite Hmk, (iterdir_children _ _ Hroot1), Hempty. reflexivity.
  - intros q. apply (mkdir_from_adds _ _ _ _ _ Hmk).
Qed.

(** X15: a model without entities is written under every strategy, into a
    root that is missing: the write returns [True] and leaves the root, a
    [dataset_description.json] that holds the description of the model
    and a [participants.tsv] that holds the column label and no row;
    nothing else is changed but the directories made on the way. *)
Theorem write_empty_model self (bids : BidsModel) (h : heap) fs :
  let root := _bids_root self in
  _bids (with_model self) = Some bids ->
  get_entities h (entities bids) = [] ->
  subject_ids_cache bids = None ->
  fs_wf fs ->
  node_at fs root = None ->
  (forall q c, q ∈ chain [] root -> node_at fs q <> Some (File c)) ->
  (write self h fs).1.1 = Return true
  /\ node_at (write self h fs).2 root = Some Dir
  /\ node_at (write self h fs).2 (description_path root)
     = Some (File (Json (get_description h (dataset_description bids))))
  /\ node_at (write self h fs).2 (participants_path root)
     = Some (File (Table {| columns := ["participant"]; rows := [] |}))
  /\ (forall q, q <> description_path root -> q <> participants_path root ->
        (write self h fs).2 !! q = fs !! q
        \/ (fs !! q = None /\ (write self h fs).2 !! q = Some Dir
            /\ q ∈ chain [] root)).
Proof.
  intros root Hm Hes Hcache Hwf Hroot Hfiles.
  destruct (confirm_root_fresh (with_model self) fs) as (fs1 & Hc & Hroot1 & Hnone & Hadd);
    try (rewrite with_model_root); try assumption.
  rewrite with_model_root in Hroot1, Hnone, Hadd. fold root in Hroot1, Hnone, Hadd.
  assert (Hd1 : node_at fs1 (description_path root) = None).
  { rewrite description_path_eq. apply Hnone. }
  assert (Hp1 : node_at fs1 (participants_path root) = None).
  { rewrite participants_path_eq. apply Hnone. }
  rewrite (write_unfold _ _ _ _ Hm), Hc.
  rewrite write_files_spec;
    rewrite ?with_model_root; fold root; [| exact Hroot1 | left; exact Hd1 | left; exact Hp1].
  rewrite Hes. unfold table_at, json_at. rewrite Hd1, Hp1.
  rewrite (right_id_L ∅ (∪)).
  assert (Hids : (subject_ids bids h).1 = []).
  { unfold subject_ids. rewrite Hcache, Hes. reflexivity. }
  rewrite Hids. cbn [for_each ret finish fst snd participants_frame map].
  assert (Hda : is_anchor (description_path root) = false).
  { rewrite description_path_eq. apply snoc_not_anchor. discriminate. }
  assert (Hpa : is_anchor (participants_path root) = false).
  { rewrite participants_path_eq. apply snoc_not_anchor. discriminate. }
  split; [reflexivity |]. split; [| split; [| split]].
  - rewrite !node_at_insert_ne; [exact Hroot1 | |].
    + rewrite description_path_eq. apply root_file_not_root.
    + rewrite participants_path_eq. apply root_file_not_root.
  - rewrite node_at_insert_ne by (apply not_eq_sym, root_files_differ).
    apply node_at_insert_eq, Hda.
  - apply node_at_insert_eq, Hpa.
  - intros q Hq1 Hq2. rewrite !lookup_insert_ne by congruence. apply Hadd.
Qed.

Lemma write_empty_model_witness :
  (write (builder_writer UNKNOWN_MERGE) heap_at_import ∅).1.1 = Return true
  /\ node_at (write (builder_writer UNKNOWN_MERGE) heap_at_import ∅).2
       ["root"; "participants.tsv"]
     = Some (File (Table {| columns := ["participant"]; rows := [] |})).
Proof.
  destruct (write_empty_model (builder_writer UNKNOWN_MERGE)
              (build (__init__ None None)) heap_at_import ∅)
    as (H1 & _ & _ & H4 & _).
  - reflexivity.
  - reflexivity.
  - reflexivity.
  - exact fs_wf_empty.
  - reflexivity.
  - intros q c Hq. apply list_elem_of_singleton in Hq. subst. discriminate.
  - split; [exact H1 | exact H4].
Defined.

Lemma for_each_keep_outcome self (es : list BidsEntity) fs :
  _entity_merge_strategy self = KEEP ->
  for_each (write_entity self) es fs
  = (if forallb has_payload_b es then Return tt else Raise UnknownEntityType, fs).
Proof.
  intros Hs. induction es as [| e es IH]; [reflexivity |].
  simpl. unfold bind, write_entity, has_payload_b, is_file_resource, is_tabular_data.
  destruct (file_path e) as [fp |].
  - rewrite merge_entity_keep by exact Hs. exact IH.
  - destruct (tabular_data e) as [tb |].
    + rewrite merge_entity_keep by exact Hs. exact IH.
    + reflexivity.
Qed.

(** X16: under [KEEP], a write into a root that can be merged into never
    writes an entity, but it does merge the two files of the root: it
    returns [True] when every entity carries a payload and fails with
    [UnknownEntityType] otherwise, and in both cases the description of
    the model is laid over [dataset_description.json], and
    [participants.tsv] gets one more row for each subject, also for those
    it lists already; nothing else changes but the directories made for
    the root. *)
Theorem keep_write_merges_root_files self (bids : BidsModel) (h : heap) fs :
  let root := _bids_root self in
  _entity_merge_strategy self = KEEP ->
  _bids (with_model self) = Some bids ->
  mergeable_root fs root ->
  merge_dataset_description (_config self) = true ->
  merge_participants_tsv (_config self) = true ->
  (write self h fs).1.1
  = (if forallb has_payload_b (get_entities h (entities bids))
     then Return true else Raise UnknownEntityType)
  /\ node_at (write self h fs).2 (description_path root)
     = Some (File (Json (get_description h (dataset_description bids)
                         ∪ json_at fs (description_path root))))
  /\ (exists t,
        table_at (write self h fs).2 (participants_path root) = Some t
        /\ length (rows t)
           = match table_at fs (participants_path root) with
             | Some t0 => length (rows t0)
             | None => 0
             end + length (subject_ids bids h).1)
  /\ (forall q, q <> description_path root -> q <> participants_path root ->
        (write self h fs).2 !! q = fs !! q
        \/ (fs !! q = None /\ (write self h fs).2 !! q = Some Dir
            /\ q ∈ chain [] root)).
Proof.
  intros root Hs Hm (Hfiles & Hdesc & Hpart) Fd Fp.
  destruct (prepare_root root fs Hfiles) as (fs1 & Hmk & Hroot1 & _ & Hunder).
  assert (Hd1 : node_at fs1 (description_path root)
                = node_at fs (description_path root)).
  { rewrite description_path_eq. apply Hunder. }
  assert (Hp1 : node_at fs1 (participants_path root)
                = node_at fs (participants_path root)).
  { rewrite participants_path_eq. apply Hunder. }
  rewrite (write_unfold _ _ _ _ Hm).
  rewrite (confirm_root_merging (with_model self) fs fs1);
    [| rewrite with_model_strategy, Hs; reflexivity
     | rewrite with_model_root; exact Hmk
     | rewrite with_model_root; exact Hroot1].
  rewrite write_files_spec; rewrite ?with_model_root, ?with_model_config; fold root;
    [| exact Hroot1
     | rewrite Hd1; destruct Hdesc as [H | H]; [left; exact H | right; auto]
     | rewrite Hp1; destruct Hpart as [H | H]; [left; exact H | right; auto]].
  rewrite for_each_keep_outcome
    by (cbn [set_bids _entity_merge_strategy]; rewrite with_model_strategy; exact Hs).
  rewrite (json_at_same fs fs1 _ Hd1), (table_at_same fs fs1 _ Hp1).
  assert (Hda : is_anchor (description_path root) = false).
  { rewrite description_path_eq. apply snoc_not_anchor. discriminate. }
  assert (Hpa : is_anchor (participants_path root) = false).
  { rewrite participants_path_eq. apply snoc_not_anchor. discriminate. }
  assert (Hres : forall (r : outcome unit) w f,
            (finish w (r, f)).1.1
            = match r with Return _ => Return true | Raise x => Raise x end
            /\ (finish w (r, f)).2 = f).
  { intros [[] | x] w f; split; reflexivity. }
  destruct (Hres (if forallb has_payload_b (get_entities h (entities bids))
                  then Return tt else Raise UnknownEntityType)
              (set_bids (with_model self) (subject_ids bids h).2)
              (<[participants_path root :=
                   File (Table (match table_at fs (participants_path root) with
                                | Some t =>
                                    concat t (participants_frame (subject_ids bids h).1)
                                | None => participants_frame (subject_ids bids h).1
                                end))]>
                 (<[description_path root :=
                      File (Json (get_description h (dataset_description bids)
                                  ∪ json_at fs (description_path root)))]> fs1)))
    as [Hr1 Hr2].
  rewrite Hr1, Hr2. clear Hr1 Hr2 Hres.
  split; [destruct (forallb _ _); reflexivity |]. split; [| split].
  - rewrite node_at_insert_ne by (apply not_eq_sym, root_files_differ).
    apply node_at_insert_eq, Hda.
  - eexists. split; [apply table_at_Some, node_at_insert_eq, Hpa |].
    destruct (table_at fs (participants_path root)) as [t0 |].
    + rewrite concat_rows. unfold participants_frame. cbn [rows].
      rewrite length_map. reflexivity.
    + unfold participants_frame. cbn [rows]. rewrite length_map. reflexivity.
  - intros q Hq1 Hq2. rewrite !lookup_insert_ne by congruence.
    apply (mkdir_from_adds _ _ _ _ _ Hmk).
Qed.

Lemma keep_write_merges_root_files_witness :
  (write (draw_writer KEEP) (draw_heap table_2rows None) ∅).1.1 = Return true
  /\ exists t,
       table_at (write (draw_writer KEEP) (draw_heap table_2rows None) ∅).2
         ["root"; "participants.tsv"] = Some t
       /\ length (rows t) = 0 + 1.
Proof.
  destruct (keep_write_merges_root_files (draw_writer KEEP) draw_model
              (draw_heap table_2rows None) ∅)
    as (H1 & _ & H3 & _).
  - reflexivity.
  - reflexivity.
  - exact mergeable_root_empty.
  - reflexivity.
  - reflexivity.
  - split; [exact H1 | exact H3].
Defined.

End RootStage.

(** ** The file of a response *)

Section FindResponse.

Import oak_report.

Variable path_match : list string -> string -> option bool.
Variable read_csv_commas : gmap (list string) node -> list string -> option DataFrame.

Implicit Types (fs : gmap (list string) node) (self : OakReport).



(** X17: [_find_response_artifact_path] hands back a path exactly when the
    three searches together find exactly one file, which is that path; it
    fails with [MultipleResponses] exactly when they find more than one
    and with [NoResponses] exactly when they find none, so that its three
    tests for several files in one directory never fire; and a search that
    raises ends it with that exception, the media directory being
    searched first, the trails directory last. *)
Theorem find_response_exactly_one self (response : string) fs :
  match _search_media path_match self response fs,
        _search_drawings path_match self response fs,
        _search_trails path_match self response fs with
  | inr media, inr drawing, inr trails =>
      (forall p, _find_response_artifact_path path_match self response fs = inr p
                 <-> media ++ drawing ++ trails = [p])
      /\ (_find_response_artifact_path path_match self response fs = inl MultipleResponses
          <-> 1 < length (media ++ drawing ++ trails))
      /\ (_find_response_artifact_path path_match self response fs
          = inl (NoResponses response)
          <-> media ++ drawing ++ trails = [])
      /\ _find_response_artifact_path path_match self response fs
         <> inl MultipleMediaResponses
      /\ _find_response_artifact_path path_match self response fs
         <> inl MultipleDrawingResponses
      /\ _find_response_artifact_path path_match self response fs
         <> inl MultipleTrailsResponses
  | inl e, _, _ => _find_response_artifact_path path_match self response fs = inl e
  | inr _, inl e, _ => _find_response_artifact_path path_match self response fs = inl e
  | inr _, inr _, inl e =>
      _find_response_artifact_path path_match self response fs = inl e
  end.
Proof.
  unfold _find_response_artifact_path.
  destruct (_search_media path_match self response fs) as [e | media];
    [reflexivity |].
  destruct (_search_drawings path_match self response fs) as [e | drawing];
    [reflexivity |].
  destruct (_search_trails path_match self response fs) as [e | trails];
    [reflexivity |].
  destruct media as [| m1 [| m2 media]], drawing as [| d1 [| d2 drawing]],
    trails as [| t1 [| t2 trails]];
    cbn [length app Nat.add Nat.ltb Nat.leb];
    (split; [intros p; split; intros H; try discriminate; try congruence |]);
    (split; [split; intros H; try discriminate; try reflexivity;
             try (cbn [length app] in H; rewrite ?length_app in H; cbn [length] in H; lia);
             try (cbn [length app]; rewrite ?length_app; cbn [length]; lia) |]);
    (split; [split; intros H; try discriminate; try reflexivity |]);
    repeat split; discriminate.
Qed.







End FindResponse.

Lemma find_response_exactly_one_witness :
  oak_report._find_response_artifact_path name_is oak_example "a.svg" oak_files
  = inr ["in"; "drawing"; "a.svg"]
  /\ oak_report._find_response_artifact_path name_is oak_example "b.svg" oak_files
     = inl (oak_report.NoResponses "b.svg")
  /\ oak_report._find_response_artifact_path name_is oak_example "" oak_files
     = inl oak_report.EmptyPattern.
Proof.
  pose proof (find_response_exactly_one name_is oak_example "a.svg" oak_files) as H1.
  pose proof (find_response_exactly_one name_is oak_example "b.svg" oak_files) as H2.
  pose proof (find_response_exactly_one name_is oak_example "" oak_files) as H3.
  split; [| split].
  - assert (E1 : oak_report._search_media name_is oak_example "a.svg" oak_files = inr [])
      by (vm_compute; reflexivity).
    assert (E2 : oak_report._search_drawings name_is oak_example "a.svg" oak_files
                 = inr [["in"; "drawing"; "a.svg"]]) by (vm_compute; reflexivity).
    assert (E3 : oak_report._search_trails name_is oak_example "a.svg" oak_files = inr [])
      by (vm_compute; reflexivity).
    rewrite E1, E2, E3 in H1. destruct H1 as [H1 _]. apply H1. reflexivity.
  - assert (E1 : oak_report._search_media name_is oak_example "b.svg" oak_files = inr [])
      by (vm_compute; reflexivity).
    assert (E2 : oak_report._search_drawings name_is oak_example "b.svg" oak_files
                 = inr []) by (vm_compute; reflexivity).
    assert (E3 : oak_report._search_trails name_is oak_example "b.svg" oak_files = inr [])
      by (vm_compute; reflexivity).
    rewrite E1, E2, E3 in H2. destruct H2 as (_ & _ & H2 & _). apply H2. reflexivity.
  - assert (E1 : oak_report._search_media name_is oak_example "" oak_files = inr [])
      by (vm_compute; reflexivity).
    assert (E2 : oak_report._search_drawings name_is oak_example "" oak_files
                 = inl oak_report.EmptyPattern) by (vm_compute; reflexivity).
    rewrite E1, E2 in H3. exact H3.
Defined.



Example strip_value : oak_report.strip " 3 " = "3".
Proof. reflexivity. Qed.

(** ** CrashPreprocessor *)

Section Crash.

Import report_preprocessors.

Implicit Types (r : Row) (rows : list Row).

Lemma same_subset_key r r' : same_subset r r' = true <-> subset_key r = subset_key r'.
Proof.
  unfold same_subset, subset_key. rewrite bool_decide_eq_true. split.
  - intros [-> ->]. reflexivity.
  - intros [= -> ->]. auto.
Qed.

Lemma no_later_duplicate r rows :
  existsb (same_subset r) rows = false <-> subset_key r ∉ map subset_key rows.
Proof.
  induction rows as [| x rows IH]; simpl.
  - split; [intros _ H; apply elem_of_nil in H; contradiction | reflexivity].
  - rewrite orb_false_iff, IH, not_elem_of_cons. split.
    + intros [H1 H2]. split; [| exact H2]. intros E.
      apply same_subset_key in E. congruence.
    + intros [H1 H2]. split; [| exact H2].
      destruct (same_subset r x) eqn:E; [| reflexivity].
      apply same_subset_key in E. contradiction.
Qed.

Lemma later_duplicate_key r r' rows :
  subset_key r = subset_key r' ->
  existsb (same_subset r) rows = existsb (same_subset r') rows.
Proof.
  intros E. induction rows as [| x rows IH]; [reflexivity |]. simpl. rewrite IH.
  f_equal. unfold same_subset.
  injection E as E1 E2. rewrite E1, E2. reflexivity.
Qed.

Lemma drop_duplicates_sublist rows : drop_duplicates rows `sublist_of` rows.
Proof.
  induction rows as [| r rows IH]; simpl; [constructor |].
  destruct (existsb (same_subset r) rows);
    [apply sublist_cons, IH | apply sublist_skip, IH].
Qed.

Lemma drop_duplicates_keys rows :
  forall k, k ∈ map subset_key (drop_duplicates rows) <-> k ∈ map subset_key rows.
Proof.
  induction rows as [| r rows IH]; intros k; simpl; [reflexivity |].
  destruct (existsb (same_subset r) rows) eqn:E.
  - rewrite IH, elem_of_cons. split; [auto |]. intros [-> | H]; [| exact H].
    destruct (decide (subset_key r ∈ map subset_key rows)) as [H | H]; [exact H |].
    apply no_later_duplicate in H. congruence.
  - simpl. rewrite !elem_of_cons, IH. reflexivity.
Qed.

Lemma drop_duplicates_NoDup rows : NoDup (map subset_key (drop_duplicates rows)).
Proof.
  induction rows as [| r rows IH]; simpl; [constructor |].
  destruct (existsb (same_subset r) rows) eqn:E; [exact IH |].
  simpl. constructor; [| exact IH].
  rewrite drop_duplicates_keys. apply no_later_duplicate, E.
Qed.

Lemma drop_duplicates_idem rows :
  drop_duplicates (drop_duplicates rows) = drop_duplicates rows.
Proof.
  induction rows as [| r rows IH]; simpl; [reflexivity |].
  destruct (existsb (same_subset r) rows) eqn:E; [exact IH |].
  simpl. rewrite IH.
  replace (existsb (same_subset r) (drop_duplicates rows)) with false; [reflexivity |].
  symmetry. apply no_later_duplicate. rewrite drop_duplicates_keys.
  apply no_later_duplicate, E.
Qed.

(** A row that no later row agrees with stays, and what follows it is
    what is kept of the rows after it. *)
Lemma kept_in_place l1 r l2 :
  existsb (same_subset r) l2 = false ->
  exists k1, drop_duplicates (l1 ++ r :: l2) = k1 ++ r :: drop_duplicates l2.
Proof.
  intros Hr. induction l1 as [| x l1 [k1 IH]]; simpl.
  - exists []. rewrite Hr. reflexivity.
  - rewrite IH. destruct (existsb (same_subset x) (l1 ++ r :: l2)).
    + exists k1. reflexivity.
    + exists (x :: k1). reflexivity.
Qed.

(** A row that a later row agrees with goes, and nothing else changes. *)
Lemma dropped_later l1 r l2 :
  existsb (same_subset r) l2 = true ->
  drop_duplicates (l1 ++ r :: l2) = drop_duplicates (l1 ++ l2).
Proof.
  intros Hr. induction l1 as [| x l1 IH]; simpl.
  - rewrite Hr. reflexivity.
  - rewrite IH. rewrite !existsb_app. simpl.
    destruct (same_subset x r) eqn:E; [| reflexivity]. simpl.
    apply same_subset_key in E. rewrite (later_duplicate_key x r l2 E), Hr.
    rewrite !orb_true_r. reflexivity.
Qed.

(** The last of the rows that agree with [r], from [r] on. *)
Lemma last_same r l2 :
  exists la r' lb,
    r :: l2 = la ++ r' :: lb
    /\ subset_key r' = subset_key r
    /\ existsb (same_subset r') lb = false
    /\ (r' = r \/ r' ∈ l2).
Proof.
  induction l2 as [| y l IH] using rev_ind.
  - exists [], r, []. auto.
  - destruct IH as (la & r' & lb & Hsplit & Hkey & Hlast & Hin).
    destruct (same_subset r' y) eqn:E.
    + exists (r :: l), y, []. split; [reflexivity |].
      split; [apply same_subset_key in E; congruence |].
      split; [reflexivity |]. right. apply elem_of_app. right.
      apply list_elem_of_singleton. reflexivity.
    + exists la, r', (lb ++ [y]).
      split; [rewrite app_comm_cons, Hsplit, <- app_assoc; reflexivity |].
      split; [exact Hkey |].
      split; [rewrite existsb_app, Hlast; simpl; rewrite E; reflexivity |].
      destruct Hin as [H | H]; [auto | right; apply elem_of_app; auto].
Qed.

Lemma mono_tail (x : option Z) (xs : list (option Z)) :
  is_monotonic_decreasing (x :: xs) = true -> is_monotonic_decreasing xs = true.
Proof.
  simpl. destruct x as [v |]; [| discriminate].
  destruct xs as [| [y |] xs]; [reflexivity | | discriminate].
  intros H. apply andb_prop in H as [_ H]. exact H.
Qed.

Lemma mono_head (x : option Z) (xs : list (option Z)) :
  is_monotonic_decreasing (x :: xs) = true -> is_Some x.
Proof. simpl. destruct x; [eauto | discriminate]. Qed.

Lemma mono_head_ge (xs : list (option Z)) : forall v,
  is_monotonic_decreasing (Some v :: xs) = true ->
  forall y, y ∈ xs -> exists w, y = Some w /\ (w <= v)%Z.
Proof.
  induction xs as [| [u |] xs IH]; intros v H y Hy.
  - apply elem_of_nil in Hy. contradiction.
  - change (((u <=? v)%Z && is_monotonic_decreasing (Some u :: xs)) = true) in H.
    apply andb_prop in H as [Hle H]. apply Z.leb_le in Hle.
    apply elem_of_cons in Hy as [-> | Hy]; [eauto |].
    destruct (IH u H y Hy) as (w & -> & Hw). exists w. split; [reflexivity | lia].
  - discriminate.
Qed.

Lemma mono_cons (v : Z) (xs : list (option Z)) :
  is_monotonic_decreasing xs = true ->
  (forall y, y ∈ xs -> exists w, y = Some w /\ (w <= v)%Z) ->
  is_monotonic_decreasing (Some v :: xs) = true.
Proof.
  intros Hm Hle. destruct xs as [| y xs]; [reflexivity |].
  destruct (Hle y) as (w & -> & Hw); [apply elem_of_cons; auto |].
  change (((w <=? v)%Z && is_monotonic_decreasing (Some w :: xs)) = true).
  rewrite Hm, andb_true_r. apply Z.leb_le, Hw.
Qed.

Lemma mono_app_r (a b : list (option Z)) :
  is_monotonic_decreasing (a ++ b) = true -> is_monotonic_decreasing b = true.
Proof.
  induction a as [| x a IH]; [auto |]. intros H. apply IH, (mono_tail x), H.
Qed.

Lemma mono_sublist (l k : list (option Z)) :
  l `sublist_of` k ->
  is_monotonic_decreasing k = true -> is_monotonic_decreasing l = true.
Proof.
  induction 1 as [| x l k Hs IH | x l k Hs IH]; intros Hm.
  - reflexivity.
  - destruct (mono_head _ _ Hm) as [v ->].
    apply mono_cons; [apply IH, (mono_tail _ _ Hm) |].
    intros y Hy. apply (mono_head_ge k v Hm).
    apply (elem_of_sublist _ _ _ Hy Hs).
  - apply IH, (mono_tail _ _ Hm).
Qed.

(** X20: [CrashPreprocessor] refuses a report whose start times are not
    in decreasing order or not all there, and otherwise hands back the
    activity table as it is and the report without its duplicates: the
    rows kept are in the order they had, no two of them agree on
    [study_id] and [item_id], and a row is kept exactly when no later row
    agrees with it, so that every row of the report is stood for by a row
    that is not later than it in time, the earliest answer; doing it again
    changes nothing more. *)
Theorem crash_preprocessor_keeps_earliest {A} (report : list Row) (activity : A) :
  match CrashPreprocessor report activity with
  | inl _ => is_monotonic_decreasing (map activity_start_time report) = false
  | inr (report', activity') =>
      is_monotonic_decreasing (map activity_start_time report) = true
      /\ activity' = activity
      /\ report' `sublist_of` report
      /\ NoDup (map subset_key report')
      /\ (forall l1 r l2, report = l1 ++ r :: l2 ->
            (subset_key r ∉ map subset_key l2 ->
             exists k1, report' = k1 ++ r :: drop_duplicates l2)
            /\ (subset_key r ∈ map subset_key l2 ->
                report' = drop_duplicates (l1 ++ l2)))
      /\ (forall r, r ∈ report ->
            exists r', r' ∈ report' /\ subset_key r' = subset_key r /\ not_later r' r)
      /\ CrashPreprocessor report' activity' = inr (report', activity')
  end.
Proof.
  unfold CrashPreprocessor.
  destruct (is_monotonic_decreasing (map activity_start_time report)) eqn:Hm;
    cbn [negb]; [| reflexivity].
  split; [reflexivity |]. split; [reflexivity |].
  split; [apply drop_duplicates_sublist |].
  split; [apply drop_duplicates_NoDup |]. split; [| split].
  - intros l1 r l2 ->. split.
    + intros H. apply kept_in_place, no_later_duplicate, H.
    + intros H. apply dropped_later.
      destruct (existsb (same_subset r) l2) eqn:E; [reflexivity |].
      apply no_later_duplicate in E. contradiction.
  - intros r Hr. apply list_elem_of_split in Hr as (l1 & l2 & ->).
    destruct (last_same r l2) as (la & r' & lb & Hsplit & Hkey & Hlast & Hin).
    exists r'. split; [| split; [exact Hkey |]].
    + destruct (kept_in_place (l1 ++ la) r' lb Hlast) as [k1 Hk].
      rewrite <- app_assoc, <- Hsplit in Hk. rewrite Hk.
      apply elem_of_app. right. apply elem_of_cons. auto.
    + rewrite map_app in Hm. apply mono_app_r in Hm. cbn [map] in Hm.
      destruct (mono_head _ _ Hm) as [v Hv]. rewrite Hv in Hm.
      destruct Hin as [-> | Hin].
      * exists v, v. split; [exact Hv |]. split; [exact Hv | lia].
      * destruct (mono_head_ge _ v Hm (activity_start_time r')) as (w & Hw & Hle).
        { apply list_elem_of_fmap. exists r'. auto. }
        exists w, v. auto.
  - rewrite drop_duplicates_idem.
    assert (Hm2 : is_monotonic_decreasing
                    (map activity_start_time (drop_duplicates report)) = true).
    { exact (mono_sublist _ _
               (fmap_sublist activity_start_time _ _ (drop_duplicates_sublist report))
               Hm). }
    rewrite Hm2.
    reflexivity.
Qed.

Lemma crash_preprocessor_keeps_earliest_witness :
  CrashPreprocessor crash_report tt
  = inr ([answer "i2" 30 "other"; answer "i1" 10 "first"], tt).
Proof.
  pose proof (crash_preprocessor_keeps_earliest crash_report tt) as H.
  destruct (CrashPreprocessor crash_report tt) as [e | [report' activity']] eqn:E.
  - vm_compute in H. discriminate.
  - vm_compute in E. injection E as <- <-. reflexivity.
Defined.

End Crash.

(** ** The study id of every row *)

Section StudyId.

Import report_preprocessors.

Implicit Types (rows : list Row) (s t : list (option string)).

Local Abbreviation other_item := (fun r : Row => is_item "study_id" r = false).
Local Abbreviation stop :=
  (fun (r : Row) (v : option string) =>
     if is_item "cursive_q" r then Some "STOP" else v).
Local Abbreviation stopped :=
  (fun r : Row =>
     if is_item "cursive_q" r then Some "STOP"
     else if is_item "study_id" r then response r else None).
Local Abbreviation unstop :=
  (fun v : option string => if bool_decide (v = Some "STOP") then None else v).

Lemma lookup_map {A B} (f : A -> B) (l : list A) (i : nat) :
  map f l !! i = f <$> l !! i.
Proof. exact (list_lookup_fmap f l i). Qed.

Lemma elem_of_map {A B} (f : A -> B) (l : list A) (y : B) :
  y ∈ map f l -> exists x, y = f x /\ x ∈ l.
Proof. intros H. exact (proj1 (list_elem_of_fmap f l y) H). Qed.

Lemma zip_with_map_r {A B C} (f : A -> B -> C) (g : A -> B) (l : list A) :
  zip_with f l (map g l) = map (fun x => f x (g x)) l.
Proof. induction l as [| x l IH]; [reflexivity |]. simpl. rewrite IH. reflexivity. Qed.

(** *** Columns *)

Lemma length_shift s : length (shift s) = length s.
Proof. unfold shift. rewrite length_take. simpl. lia. Qed.

Lemma lookup_shift_0 s : 0 < length s -> shift s !! 0 = Some None.
Proof. intros H. unfold shift. rewrite lookup_take_lt by exact H. reflexivity. Qed.

Lemma lookup_shift_S s i : S i < length s -> shift s !! S i = s !! i.
Proof. intros H. unfold shift. rewrite lookup_take_lt by exact H. reflexivity. Qed.

Lemma elem_of_shift s (v : string) : Some v ∈ shift s -> Some v ∈ s.
Proof.
  unfold shift. intros H. apply list_elem_of_lookup in H as [i H].
  rewrite lookup_take in H. destruct (decide (i < length s)); [| discriminate].
  destruct i as [| i]; [discriminate |]. exact (list_elem_of_lookup_2 s i _ H).
Qed.

Lemma length_fillna s t : length t = length s -> length (fillna s t) = length s.
Proof. intros H. unfold fillna. rewrite length_zip_with. lia. Qed.

Lemma elem_of_fillna s t (v : string) :
  Some v ∈ fillna s t -> Some v ∈ s \/ Some v ∈ t.
Proof.
  unfold fillna. intros H. apply list_elem_of_lookup in H as [i H].
  apply lookup_zip_with_Some in H as (x & y & E & Hx & Hy).
  destruct x as [x |].
  - left. rewrite E. exact (list_elem_of_lookup_2 _ _ _ Hx).
  - right. rewrite E. exact (list_elem_of_lookup_2 _ _ _ Hy).
Qed.

Lemma length_bfill t : length (bfill t) = length t.
Proof. induction t as [| x t IH]; [reflexivity |]. simpl. rewrite IH. reflexivity. Qed.

Lemma bfill_keeps t i (v : string) :
  t !! i = Some (Some v) -> bfill t !! i = Some (Some v).
Proof.
  revert i. induction t as [| x t IH]; intros i H; [discriminate |].
  destruct i as [| i].
  - injection H as ->. reflexivity.
  - exact (IH i H).
Qed.

Lemma bfill_step t i :
  t !! i = Some None ->
  bfill t !! i = Some (default None (bfill t !! S i)).
Proof.
  revert i. induction t as [| x t IH]; intros i H; [discriminate |].
  destruct i as [| i].
  - injection H as ->. cbn [bfill]. destruct (bfill t); reflexivity.
  - exact (IH i H).
Qed.

(** A missing value takes the first value below it. *)
Lemma bfill_first t i j (v : string) :
  i <= j -> t !! j = Some (Some v) ->
  (forall k, i <= k < j -> t !! k = Some None) ->
  bfill t !! i = Some (Some v).
Proof.
  intros Hij Hj Hk. remember (j - i) as n eqn:Hn. revert i Hij Hk Hn.
  induction n as [| n IH]; intros i Hij Hk Hn.
  - assert (i = j) as -> by lia. apply bfill_keeps. exact Hj.
  - rewrite bfill_step by (apply Hk; lia).
    rewrite (IH (S i)); [reflexivity | lia | intros; apply Hk; lia | lia].
Qed.

(** With no value below, it stays missing. *)
Lemma bfill_none t i :
  i < length t -> (forall k, i <= k -> k < length t -> t !! k = Some None) ->
  bfill t !! i = Some None.
Proof.
  intros Hi Hk. remember (length t - i) as n eqn:Hn. revert i Hi Hk Hn.
  induction n as [| n IH]; intros i Hi Hk Hn; [lia |].
  rewrite bfill_step by (apply Hk; lia).
  destruct (decide (S i < length t)) as [Hlt | Hge].
  - rewrite (IH (S i)); [reflexivity | lia | intros; apply Hk; lia | lia].
  - replace (bfill t !! S i) with (@None (option string)); [reflexivity |].
    symmetry. apply lookup_ge_None. rewrite length_bfill. lia.
Qed.

Lemma elem_of_bfill t (v : string) : Some v ∈ bfill t -> Some v ∈ t.
Proof.
  induction t as [| x t IH]; [exact id |]. cbn [bfill]. intros H.
  apply elem_of_cons in H as [E | H]; [| right; exact (IH H)].
  destruct x as [x |]; [rewrite E; left |]. right. apply IH.
  destruct (bfill t) as [| y l]; [discriminate |]. rewrite E. left.
Qed.

Lemma length_ffill_from a t : length (ffill_from a t) = length t.
Proof.
  revert a. induction t as [| x t IH]; intros a; [reflexivity |].
  simpl. rewrite IH. reflexivity.
Qed.

Lemma ffill_keeps a t i (v : string) :
  t !! i = Some (Some v) -> ffill_from a t !! i = Some (Some v).
Proof.
  revert a i. induction t as [| x t IH]; intros a i H; [discriminate |].
  destruct i as [| i].
  - injection H as ->. reflexivity.
  - exact (IH _ i H).
Qed.

Lemma ffill_zero a t : t !! 0 = Some None -> ffill_from a t !! 0 = Some a.
Proof. destruct t as [| [x |] t]; try discriminate. reflexivity. Qed.

(** A missing value takes the value the row above it ends with. *)
Lemma ffill_step a t i :
  t !! S i = Some None -> ffill_from a t !! S i = ffill_from a t !! i.
Proof.
  revert a i. induction t as [| x t IH]; intros a i H; [discriminate |].
  destruct i as [| i].
  - destruct t as [| [y |] t]; try discriminate. reflexivity.
  - exact (IH _ i H).
Qed.

Lemma elem_of_ffill a t (x : option string) :
  x ∈ ffill_from a t -> x = a \/ x ∈ t.
Proof.
  revert a. induction t as [| y t IH]; intros a H; [inversion H |].
  cbn [ffill_from] in H. apply elem_of_cons in H as [E | H].
  - destruct y as [y |]; [right; rewrite E; left | left; exact E].
  - apply IH in H as [E | H]; [| right; right; exact H].
    destruct y as [y |]; [right; rewrite E; left | left; exact E].
Qed.

Lemma elem_of_where rows (v : string) :
  Some v ∈ where_study_id rows ->
  exists r0, r0 ∈ rows /\ item r0 = Some "study_id" /\ response r0 = Some v.
Proof.
  intros H. apply elem_of_map in H as (r0 & E & Hin). exists r0.
  split; [exact Hin |]. unfold is_item in E.
  destruct (bool_decide (item r0 = Some "study_id")) eqn:Hb; [| discriminate].
  apply bool_decide_eq_true in Hb. split; [exact Hb | symmetry; exact E].
Qed.

Lemma length_where rows : length (where_study_id rows) = length rows.
Proof. apply length_map. Qed.

Lemma lookup_where rows i (r : Row) :
  rows !! i = Some r ->
  where_study_id rows !! i
  = Some (if is_item "study_id" r then response r else None).
Proof. intros H. unfold where_study_id. rewrite lookup_map, H. reflexivity. Qed.

Lemma is_item_true name (r : Row) : item r = Some name -> is_item name r = true.
Proof. intros H. apply bool_decide_eq_true_2, H. Qed.

Lemma is_item_false name (r : Row) : item r <> Some name -> is_item name r = false.
Proof. intros H. apply bool_decide_eq_false_2, H. Qed.

(** *** Setting a column *)

Lemma length_assign rows s :
  length s = length rows -> length (assign_study_id rows s) = length rows.
Proof. intros H. unfold assign_study_id. rewrite length_zip_with. lia. Qed.

Lemma assign_assign rows s t :
  length s = length rows ->
  assign_study_id (assign_study_id rows s) t = assign_study_id rows t.
Proof.
  revert s t. induction rows as [| r rows IH]; intros s t H; [reflexivity |].
  destruct s as [| u s]; [discriminate |]. destruct t as [| v t]; [reflexivity |].
  injection H as H. cbn. f_equal. apply IH, H.
Qed.

Lemma study_id_assign rows s :
  length s = length rows -> map study_id (assign_study_id rows s) = s.
Proof.
  revert s. induction rows as [| r rows IH]; intros s H.
  - destruct s; [reflexivity | discriminate].
  - destruct s as [| u s]; [discriminate |]. injection H as H.
    cbn. f_equal. apply IH, H.
Qed.

Lemma assign_other_columns rows s :
  length s = length rows ->
  map (set_study_id None) (assign_study_id rows s) = map (set_study_id None) rows.
Proof.
  revert s. induction rows as [| r rows IH]; intros s H; [reflexivity |].
  destruct s as [| u s]; [discriminate |]. injection H as H.
  cbn. f_equal. apply IH, H.
Qed.

Lemma lookup_assign rows s i (r : Row) (v : option string) :
  rows !! i = Some r -> s !! i = Some v ->
  assign_study_id rows s !! i = Some (set_study_id v r).
Proof.
  intros Hr Hs. unfold assign_study_id. rewrite lookup_zip_with, Hr, Hs. reflexivity.
Qed.

Lemma elem_of_assign rows s (r : Row) :
  r ∈ assign_study_id rows s ->
  exists r0 v, r0 ∈ rows /\ v ∈ s /\ r = set_study_id v r0.
Proof.
  intros H. apply list_elem_of_lookup in H as [i H].
  apply lookup_zip_with_Some in H as (r0 & v & E & Hr & Hv).
  exists r0, v. split; [exact (list_elem_of_lookup_2 _ _ _ Hr) |].
  split; [exact (list_elem_of_lookup_2 _ _ _ Hv) | exact E].
Qed.

Lemma filter_assign_other_columns rows s :
  length s = length rows ->
  map (set_study_id None) (filter other_item (assign_study_id rows s))
  = map (set_study_id None) (filter other_item rows).
Proof.
  revert s. induction rows as [| r rows IH]; intros s H; [reflexivity |].
  destruct s as [| u s]; [discriminate |]. injection H as H.
  change (assign_study_id (r :: rows) (u :: s))
    with (set_study_id u r :: assign_study_id rows s).
  rewrite !filter_cons.
  change (is_item "study_id" (set_study_id u r)) with (is_item "study_id" r).
  destruct (decide (is_item "study_id" r = false)).
  - cbn [map]. rewrite (IH s H). reflexivity.
  - apply IH, H.
Qed.

Lemma stop_assign rows s t :
  length s = length rows ->
  zip_with stop (assign_study_id rows s) t = zip_with stop rows t.
Proof.
  revert s t. induction rows as [| r rows IH]; intros s t H; [reflexivity |].
  destruct s as [| u s]; [discriminate |]. destruct t as [| v t]; [reflexivity |].
  injection H as H. cbn. f_equal. apply IH, H.
Qed.

(** Where a row that is kept ends up, and with which value. *)
Lemma filter_assign_lookup rows s i (q : Row) (v : option string) :
  length s = length rows ->
  rows !! i = Some q -> s !! i = Some v ->
  is_item "study_id" q = false ->
  filter other_item (assign_study_id rows s)
    !! length (filter other_item (take i rows))
  = Some (set_study_id v q).
Proof.
  revert s i. induction rows as [| r rows IH]; intros s i H Hq Hv Hk; [discriminate |].
  destruct s as [| u s]; [discriminate |]. injection H as H.
  change (assign_study_id (r :: rows) (u :: s))
    with (set_study_id u r :: assign_study_id rows s).
  rewrite filter_cons.
  change (is_item "study_id" (set_study_id u r)) with (is_item "study_id" r).
  destruct i as [| i].
  - injection Hq as ->. injection Hv as ->.
    rewrite decide_True by exact Hk. reflexivity.
  - cbn [take]. rewrite filter_cons.
    destruct (decide (is_item "study_id" r = false)).
    + cbn [length]. exact (IH s i H Hq Hv Hk).
    + exact (IH s i H Hq Hv Hk).
Qed.

(** *** The two tables in closed form *)

Lemma report_closed (report activity : list Row) :
  (StudyIdPreprocessor report activity).1
  = filter other_item
      (assign_study_id report
         (bfill (fillna (where_study_id report) (shift (where_study_id report))))).
Proof.
  unfold StudyIdPreprocessor. cbv zeta. cbn [fst].
  assert (Hl : length (where_study_id report) = length report) by apply length_map.
  rewrite (study_id_assign _ _ Hl), (assign_assign _ _ _ Hl). reflexivity.
Qed.

Lemma length_report_ids rows :
  length (bfill (fillna (where_study_id rows) (shift (where_study_id rows))))
  = length rows.
Proof.
  rewrite length_bfill, length_fillna by apply length_shift. apply length_where.
Qed.

Lemma activity_closed (report activity : list Row) :
  (StudyIdPreprocessor report activity).2
  = assign_study_id activity
      (ffill (map unstop (bfill (map stopped activity)))).
Proof.
  unfold StudyIdPreprocessor. cbv zeta. cbn [snd].
  assert (Hl : length (where_study_id activity) = length activity) by apply length_map.
  rewrite (study_id_assign _ _ Hl), (stop_assign _ _ _ Hl).
  set (a1 := zip_with stop activity (where_study_id activity)).
  assert (Hl1 : length a1 = length activity).
  { unfold a1. rewrite length_zip_with. lia. }
  rewrite (assign_assign _ _ _ Hl).
  rewrite (study_id_assign _ _ Hl1), (assign_assign _ _ _ Hl1).
  assert (Hl2 : length (bfill a1) = length activity) by (rewrite length_bfill; exact Hl1).
  rewrite (study_id_assign _ _ Hl2), (assign_assign _ _ _ Hl2).
  assert (Hl3 : length (map unstop (bfill a1)) = length activity)
    by (rewrite length_map; exact Hl2).
  rewrite (study_id_assign _ _ Hl3), (assign_assign _ _ _ Hl3).
  unfold a1, where_study_id. rewrite zip_with_map_r. reflexivity.
Qed.

(** *** The report *)

Lemma where_missing (r : Row) :
  (item r = Some "study_id" -> response r = None) ->
  (if is_item "study_id" r then response r else None) = None.
Proof.
  intros H. unfold is_item.
  destruct (bool_decide (item r = Some "study_id")) eqn:Hb; [| reflexivity].
  apply bool_decide_eq_true in Hb. exact (H Hb).
Qed.

Lemma lookup_fill_0 rows (r : Row) :
  rows !! 0 = Some r ->
  fillna (where_study_id rows) (shift (where_study_id rows)) !! 0
  = Some (if is_item "study_id" r then response r else None).
Proof.
  intros H. unfold fillna.
  rewrite lookup_zip_with, (lookup_where _ _ _ H), lookup_shift_0.
  - cbn. destruct (if is_item "study_id" r then response r else None); reflexivity.
  - rewrite length_where. exact (lookup_lt_Some _ _ _ H).
Qed.

Lemma lookup_fill_S rows k (r' r : Row) :
  rows !! k = Some r' -> rows !! S k = Some r ->
  fillna (where_study_id rows) (shift (where_study_id rows)) !! S k
  = Some match (if is_item "study_id" r then response r else None) with
         | Some x => Some x
         | None => if is_item "study_id" r' then response r' else None
         end.
Proof.
  intros H' H. unfold fillna.
  rewrite lookup_zip_with, (lookup_where _ _ _ H), lookup_shift_S,
    (lookup_where _ _ _ H').
  - cbn. destruct (if is_item "study_id" r then response r else None); reflexivity.
  - rewrite length_where. exact (lookup_lt_Some _ _ _ H).
Qed.

(** No value is filled in at a row that bears no study id when the row
    above bears none either. *)
Lemma fill_missing rows k :
  k < length rows ->
  (forall k' r, k <= S k' -> k' <= k -> rows !! k' = Some r ->
                item r = Some "study_id" -> response r = None) ->
  fillna (where_study_id rows) (shift (where_study_id rows)) !! k = Some None.
Proof.
  intros Hk Hm.
  destruct (proj2 (lookup_lt_is_Some rows k) Hk) as [r Hr].
  destruct k as [| k].
  - rewrite (lookup_fill_0 _ _ Hr), where_missing; [reflexivity |].
    apply (Hm 0 r); [lia | lia | exact Hr].
  - destruct (proj2 (lookup_lt_is_Some rows k) ltac:(lia)) as [r' Hr'].
    rewrite (lookup_fill_S _ _ _ _ Hr' Hr), where_missing, where_missing;
      [reflexivity | |].
    + apply (Hm k r'); [lia | lia | exact Hr'].
    + apply (Hm (S k) r); [lia | lia | exact Hr].
Qed.

Lemma fill_study_id rows j (r0 : Row) (v : string) :
  rows !! j = Some r0 -> item r0 = Some "study_id" -> response r0 = Some v ->
  fillna (where_study_id rows) (shift (where_study_id rows)) !! j = Some (Some v).
Proof.
  intros Hj Hi Hv. destruct j as [| j].
  - rewrite (lookup_fill_0 _ _ Hj), (is_item_true _ _ Hi), Hv. reflexivity.
  - destruct (proj2 (lookup_lt_is_Some rows j)
                ltac:(pose proof (lookup_lt_Some _ _ _ Hj); lia)) as [r' Hr'].
    rewrite (lookup_fill_S _ _ _ _ Hr' Hj), (is_item_true _ _ Hi), Hv. reflexivity.
Qed.

(** X21: the report that comes out of [StudyIdPreprocessor] holds the rows
    of the report that went in whose item is not [study_id], in their
    order and unchanged outside the column [study_id]; no row of it has
    the item [study_id]; and every study id found in it is the response
    of a [study_id] row of the report that went in. *)
Theorem report_drops_study_id_rows (report activity : list Row) :
  let out := (StudyIdPreprocessor report activity).1 in
  map (set_study_id None) out
  = map (set_study_id None)
      (filter (fun r => is_item "study_id" r = false) report)
  /\ (forall r, r ∈ out -> item r <> Some "study_id")
  /\ (forall r v, r ∈ out -> study_id r = Some v ->
        exists r0, r0 ∈ report /\ item r0 = Some "study_id"
                   /\ response r0 = Some v).
Proof.
  cbv zeta. rewrite report_closed. split; [| split].
  - apply filter_assign_other_columns, length_report_ids.
  - intros r Hr Hi. apply list_elem_of_filter in Hr as [Hk _].
    rewrite (is_item_true _ _ Hi) in Hk. discriminate.
  - intros r v Hr Hv. apply list_elem_of_filter in Hr as [_ Hr].
    apply elem_of_assign in Hr as (r1 & u & _ & Hu & ->).
    cbn in Hv. subst u.
    apply elem_of_bfill, elem_of_fillna in Hu as [Hu | Hu].
    + exact (elem_of_where _ _ Hu).
    + exact (elem_of_where _ _ (elem_of_shift _ _ Hu)).
Qed.

(** X22: which study id a row of the report gets.  A row whose item is
    not [study_id] comes out at the place it has among such rows, (1)
    with the response of the [study_id] row directly above it, when there
    is one with a response; (2) else with the response of the first
    [study_id] row below it that has one; (3) else without a study id. *)
Theorem report_study_id_rule (report activity : list Row) (i : nat) (q : Row) :
  let out := (StudyIdPreprocessor report activity).1 in
  let place :=
    length (filter (fun r => is_item "study_id" r = false) (take i report)) in
  report !! i = Some q ->
  item q <> Some "study_id" ->
  (forall p r0 v,
      S p = i -> report !! p = Some r0 ->
      item r0 = Some "study_id" -> response r0 = Some v ->
      out !! place = Some (set_study_id (Some v) q))
  /\ (forall j r0 v,
        i < j -> report !! j = Some r0 ->
        item r0 = Some "study_id" -> response r0 = Some v ->
        (forall k r, i <= S k -> k < j -> report !! k = Some r ->
                     item r = Some "study_id" -> response r = None) ->
        out !! place = Some (set_study_id (Some v) q))
  /\ ((forall k r, i <= S k -> report !! k = Some r ->
                   item r = Some "study_id" -> response r = None) ->
      out !! place = Some (set_study_id None q)).
Proof.
  cbv zeta. intros Hq Hitem. rewrite report_closed.
  assert (Hk : is_item "study_id" q = false) by exact (is_item_false _ _ Hitem).
  assert (Hi : i < length report) by exact (lookup_lt_Some _ _ _ Hq).
  split; [| split].
  - intros p r0 v <- Hp Hi0 Hv.
    apply filter_assign_lookup; [apply length_report_ids | exact Hq | | exact Hk].
    apply bfill_keeps.
    rewrite (lookup_fill_S _ _ _ _ Hp Hq), Hk, (is_item_true _ _ Hi0), Hv.
    reflexivity.
  - intros j r0 v Hij Hj Hi0 Hv Hm.
    apply filter_assign_lookup; [apply length_report_ids | exact Hq | | exact Hk].
    apply (bfill_first _ i j); [lia | exact (fill_study_id _ _ _ _ Hj Hi0 Hv) |].
    intros k Hk'. apply fill_missing.
    + pose proof (lookup_lt_Some _ _ _ Hj). lia.
    + intros k' r H1 H2. apply Hm; lia.
  - intros Hm.
    apply filter_assign_lookup; [apply length_report_ids | exact Hq | | exact Hk].
    apply bfill_none.
    + rewrite length_fillna by apply length_shift. rewrite length_where. exact Hi.
    + intros k H1 H2. apply fill_missing.
      * rewrite length_fillna, length_where in H2 by apply length_shift. exact H2.
      * intros k' r H3 H4. apply Hm. lia.
Qed.

Lemma report_study_id_rule_witness :
  (StudyIdPreprocessor two_sessions two_sessions).1 !! 0
  = Some (set_study_id (Some "A") (entry "draw" (Some "d1")))
  /\ (StudyIdPreprocessor two_sessions two_sessions).1 !! 1
     = Some (set_study_id (Some "A") (entry "cursive_q" (Some "yes"))).
Proof.
  pose proof (report_study_id_rule two_sessions two_sessions 0
                (entry "draw" (Some "d1")) eq_refl ltac:(discriminate))
    as (_ & H0 & _).
  pose proof (report_study_id_rule two_sessions two_sessions 2
                (entry "cursive_q" (Some "yes")) eq_refl ltac:(discriminate))
    as (H2 & _ & _).
  split.
  - apply (H0 1 (entry "study_id" (Some "A")) "A");
      [lia | reflexivity | reflexivity | reflexivity |].
    intros k r _ Hk Hr Hi. assert (k = 0) as -> by lia.
    injection Hr as <-. discriminate.
  - apply (H2 1 (entry "study_id" (Some "A")) "A"); reflexivity.
Defined.

(** *** The activity table *)

Lemma lookup_stop rows k (r : Row) :
  rows !! k = Some r ->
  map stopped rows !! k
  = Some (if is_item "cursive_q" r then Some "STOP"
          else if is_item "study_id" r then response r else None).
Proof. intros H. rewrite lookup_map, H. reflexivity. Qed.

Lemma stop_missing rows k (r : Row) :
  rows !! k = Some r ->
  item r <> Some "cursive_q" ->
  (item r = Some "study_id" -> response r = None) ->
  map stopped rows !! k
  = Some None.
Proof.
  intros H Hc Hs.
  rewrite (lookup_stop _ _ _ H), (is_item_false _ _ Hc), (where_missing _ Hs).
  reflexivity.
Qed.

Lemma length_activity_ids rows :
  length (ffill (map unstop (bfill (map stopped rows)))) = length rows.
Proof.
  unfold ffill. rewrite length_ffill_from, length_map, length_bfill, length_map.
  reflexivity.
Qed.

(** X23: the activity table that comes out of [StudyIdPreprocessor] holds
    the rows of the one that went in, all of them, in their order and
    unchanged outside the column [study_id]; no row of it has the study
    id [STOP]; and every study id found in it is the response of a
    [study_id] row of the table that went in. *)
Theorem activity_keeps_rows (report activity : list Row) :
  let out := (StudyIdPreprocessor report activity).2 in
  map (set_study_id None) out = map (set_study_id None) activity
  /\ (forall r, r ∈ out -> study_id r <> Some "STOP")
  /\ (forall r v, r ∈ out -> study_id r = Some v ->
        exists r0, r0 ∈ activity /\ item r0 = Some "study_id"
                   /\ response r0 = Some v).
Proof.
  cbv zeta. rewrite activity_closed.
  assert (Hval : forall r v,
             r ∈ assign_study_id activity
                   (ffill (map unstop (bfill (map stopped activity)))) ->
                 study_id r = Some v ->
                 v <> "STOP"
                 /\ exists r0, r0 ∈ activity /\ item r0 = Some "study_id"
                               /\ response r0 = Some v).
  { intros r v Hr Hv. apply elem_of_assign in Hr as (r1 & u & _ & Hu & ->).
    cbn in Hv. subst u.
    apply elem_of_ffill in Hu as [Hu | Hu]; [discriminate |].
    apply elem_of_map in Hu as (x & E & Hx).
    destruct (bool_decide (x = Some "STOP")) eqn:Hb; [discriminate |].
    apply bool_decide_eq_false in Hb. subst x.
    split; [intros ->; apply Hb; reflexivity |].
    apply elem_of_bfill, elem_of_map in Hx as (r0 & E & Hin).
    exists r0. split; [exact Hin |].
    destruct (is_item "cursive_q" r0); [injection E as ->; contradiction |].
    unfold is_item in E.
    destruct (bool_decide (item r0 = Some "study_id")) eqn:Hs; [| discriminate].
    apply bool_decide_eq_true in Hs. split; [exact Hs | symmetry; exact E]. }
  split; [| split].
  - apply assign_other_columns, length_activity_ids.
  - intros r Hr Hs. destruct (Hval r "STOP" Hr Hs) as [Hne _]. contradiction.
  - intros r v Hr Hv. exact (proj2 (Hval r v Hr Hv)).
Qed.

(** X24: which study id a row of the activity table gets.  Going down
    from the row, over rows that are no [cursive_q] row and bear no study
    id: (1) if a [study_id] row with a response other than [STOP] comes
    first, the row gets that response; (2) if a [cursive_q] row comes
    first, or (3) nothing comes, the row gets what the row above it comes
    out with, and nothing if it is the first row. *)
Theorem activity_study_id_rule (report activity : list Row) (i : nat) (q : Row) :
  let out := (StudyIdPreprocessor report activity).2 in
  let above := match i with 0 => None | S p => out !! p ≫= study_id end in
  activity !! i = Some q ->
  (forall j r0 v,
      i <= j -> activity !! j = Some r0 ->
      item r0 = Some "study_id" -> response r0 = Some v -> v <> "STOP" ->
      (forall k r, i <= k < j -> activity !! k = Some r ->
                   item r <> Some "cursive_q"
                   /\ (item r = Some "study_id" -> response r = None)) ->
      out !! i = Some (set_study_id (Some v) q))
  /\ (forall j r0,
        i <= j -> activity !! j = Some r0 -> item r0 = Some "cursive_q" ->
        (forall k r, i <= k < j -> activity !! k = Some r ->
                     item r <> Some "cursive_q"
                     /\ (item r = Some "study_id" -> response r = None)) ->
        out !! i = Some (set_study_id above q))
  /\ ((forall k r, i <= k -> activity !! k = Some r ->
                   item r <> Some "cursive_q"
                   /\ (item r = Some "study_id" -> response r = None)) ->
      out !! i = Some (set_study_id above q)).
Proof.
  cbv zeta. intros Hq. rewrite activity_closed.
  set (a1 := map stopped activity).
  assert (Hi : i < length activity) by exact (lookup_lt_Some _ _ _ Hq).
  assert (Hrun : forall j, (forall k r, i <= k < j -> activity !! k = Some r ->
                     item r <> Some "cursive_q"
                     /\ (item r = Some "study_id" -> response r = None)) ->
                 j <= length activity ->
                 forall k, i <= k < j -> a1 !! k = Some None).
  { intros j Hm Hj k Hk.
    destruct (proj2 (lookup_lt_is_Some activity k) ltac:(lia)) as [r Hr].
    destruct (Hm k r Hk Hr) as [Hc Hs]. exact (stop_missing _ _ _ Hr Hc Hs). }
  assert (Habove : map unstop (bfill a1) !! i = Some None ->
            assign_study_id activity (ffill (map unstop (bfill a1))) !! i
            = Some (set_study_id
                      match i with
                      | 0 => None
                      | S p => assign_study_id activity
                                 (ffill (map unstop (bfill a1))) !! p ≫= study_id
                      end q)).
  { intros Hnone. apply (lookup_assign _ _ _ _ _ Hq). unfold ffill.
    destruct i as [| p]; [exact (ffill_zero _ _ Hnone) |].
    rewrite (ffill_step _ _ _ Hnone).
    destruct (proj2 (lookup_lt_is_Some activity p) ltac:(lia)) as [rp Hrp].
    destruct (proj2 (lookup_lt_is_Some
                       (ffill_from None (map unstop (bfill a1))) p)
                ltac:(rewrite length_ffill_from, length_map, length_bfill;
                      unfold a1; rewrite length_map; lia)) as [vp Hvp].
    rewrite Hvp. unfold ffill in *. rewrite (lookup_assign _ _ _ _ _ Hrp Hvp).
    reflexivity. }
  split; [| split].
  - intros j r0 v Hij Hj Hi0 Hv Hne Hm.
    apply (lookup_assign _ _ _ _ _ Hq). apply ffill_keeps.
    rewrite lookup_map.
    rewrite (bfill_first a1 i j v Hij).
    + cbn. rewrite bool_decide_eq_false_2 by congruence. reflexivity.
    + unfold a1. rewrite (lookup_stop _ _ _ Hj), (is_item_true _ _ Hi0), Hv.
      rewrite is_item_false by (rewrite Hi0; discriminate). reflexivity.
    + apply (Hrun j Hm). pose proof (lookup_lt_Some _ _ _ Hj). lia.
  - intros j r0 Hij Hj Hc Hm. apply Habove.
    rewrite lookup_map.
    rewrite (bfill_first a1 i j "STOP" Hij).
    + reflexivity.
    + unfold a1. rewrite (lookup_stop _ _ _ Hj), (is_item_true _ _ Hc). reflexivity.
    + apply (Hrun j Hm). pose proof (lookup_lt_Some _ _ _ Hj). lia.
  - intros Hm. apply Habove.
    rewrite lookup_map, bfill_none; [reflexivity | |].
    + unfold a1. rewrite length_map. exact Hi.
    + intros k H1 H2. unfold a1 in H2. rewrite length_map in H2.
      apply (Hrun (S k)); [| lia | lia].
      intros k' r Hk' Hr. apply (Hm k' r); [lia | exact Hr].
Qed.

Lemma activity_study_id_rule_witness :
  (StudyIdPreprocessor two_sessions two_sessions).2 !! 0
  = Some (set_study_id (Some "A") (entry "draw" (Some "d1")))
  /\ (StudyIdPreprocessor two_sessions two_sessions).2 !! 2
     = Some (set_study_id (Some "A") (entry "cursive_q" (Some "yes"))).
Proof.
  pose proof (activity_study_id_rule two_sessions two_sessions 0
                (entry "draw" (Some "d1")) eq_refl) as (H0 & _ & _).
  pose proof (activity_study_id_rule two_sessions two_sessions 2
                (entry "cursive_q" (Some "yes")) eq_refl) as (_ & H2 & _).
  split.
  - apply (H0 1 (entry "study_id" (Some "A")) "A");
      [lia | reflexivity | reflexivity | reflexivity | discriminate |].
    intros k r Hk Hr. assert (k = 0) as -> by lia.
    injection Hr as <-. split; discriminate.
  - etransitivity.
    + apply (H2 2 (entry "cursive_q" (Some "yes"))); [lia | reflexivity | reflexivity |].
      intros k r Hk. lia.
    + vm_compute. reflexivity.
Defined.

End StudyId.
